(** * Personal expense tracker: derived-metrics engine

    A shallow embedding of the services of the tracker
    (storage.ts, analytics.ts, budget.ts, forecast.ts, gamification.ts)
    and the properties of its specification that were checked against it.

    Modelling conventions.
    - Counters, months, years and timestamps are integers ([Z]).  A
      JavaScript [number] holding money or a percentage is embedded twice.
      On exact rationals ([Q], two numbers being [===] when they are
      [Qeq]) the services carry the properties of the store and the bounds
      that hold whatever the rounding.  The functions whose returned value
      depends on how the engine rounds (rates, growth, percentages and
      tiers, averages, trends) are embedded again in module [Double], on
      binary64 numbers with the IEEE 754 operations, and what is stated
      about those values is stated there.
    - [localStorage] is a record with one optional field per key the
      services use; each field holds the value already parsed ([None] when
      the key is absent).  A stored text that does not parse is not
      modelled.
    - [new Date()] is an explicit argument [now] of every function that
      reads the clock.  Local time and UTC are taken to coincide.
    - A function that writes to [localStorage] returns the new store next
      to its result. *)

From Stdlib Require Import ZArith QArith Qround Qabs List String Ascii Bool Lia Lqa DecimalString.
From Stdlib Require Floats.
Import ListNotations.

Set Implicit Arguments.

(** ** JavaScript built-ins used by the services *)

Module JS.

(** [Math.round]: the nearest integer, a tie going up. *)
Definition Math_round (x : Q) : Q := inject_Z (Qfloor (x + (1 # 2))).

(** [a > b], [a <= b], [a === b] on numbers. *)
Definition gt (a b : Q) : bool := negb (Qle_bool a b).
Definition lt (a b : Q) : bool := negb (Qle_bool b a).
Definition le (a b : Q) : bool := Qle_bool a b.
Definition ge (a b : Q) : bool := Qle_bool b a.
Definition strict_eq (a b : Q) : bool := Qeq_bool a b.

(** [for (let i = 0; i < n; i++) body], the loop state threaded through. *)
Definition for_loop {S : Type} (n : nat) (body : nat -> S -> S) (init : S) : S :=
  fold_left (fun s i => body i s) (seq 0 n) init.

(** [arr.forEach((value, index) => body)]. *)
Fixpoint forEach_from {A S : Type} (body : A -> nat -> S -> S)
         (index : nat) (arr : list A) (s : S) : S :=
  match arr with
  | [] => s
  | value :: rest => forEach_from body (Datatypes.S index) rest (body value index s)
  end.

Definition forEach {A S : Type} (body : A -> nat -> S -> S) (arr : list A) (s : S) : S :=
  forEach_from body 0 arr s.

(** [arr.reduce((sum, e) => sum + f e, 0)]. *)
Definition sumOf {A : Type} (f : A -> Q) (arr : list A) : Q :=
  fold_left (fun sum e => sum + f e)%Q arr 0%Q.

(** [arr.findIndex(p)], [None] for -1. *)
Fixpoint findIndex {A : Type} (p : A -> bool) (arr : list A) : option nat :=
  match arr with
  | [] => None
  | x :: rest => if p x then Some 0%nat
                 else option_map Datatypes.S (findIndex p rest)
  end.

(** [arr[index] = v] for an index inside the array. *)
Fixpoint setAt {A : Type} (arr : list A) (index : nat) (v : A) : list A :=
  match arr, index with
  | [], _ => []
  | _ :: rest, O => v :: rest
  | x :: rest, Datatypes.S k => x :: setAt rest k v
  end.

(** [arr.sort(cmp)]: a stable sort; [before a b] says that [cmp(a, b)] is
    not positive, so that [a] may stay in front of [b]. *)
Fixpoint insertSorted {A : Type} (before : A -> A -> bool) (x : A) (l : list A) : list A :=
  match l with
  | [] => [x]
  | y :: rest => if before x y then x :: l else y :: insertSorted before x rest
  end.

Definition sort {A : Type} (before : A -> A -> bool) (l : list A) : list A :=
  fold_right (insertSorted before) [] l.

(** [a || b] on values that may be undefined or the empty text. *)
Definition orElse (a b : option string) : option string :=
  match a with
  | Some s => if (s =? "")%string then b else a
  | None => b
  end.

(** A template literal prints an undefined value as [undefined]. *)
Definition template (a : option string) : string :=
  match a with
  | Some s => s
  | None => "undefined"
  end.

(** *** Dates

    A [Date] is kept as its calendar fields; [getMonth] is zero-based. *)
Record Date := mkDate { getFullYear : Z; getMonth : Z; getDate : Z }.

Definition isLeapYear (y : Z) : bool :=
  ((y mod 4 =? 0)%Z && negb (y mod 100 =? 0)%Z) || (y mod 400 =? 0)%Z.

Definition daysInMonth (y m : Z) : Z :=
  if (m =? 1)%Z then (if isLeapYear y then 29 else 28)%Z
  else if ((m =? 3) || (m =? 5) || (m =? 8) || (m =? 10))%Z then 30%Z
  else 31%Z.

(** The fields [new Date()] can return. *)
Definition Date_valid (d : Date) : Prop :=
  (0 <= getMonth d <= 11 /\ 1 <= getDate d <= daysInMonth (getFullYear d) (getMonth d))%Z.

(** [d.setMonth(m)]: the month is brought back into the year, the day of
    the month is kept, and a day past the end of the target month runs
    over into the following month (at most three days, the day of a
    valid date being at most 31). *)
Definition Date_setMonth (d : Date) (m : Z) : Date :=
  let y' := (getFullYear d + m / 12)%Z in
  let m' := (m mod 12)%Z in
  let dim := daysInMonth y' m' in
  if (getDate d <=? dim)%Z then mkDate y' m' (getDate d)
  else if (m' =? 11)%Z then mkDate (y' + 1) 0 (getDate d - dim)
  else mkDate y' (m' + 1) (getDate d - dim).

(** [d.setDate(n)] for the argument the services pass, [getDate() - 1]:
    day 0 is the last day of the month before. *)
Definition Date_setDate (d : Date) (n : Z) : Date :=
  if (1 <=? n)%Z then mkDate (getFullYear d) (getMonth d) n
  else
    let y' := if (getMonth d =? 0)%Z then (getFullYear d - 1)%Z else getFullYear d in
    let m' := if (getMonth d =? 0)%Z then 11%Z else (getMonth d - 1)%Z in
    mkDate y' m' (daysInMonth y' m' + n).

Definition digit (z : Z) : ascii := ascii_of_nat (48 + Z.to_nat (z mod 10)).

(** The last [k] decimal digits of [z], most significant first. *)
Fixpoint digits (k : nat) (z : Z) : string :=
  match k with
  | O => EmptyString
  | Datatypes.S k' => (digits k' (z / 10) ++ String (digit z) EmptyString)%string
  end.

Definition isoYear (y : Z) : string :=
  if ((0 <=? y) && (y <=? 9999))%Z then digits 4 y
  else if (y <? 0)%Z then ("-" ++ digits 6 (- y))%string
  else ("+" ++ digits 6 y)%string.

(** [d.toISOString().split('T')[0]]. *)
Definition toISODate (d : Date) : string :=
  (isoYear (getFullYear d) ++ "-" ++ digits 2 (getMonth d + 1) ++ "-" ++ digits 2 (getDate d))%string.

(** What the host decides: how [new Date(text)] reads a date text
    ([None] for an invalid date) and how a number is printed. *)
Class Host := {
  Date_parse : string -> option Date;
  Number_toString : Q -> string
}.

(** [new Date(year, month, 1)]: the first day of the month, a month outside
    0..11 being carried into the year. *)
Definition Date_firstOfMonth (year month : Z) : Date :=
  mkDate (year + month / 12)%Z (month mod 12)%Z 1%Z.

(** [Math.abs]. *)
Definition Math_abs (x : Q) : Q := Qabs x.

End JS.

(** ** types.ts *)

Inductive Category :=
| FoodGroceries | Meals | Transport | Fuel | RentUtilities | Education | HealthHygiene
| EatingOut | Entertainment | Shopping | TravelTrips | Hobbies | Gifts
| EmergencyFund | Gadgets | FutureGoals.

Inductive EntryType := income | expense.

Definition Category_eqb (a b : Category) : bool :=
  match a, b with
  | FoodGroceries, FoodGroceries | Meals, Meals | Transport, Transport | Fuel, Fuel
  | RentUtilities, RentUtilities | Education, Education | HealthHygiene, HealthHygiene
  | EatingOut, EatingOut | Entertainment, Entertainment | Shopping, Shopping
  | TravelTrips, TravelTrips | Hobbies, Hobbies | Gifts, Gifts
  | EmergencyFund, EmergencyFund | Gadgets, Gadgets | FutureGoals, FutureGoals => true
  | _, _ => false
  end.

Definition EntryType_eqb (a b : EntryType) : bool :=
  match a, b with
  | income, income | expense, expense => true
  | _, _ => false
  end.

(** The text a category or an entry type is at run time. *)
Definition Category_text (c : Category) : string :=
  match c with
  | FoodGroceries => "FoodGroceries" | Meals => "Meals" | Transport => "Transport"
  | Fuel => "Fuel" | RentUtilities => "RentUtilities" | Education => "Education"
  | HealthHygiene => "HealthHygiene" | EatingOut => "EatingOut"
  | Entertainment => "Entertainment" | Shopping => "Shopping"
  | TravelTrips => "TravelTrips" | Hobbies => "Hobbies" | Gifts => "Gifts"
  | EmergencyFund => "EmergencyFund" | Gadgets => "Gadgets" | FutureGoals => "FutureGoals"
  end.

Definition EntryType_text (t : EntryType) : string :=
  match t with income => "income" | expense => "expense" end.

Definition NEEDS_CATEGORIES : list Category :=
  [FoodGroceries; Meals; Transport; Fuel; RentUtilities; Education; HealthHygiene].
Definition LIFESTYLE_CATEGORIES : list Category :=
  [EatingOut; Entertainment; Shopping; TravelTrips; Hobbies; Gifts].
Definition SAVINGS_CATEGORIES : list Category :=
  [EmergencyFund; Gadgets; FutureGoals].
Definition ALL_CATEGORIES : list Category :=
  NEEDS_CATEGORIES ++ LIFESTYLE_CATEGORIES ++ SAVINGS_CATEGORIES.
Definition CATEGORIES : list Category := ALL_CATEGORIES.

(** An entry as it is stored.  [categoryGroup] and [priority] are kept as
    the texts found in the store: entries written by older versions lack
    the first and carry [need] or [want] in the second. *)
Module Entry.
Record t := mk {
  id : string;
  amount : Q;
  type : EntryType;
  category : Category;
  categoryGroup : option string;
  priority : option string;
  date : string;
  note : option string;
  createdAt : Z
}.
End Entry.

(** [Partial<Omit<Entry, 'id' | 'createdAt'>>]: [None] for a key that is
    not given.  The note, the one field an entry need not have, can also be
    given as [undefined] ([Some None]); the entry form does so for an empty
    note, and the note of the entry is then gone. *)
Module EntryUpdates.
Record t := mk {
  amount : option Q;
  type : option EntryType;
  category : option Category;
  categoryGroup : option string;
  priority : option string;
  date : option string;
  note : option (option string)
}.
End EntryUpdates.

Module MonthlyData.
Record t := mk {
  totalIncome : Q;
  totalNeeds : Q;
  totalLifestyle : Q;
  totalSavings : Q;
  totalWants : Q;
  balance : Q
}.
End MonthlyData.

Module GroupedData.
Record t := mk { needs : Q; lifestyle : Q; savings : Q }.
End GroupedData.

Module Budget.
Record t := mk { category : Category; amount : Q; month : Z; year : Z }.
End Budget.

(** The value kept under the last-budget-month key. *)
Module BudgetMonth.
Record t := mk { month : Z; year : Z }.
End BudgetMonth.

Inductive Status := green | yellow | red.

Module CategoryBudgetStatus.
Record t := mk {
  category : Category;
  budgetAmount : Q;
  spentAmount : Q;
  remainingAmount : Q;
  percentage : Q;
  status : Status
}.
End CategoryBudgetStatus.

(** What [getTotalBudgetSummary] returns. *)
Module TotalBudgetSummary.
Record t := mk {
  totalBudget : Q;
  totalSpent : Q;
  totalRemaining : Q;
  overallPercentage : Q;
  overallStatus : Status
}.
End TotalBudgetSummary.

Module CategoryGrowth.
Record t := mk {
  category : Category;
  currentAmount : Q;
  previousAmount : Q;
  growthPercent : Q
}.
End CategoryGrowth.

Module StreakData.
Record t := mk {
  currentStreak : Z;
  longestStreak : Z;
  lastEntryDate : string;
  totalDaysWithEntries : Z
}.
End StreakData.

(** ** localStorage *)

Module LocalStorage.
Record t := mk {
  STORAGE_KEY : option (list Entry.t);
  BUDGET_KEY : option (list Budget.t);
  BUDGET_MONTH_KEY : option BudgetMonth.t;
  STREAK_KEY : option StreakData.t;
  ACHIEVEMENTS_KEY : option (list string)
}.

Definition empty : t := mk None None None None None.

Definition set_STORAGE_KEY (v : list Entry.t) (s : t) : t :=
  mk (Some v) (BUDGET_KEY s) (BUDGET_MONTH_KEY s) (STREAK_KEY s) (ACHIEVEMENTS_KEY s).
Definition set_BUDGET_KEY (v : list Budget.t) (s : t) : t :=
  mk (STORAGE_KEY s) (Some v) (BUDGET_MONTH_KEY s) (STREAK_KEY s) (ACHIEVEMENTS_KEY s).
Definition set_BUDGET_MONTH_KEY (v : BudgetMonth.t) (s : t) : t :=
  mk (STORAGE_KEY s) (BUDGET_KEY s) (Some v) (STREAK_KEY s) (ACHIEVEMENTS_KEY s).
Definition set_STREAK_KEY (v : StreakData.t) (s : t) : t :=
  mk (STORAGE_KEY s) (BUDGET_KEY s) (BUDGET_MONTH_KEY s) (Some v) (ACHIEVEMENTS_KEY s).
Definition set_ACHIEVEMENTS_KEY (v : list string) (s : t) : t :=
  mk (STORAGE_KEY s) (BUDGET_KEY s) (BUDGET_MONTH_KEY s) (STREAK_KEY s) (Some v).

(** [localStorage.removeItem(STORAGE_KEY)]. *)
Definition remove_STORAGE_KEY (s : t) : t :=
  mk None (BUDGET_KEY s) (BUDGET_MONTH_KEY s) (STREAK_KEY s) (ACHIEVEMENTS_KEY s).
End LocalStorage.

(** ** services/storage.ts *)

Module Storage.
Import JS.

Definition getEntries (s : LocalStorage.t) : list Entry.t :=
  match LocalStorage.STORAGE_KEY s with
  | None => []
  | Some data => data
  end.

Definition saveEntries (entries : list Entry.t) (s : LocalStorage.t) : LocalStorage.t :=
  LocalStorage.set_STORAGE_KEY entries s.

(** [{ ...entry, ...updates }]. *)
Definition spread (entry : Entry.t) (updates : EntryUpdates.t) : Entry.t :=
  let pick {A : Type} (u : option A) (old : A) : A :=
    match u with Some v => v | None => old end in
  Entry.mk
    (Entry.id entry)
    (pick (EntryUpdates.amount updates) (Entry.amount entry))
    (pick (EntryUpdates.type updates) (Entry.type entry))
    (pick (EntryUpdates.category updates) (Entry.category entry))
    (match EntryUpdates.categoryGroup updates with
     | Some v => Some v | None => Entry.categoryGroup entry end)
    (match EntryUpdates.priority updates with
     | Some v => Some v | None => Entry.priority entry end)
    (pick (EntryUpdates.date updates) (Entry.date entry))
    (match EntryUpdates.note updates with
     | Some v => v | None => Entry.note entry end)
    (Entry.createdAt entry).

Definition updateEntry (s : LocalStorage.t) (id : string) (updates : EntryUpdates.t)
  : option Entry.t * LocalStorage.t :=
  let entries := getEntries s in
  match findIndex (fun e => (Entry.id e =? id)%string) entries with
  | None => (None, s)
  | Some index =>
      match nth_error entries index with
      | None => (None, s)
      | Some old =>
          let entries' := setAt entries index (spread old updates) in
          (nth_error entries' index, saveEntries entries' s)
      end
  end.

Definition deleteEntry (s : LocalStorage.t) (id : string) : bool * LocalStorage.t :=
  let entries := getEntries s in
  let filtered := filter (fun e => negb (Entry.id e =? id)%string) entries in
  if (List.length filtered =? List.length entries)%nat then (false, s)
  else (true, saveEntries filtered s).

Definition getEntriesByMonth `{Host} (s : LocalStorage.t) (year month : Z) : list Entry.t :=
  let entries := getEntries s in
  sort (fun a b => (Entry.createdAt b - Entry.createdAt a <=? 0)%Z)
       (filter (fun entry =>
                  match Date_parse (Entry.date entry) with
                  | Some date => ((getFullYear date =? year) && (getMonth date =? month))%Z
                  | None => false
                  end) entries).

Definition equals (group : option string) (text : string) : bool :=
  match group with
  | Some g => (g =? text)%string
  | None => false
  end.

Definition getMonthlyData `{Host} (s : LocalStorage.t) (year month : Z) : MonthlyData.t :=
  let entries := getEntriesByMonth s year month in
  let '(totalIncome, totalNeeds, totalLifestyle, totalSavings) :=
    fold_left
      (fun '(totalIncome, totalNeeds, totalLifestyle, totalSavings) entry =>
         if EntryType_eqb (Entry.type entry) income then
           (totalIncome + Entry.amount entry, totalNeeds, totalLifestyle, totalSavings)
         else
           let group := orElse (Entry.categoryGroup entry) (Entry.priority entry) in
           if equals group "needs" || equals group "need" then
             (totalIncome, totalNeeds + Entry.amount entry, totalLifestyle, totalSavings)
           else if equals group "lifestyle" then
             (totalIncome, totalNeeds, totalLifestyle + Entry.amount entry, totalSavings)
           else if equals group "savings" then
             (totalIncome, totalNeeds, totalLifestyle, totalSavings + Entry.amount entry)
           else if equals group "want" then
             (totalIncome, totalNeeds, totalLifestyle + Entry.amount entry, totalSavings)
           else (totalIncome, totalNeeds, totalLifestyle, totalSavings))
      entries (0, 0, 0, 0) in
  MonthlyData.mk totalIncome totalNeeds totalLifestyle totalSavings totalLifestyle
                 (totalIncome - totalNeeds - totalLifestyle - totalSavings).

(** What [exportToCSV] does to the page: an alert, or the download of a
    file with the given name and content. *)
Inductive ExportEffect :=
| Alert (message : string)
| Download (filename content : string).

Definition headers : list string :=
  ["Date"; "Type"; "Category"; "Priority"; "Amount"; "Note"]%string.

Definition row `{Host} (entry : Entry.t) : list string :=
  [ Entry.date entry;
    EntryType_text (Entry.type entry);
    Category_text (Entry.category entry);
    template (Entry.priority entry);
    Number_toString (Entry.amount entry);
    match Entry.note entry with
    | Some n => n | None => ""%string end ].

Definition doubleQuote : ascii := ascii_of_nat 34.

(** The cell between two double quotes. *)
Definition quoted (cell : string) : string :=
  (String doubleQuote cell ++ String doubleQuote EmptyString)%string.

Definition newline : string := String (ascii_of_nat 10) EmptyString.

Definition csvContent `{Host} (entries : list Entry.t) : string :=
  concat newline
         (concat "," headers
            :: map (fun r => concat "," (map quoted r)) (map row entries)).

Definition exportToCSV `{Host} (now : Date) (s : LocalStorage.t) : ExportEffect :=
  let entries := getEntries s in
  if (List.length entries =? 0)%nat then Alert "No entries to export!"
  else Download ("expenses_" ++ toISODate now ++ ".csv") (csvContent entries).


(** [addEntry]; [generatedId] is what [generateId()] returns (the clock and
    a random number printed in base 36) and [timestamp] what [Date.now()]
    returns.  The id and the creation time of [entry] are not read. *)
Definition addEntry (s : LocalStorage.t) (entry : Entry.t)
           (generatedId : string) (timestamp : Z) : Entry.t * LocalStorage.t :=
  let entries := getEntries s in
  let newEntry :=
    Entry.mk generatedId (Entry.amount entry) (Entry.type entry) (Entry.category entry)
             (Entry.categoryGroup entry) (Entry.priority entry) (Entry.date entry)
             (Entry.note entry) timestamp in
  (newEntry, saveEntries (entries ++ [newEntry]) s).

(** [clearAllData]; [confirmed] is the answer to the confirmation box. *)
Definition clearAllData (confirmed : bool) (s : LocalStorage.t) : LocalStorage.t :=
  if confirmed then LocalStorage.remove_STORAGE_KEY s else s.

Definition getCategoryGroupData `{Host} (s : LocalStorage.t) (year month : Z) : GroupedData.t :=
  let entries :=
    filter (fun e => EntryType_eqb (Entry.type e) expense) (getEntriesByMonth s year month) in
  let '(needs, lifestyle, savings) :=
    fold_left
      (fun '(needs, lifestyle, savings) entry =>
         let group := orElse (Entry.categoryGroup entry) (Entry.priority entry) in
         if equals group "needs" || equals group "need" then
           (needs + Entry.amount entry, lifestyle, savings)
         else if equals group "lifestyle" || equals group "want" then
           (needs, lifestyle + Entry.amount entry, savings)
         else if equals group "savings" then
           (needs, lifestyle, savings + Entry.amount entry)
         else (needs, lifestyle, savings))
      entries (0, 0, 0) in
  GroupedData.mk needs lifestyle savings.
End Storage.

(** ** services/analytics.ts *)

Module AnalyticsMetrics.
Record t := mk {
  totalIncome : Q;
  totalExpenses : Q;
  savingsAmount : Q;
  savingsRate : Q;
  expenseGrowth : Q;
  monthlyBurnRate : Q;
  sixMonthAverage : Q;
  categoryGrowth : list CategoryGrowth.t
}.
End AnalyticsMetrics.

Module ExpenseTrend.
Inductive t := rising | falling | stable.
End ExpenseTrend.

Module SavingsTrend.
Inductive t := improving | declining | stable.
End SavingsTrend.

Module Analytics.
Import JS.
Local Open Scope Q_scope.

(** The year and the month of the clock set back by [monthsAgo] months. *)
Definition getMonthDate (now : Date) (monthsAgo : Z) : Z * Z :=
  let date := Date_setMonth now (getMonth now - monthsAgo) in
  (getFullYear date, getMonth date).

Definition getCategorySpending `{Host} (s : LocalStorage.t)
           (category : Category) (year month : Z) : Q :=
  let entries := Storage.getEntriesByMonth s year month in
  sumOf Entry.amount
        (filter (fun e => EntryType_eqb (Entry.type e) expense
                          && Category_eqb (Entry.category e) category) entries).

Definition calculateSavingsRate (income expenses : Q) : Q :=
  if le income 0 then 0
  else
    let savings := income - expenses in
    Math_round ((savings / income) * 100).

(** The growth computed for one category inside [calculateCategoryGrowth]. *)
Definition growthPercentOf (currentAmount previousAmount : Q) : Q :=
  if gt previousAmount 0 then
    Math_round (((currentAmount - previousAmount) / previousAmount) * 100)
  else if gt currentAmount 0 then 100
  else 0.

Definition calculateCategoryGrowth `{Host} (now : Date) (s : LocalStorage.t)
  : list CategoryGrowth.t :=
  let current := getMonthDate now 0 in
  let previous := getMonthDate now 1 in
  filter (fun cg => gt (CategoryGrowth.currentAmount cg) 0
                    || gt (CategoryGrowth.previousAmount cg) 0)
         (map (fun category =>
                 let currentAmount :=
                   getCategorySpending s category (fst current) (snd current) in
                 let previousAmount :=
                   getCategorySpending s category (fst previous) (snd previous) in
                 CategoryGrowth.mk category currentAmount previousAmount
                                   (growthPercentOf currentAmount previousAmount))
              CATEGORIES).

Definition calculateExpenseGrowth (currentExpenses previousExpenses : Q) : Q :=
  if strict_eq previousExpenses 0 then
    (if gt currentExpenses 0 then 100 else 0)
  else
    Math_round (((currentExpenses - previousExpenses) / previousExpenses) * 100).

Definition calculateMonthlyBurnRate (expenses daysInMonth daysPassed : Q) : Q :=
  if strict_eq daysPassed 0 then 0
  else
    let dailyRate := expenses / daysPassed in
    Math_round (dailyRate * daysInMonth).

Definition calculateSixMonthAverage `{Host} (now : Date) (s : LocalStorage.t) : Q :=
  let '(total, validMonths) :=
    for_loop 6
             (fun i '(total, validMonths) =>
                let '(year, month) := getMonthDate now (Z.of_nat i) in
                let data := Storage.getMonthlyData s year month in
                let expenses := MonthlyData.totalNeeds data + MonthlyData.totalWants data in
                if gt expenses 0 then (total + expenses, (validMonths + 1)%Z)
                else (total, validMonths))
             (0, 0%Z) in
  if (0 <? validMonths)%Z then Math_round (total / inject_Z validMonths) else 0.

Definition getWantsRatio `{Host} (now : Date) (s : LocalStorage.t) : Q :=
  let current := getMonthDate now 0 in
  let data := Storage.getMonthlyData s (fst current) (snd current) in
  let totalExpenses := MonthlyData.totalNeeds data + MonthlyData.totalWants data in
  if strict_eq totalExpenses 0 then 0
  else Math_round ((MonthlyData.totalWants data / totalExpenses) * 100).

(** [getAnalyticsMetrics]; the days of the month are those of day 0 of the
    month after, and the days passed the day of the month of the clock. *)
Definition getAnalyticsMetrics `{Host} (now : Date) (s : LocalStorage.t) : AnalyticsMetrics.t :=
  let today := now in
  let current := getMonthDate now 0 in
  let previous := getMonthDate now 1 in
  let currentData := Storage.getMonthlyData s (fst current) (snd current) in
  let totalIncome := MonthlyData.totalIncome currentData in
  let totalExpenses :=
    MonthlyData.totalNeeds currentData + MonthlyData.totalWants currentData in
  let savingsAmount := totalIncome - totalExpenses in
  let savingsRate := calculateSavingsRate totalIncome totalExpenses in
  let previousData := Storage.getMonthlyData s (fst previous) (snd previous) in
  let previousExpenses :=
    MonthlyData.totalNeeds previousData + MonthlyData.totalWants previousData in
  let expenseGrowth := calculateExpenseGrowth totalExpenses previousExpenses in
  let daysInMonth := inject_Z (JS.daysInMonth (getFullYear today) (getMonth today)) in
  let daysPassed := inject_Z (getDate today) in
  let monthlyBurnRate := calculateMonthlyBurnRate totalExpenses daysInMonth daysPassed in
  let sixMonthAverage := calculateSixMonthAverage now s in
  let categoryGrowth := calculateCategoryGrowth now s in
  AnalyticsMetrics.mk totalIncome totalExpenses savingsAmount savingsRate expenseGrowth
                      monthlyBurnRate sixMonthAverage categoryGrowth.
End Analytics.

(** ** services/forecast.ts *)

Inductive ConfidenceLevel := high | medium | low.

(** The [Forecast] record of types.ts. *)
Module ForecastData.
Record t := mk {
  predictedExpenses : Q;
  predictedSavings : Q;
  predictedIncome : Q;
  confidence : ConfidenceLevel;
  basedOnMonths : nat
}.
End ForecastData.

Module MonthlyStats.
Record t := mk { income : Q; expenses : Q; savings : Q }.
End MonthlyStats.

Module YearEndProjection.
Record t := mk {
  projectedYearlyIncome : Q;
  projectedYearlyExpenses : Q;
  projectedYearlySavings : Q;
  monthsRemaining : Z
}.
End YearEndProjection.

(** [Math.sqrt], which has no rational value in general, is left to the
    host. *)
Class MathHost := { Math_sqrt : Q -> Q }.

Module Forecast.
Import JS.
Local Open Scope Q_scope.

Definition calculateWeightedAverage (values : list Q) : Q :=
  if (List.length values =? 0)%nat then 0
  else
    let '(weightedSum, totalWeight) :=
      forEach (fun value index '(weightedSum, totalWeight) =>
                 let weight := inject_Z (Z.of_nat (List.length values) - Z.of_nat index) in
                 (weightedSum + value * weight, totalWeight + weight))
              values (0, 0) in
    if gt totalWeight 0 then Math_round (weightedSum / totalWeight) else 0.


(** The copy of [getMonthDate] that forecast.ts keeps for itself. *)
Definition getMonthDate (now : Date) (monthsAgo : Z) : Z * Z :=
  let date := Date_setMonth now (getMonth now - monthsAgo) in
  (getFullYear date, getMonth date).

(** [for (let i = 1; i <= months; i++)]: round [k] of the loop is month
    [k + 1] before the clock. *)
Definition getHistoricalData `{Host} (now : Date) (s : LocalStorage.t) (months : nat)
  : list MonthlyStats.t :=
  for_loop months
           (fun k data =>
              let i := Z.of_nat (S k) in
              let '(year, month) := getMonthDate now i in
              let monthData := Storage.getMonthlyData s year month in
              let expenses :=
                MonthlyData.totalNeeds monthData + MonthlyData.totalWants monthData in
              data ++ [MonthlyStats.mk (MonthlyData.totalIncome monthData) expenses
                                       (MonthlyData.totalIncome monthData - expenses)])
           [].

Definition calculateConfidence `{MathHost} (values : list Q) : ConfidenceLevel :=
  if (List.length values <? 2)%nat then low
  else if (List.length values <? 4)%nat then medium
  else
    let validValues := filter (fun v => gt v 0) values in
    if (List.length validValues <? 2)%nat then low
    else
      let mean := sumOf (fun v => v) validValues
                  / inject_Z (Z.of_nat (List.length validValues)) in
      if strict_eq mean 0 then low
      else
        let squaredDiffs := map (fun v => (v - mean) ^ 2) validValues in
        let variance := sumOf (fun v => v) squaredDiffs
                        / inject_Z (Z.of_nat (List.length validValues)) in
        let stdDev := Math_sqrt variance in
        let cv := stdDev / mean in
        if lt cv (2 # 10) then high
        else if lt cv (4 # 10) then medium
        else low.

Definition generateForecast `{Host} `{MathHost} (now : Date) (s : LocalStorage.t)
           (monthsToAnalyze : nat) : ForecastData.t :=
  let historicalData := getHistoricalData now s monthsToAnalyze in
  let validData :=
    filter (fun d => gt (MonthlyStats.income d) 0 || gt (MonthlyStats.expenses d) 0)
           historicalData in
  if (List.length validData =? 0)%nat then
    ForecastData.mk 0 0 0 low 0
  else
    let incomes := map MonthlyStats.income validData in
    let expenses := map MonthlyStats.expenses validData in
    let predictedIncome := calculateWeightedAverage incomes in
    let predictedExpenses := calculateWeightedAverage expenses in
    let predictedSavings := predictedIncome - predictedExpenses in
    let confidence := calculateConfidence expenses in
    ForecastData.mk predictedExpenses predictedSavings predictedIncome confidence
                    (List.length validData).

(** [for (let i = 0; i <= currentMonth; i++)] runs [currentMonth + 1] times. *)
Definition getYearEndProjection `{Host} `{MathHost} (now : Date) (s : LocalStorage.t)
  : YearEndProjection.t :=
  let today := now in
  let currentMonth := getMonth today in
  let monthsRemaining := (12 - currentMonth - 1)%Z in
  let forecast := generateForecast now s 6 in
  let '(actualIncome, actualExpenses) :=
    for_loop (Z.to_nat (currentMonth + 1))
             (fun i '(actualIncome, actualExpenses) =>
                let data := Storage.getMonthlyData s (getFullYear today) (Z.of_nat i) in
                (actualIncome + MonthlyData.totalIncome data,
                 actualExpenses
                 + (MonthlyData.totalNeeds data + MonthlyData.totalWants data)))
             (0, 0) in
  let projectedRemainingIncome :=
    ForecastData.predictedIncome forecast * inject_Z monthsRemaining in
  let projectedRemainingExpenses :=
    ForecastData.predictedExpenses forecast * inject_Z monthsRemaining in
  let projectedYearlyIncome := actualIncome + projectedRemainingIncome in
  let projectedYearlyExpenses := actualExpenses + projectedRemainingExpenses in
  let projectedYearlySavings := projectedYearlyIncome - projectedYearlyExpenses in
  YearEndProjection.mk projectedYearlyIncome projectedYearlyExpenses
                       projectedYearlySavings monthsRemaining.
End Forecast.

(** ** services/budget.ts *)

Module BudgetService.
Import JS.
Local Open Scope Q_scope.

Definition updateLastBudgetMonth (now : Date) (s : LocalStorage.t) : LocalStorage.t :=
  LocalStorage.set_BUDGET_MONTH_KEY (BudgetMonth.mk (getMonth now) (getFullYear now)) s.

Definition getLastBudgetMonth (s : LocalStorage.t) : option BudgetMonth.t :=
  LocalStorage.BUDGET_MONTH_KEY s.

Definition checkAndResetMonthlyBudgets (now : Date) (s : LocalStorage.t) : LocalStorage.t :=
  match getLastBudgetMonth s with
  | None => s
  | Some last =>
      let currentMonth := getMonth now in
      let currentYear := getFullYear now in
      if negb (BudgetMonth.month last =? currentMonth)%Z
         || negb (BudgetMonth.year last =? currentYear)%Z
      then
        let oldBudgets :=
          match LocalStorage.BUDGET_KEY s with Some data => data | None => [] end in
        let lastMonthBudgets :=
          filter (fun b => (Budget.month b =? BudgetMonth.month last)%Z
                           && (Budget.year b =? BudgetMonth.year last)%Z) oldBudgets in
        let newBudgets :=
          map (fun b => Budget.mk (Budget.category b) (Budget.amount b)
                                  currentMonth currentYear) lastMonthBudgets in
        let allBudgets := oldBudgets ++ newBudgets in
        updateLastBudgetMonth now (LocalStorage.set_BUDGET_KEY allBudgets s)
      else s
  end.

Definition getBudgets (now : Date) (s : LocalStorage.t) : list Budget.t * LocalStorage.t :=
  let s1 := checkAndResetMonthlyBudgets now s in
  (match LocalStorage.BUDGET_KEY s1 with Some data => data | None => [] end, s1).

Definition saveBudgets (budgets : list Budget.t) (s : LocalStorage.t) : LocalStorage.t :=
  LocalStorage.set_BUDGET_KEY budgets s.

(** The row of [category] for the month of the clock. *)
Definition isCurrent (now : Date) (category : Category) (b : Budget.t) : bool :=
  Category_eqb (Budget.category b) category
  && (Budget.month b =? getMonth now)%Z
  && (Budget.year b =? getFullYear now)%Z.

Definition setBudget (now : Date) (s : LocalStorage.t) (category : Category) (amount : Q)
  : LocalStorage.t :=
  let '(budgets, s1) := getBudgets now s in
  let budgets' :=
    match findIndex (isCurrent now category) budgets with
    | Some existing =>
        match nth_error budgets existing with
        | Some b => setAt budgets existing
                          (Budget.mk (Budget.category b) amount (Budget.month b) (Budget.year b))
        | None => budgets
        end
    | None => budgets ++ [Budget.mk category amount (getMonth now) (getFullYear now)]
    end in
  updateLastBudgetMonth now (saveBudgets budgets' s1).

Definition getBudgetForCategory (now : Date) (s : LocalStorage.t) (category : Category)
  : Q * LocalStorage.t :=
  let '(budgets, s1) := getBudgets now s in
  (match find (isCurrent now category) budgets with
   | Some budget => if strict_eq (Budget.amount budget) 0 then 0 else Budget.amount budget
   | None => 0
   end, s1).

Definition removeBudget (now : Date) (s : LocalStorage.t) (category : Category)
  : LocalStorage.t :=
  let '(budgets, s1) := getBudgets now s in
  saveBudgets (filter (fun b => negb (isCurrent now category b)) budgets) s1.

Definition getCategorySpending `{Host} (s : LocalStorage.t)
           (category : Category) (year month : Z) : Q :=
  let entries := Storage.getEntriesByMonth s year month in
  sumOf Entry.amount
        (filter (fun e => EntryType_eqb (Entry.type e) expense
                          && Category_eqb (Entry.category e) category) entries).

(** The tier chosen from a percentage inside [getBudgetStatus]. *)
Definition statusOf (percentage : Q) : Status :=
  if ge percentage 90 then red
  else if ge percentage 70 then yellow
  else green.

Definition getBudgetStatus `{Host} (now : Date) (s : LocalStorage.t) (category : Category)
  : option CategoryBudgetStatus.t * LocalStorage.t :=
  let '(budgetAmount, s1) := getBudgetForCategory now s category in
  if strict_eq budgetAmount 0 then (None, s1)
  else
    let spentAmount := getCategorySpending s1 category (getFullYear now) (getMonth now) in
    let remainingAmount := budgetAmount - spentAmount in
    let percentage := (spentAmount / budgetAmount) * 100 in
    (Some (CategoryBudgetStatus.mk category budgetAmount spentAmount remainingAmount
                                   percentage (statusOf percentage)), s1).

(** [CATEGORIES.map(cat => getBudgetStatus(cat)).filter(status => status !== null)],
    the store passing from one call to the next. *)
Fixpoint statusesOf `{Host} (now : Date) (s : LocalStorage.t) (categories : list Category)
  : list (option CategoryBudgetStatus.t) * LocalStorage.t :=
  match categories with
  | [] => ([], s)
  | cat :: rest =>
      let '(status, s1) := getBudgetStatus now s cat in
      let '(others, s2) := statusesOf now s1 rest in
      (status :: others, s2)
  end.

Definition getAllBudgetStatuses `{Host} (now : Date) (s : LocalStorage.t)
  : list CategoryBudgetStatus.t * LocalStorage.t :=
  let '(statuses, s1) := statusesOf now s CATEGORIES in
  (flat_map (fun status => match status with Some st => [st] | None => [] end) statuses, s1).


Definition getTotalBudgetSummary `{Host} (now : Date) (s : LocalStorage.t)
  : TotalBudgetSummary.t * LocalStorage.t :=
  let '(statuses, s1) := getAllBudgetStatuses now s in
  if (List.length statuses =? 0)%nat then
    (TotalBudgetSummary.mk 0 0 0 0 green, s1)
  else
    let totalBudget := sumOf CategoryBudgetStatus.budgetAmount statuses in
    let totalSpent := sumOf CategoryBudgetStatus.spentAmount statuses in
    let totalRemaining := totalBudget - totalSpent in
    let overallPercentage :=
      if gt totalBudget 0 then (totalSpent / totalBudget) * 100 else 0 in
    let overallStatus :=
      if ge overallPercentage 90 then red
      else if ge overallPercentage 70 then yellow
      else green in
    (TotalBudgetSummary.mk totalBudget totalSpent totalRemaining
                           overallPercentage overallStatus, s1).
End BudgetService.

(** ** services/gamification.ts *)

Module Achievement.
(** [unlockedAt], a time stamp taken when the list is read, is left out. *)
Record t := mk {
  id : string;
  name : string;
  description : string;
  icon : string;
  isUnlocked : bool
}.
End Achievement.

Module Gamification.
Import JS.
Local Open Scope string_scope.
Local Open Scope Z_scope.

Definition getStreakData (s : LocalStorage.t) : StreakData.t :=
  match LocalStorage.STREAK_KEY s with
  | Some stored => stored
  | None => StreakData.mk 0 0 "" 0
  end.

Definition getYesterday (now : Date) : string :=
  let yesterday := Date_setDate now (getDate now - 1) in
  toISODate yesterday.

Definition ACHIEVEMENT_DEFINITIONS : list Achievement.t :=
  [ Achievement.mk "first_entry" "Getting Started" "Add your first entry" "Sparkles" false;
    Achievement.mk "week_warrior" "Week Warrior" "Maintain a 7-day streak" "Flame" false;
    Achievement.mk "month_master" "Month Master" "Maintain a 30-day streak" "Trophy" false;
    Achievement.mk "consistent_tracker" "Consistent Tracker"
                   "Track for 90 consecutive days" "Target" false;
    Achievement.mk "saver" "Smart Saver" "Save 20% or more in a month" "PiggyBank" false;
    Achievement.mk "budget_master" "Budget Master" "Stay under budget for 3 months" "Award" false ].

Definition includes (l : list string) (x : string) : bool :=
  existsb (fun y => (y =? x)%string) l.

Definition getAchievements (s : LocalStorage.t) : list Achievement.t :=
  match LocalStorage.ACHIEVEMENTS_KEY s with
  | Some unlocked =>
      map (fun ach => Achievement.mk (Achievement.id ach) (Achievement.name ach)
                                     (Achievement.description ach) (Achievement.icon ach)
                                     (includes unlocked (Achievement.id ach)))
          ACHIEVEMENT_DEFINITIONS
  | None => ACHIEVEMENT_DEFINITIONS
  end.

Definition unlockAchievement (s : LocalStorage.t) (achievementId : string)
  : bool * LocalStorage.t :=
  let achievements := getAchievements s in
  match find (fun a => (Achievement.id a =? achievementId)%string) achievements with
  | None => (false, s)
  | Some achievement =>
      if Achievement.isUnlocked achievement then (false, s)
      else
        let unlocked :=
          match LocalStorage.ACHIEVEMENTS_KEY s with Some l => l | None => [] end in
        if negb (includes unlocked achievementId) then
          (true, LocalStorage.set_ACHIEVEMENTS_KEY (unlocked ++ [achievementId]) s)
        else (false, s)
  end.

Definition checkStreakAchievements (s : LocalStorage.t) (currentStreak : Z) : LocalStorage.t :=
  let entries := Storage.getEntries s in
  let s1 := if (List.length entries =? 1)%nat
            then snd (unlockAchievement s "first_entry") else s in
  let s2 := if 7 <=? currentStreak then snd (unlockAchievement s1 "week_warrior") else s1 in
  let s3 := if 30 <=? currentStreak then snd (unlockAchievement s2 "month_master") else s2 in
  if 90 <=? currentStreak then snd (unlockAchievement s3 "consistent_tracker") else s3.

Definition updateStreak (now : Date) (s : LocalStorage.t) (entryDate : string)
  : StreakData.t * LocalStorage.t :=
  let today := toISODate now in
  let streak := getStreakData s in
  if (entryDate =? today)%string || (entryDate =? getYesterday now)%string then
    let currentStreak :=
      if (StreakData.lastEntryDate streak =? getYesterday now)%string
         || (StreakData.lastEntryDate streak =? "")%string
      then StreakData.currentStreak streak + 1
      else if negb (StreakData.lastEntryDate streak =? today)%string then 1
      else StreakData.currentStreak streak in
    let streak' :=
      StreakData.mk currentStreak
                    (Z.max (StreakData.longestStreak streak) currentStreak)
                    today
                    (StreakData.totalDaysWithEntries streak + 1) in
    let s1 := LocalStorage.set_STREAK_KEY streak' s in
    (streak', checkStreakAchievements s1 (StreakData.currentStreak streak'))
  else (streak, s).

Definition validateStreak (now : Date) (s : LocalStorage.t) : LocalStorage.t :=
  let streak := getStreakData s in
  let today := toISODate now in
  let yesterday := getYesterday now in
  if negb (StreakData.lastEntryDate streak =? today)%string
     && negb (StreakData.lastEntryDate streak =? yesterday)%string
  then
    LocalStorage.set_STREAK_KEY
      (StreakData.mk 0 (StreakData.longestStreak streak)
                     (StreakData.lastEntryDate streak)
                     (StreakData.totalDaysWithEntries streak)) s
  else s.


Definition getUnlockedCount (s : LocalStorage.t) : nat :=
  let achievements := getAchievements s in
  List.length (filter Achievement.isUnlocked achievements).

Definition getTotalAchievements : nat := List.length ACHIEVEMENT_DEFINITIONS.
End Gamification.

(** ** services/financialScore.ts *)

Inductive ScoreRating := Excellent | Good | Average | Poor.

Module ScoreBreakdown.
Record t := mk {
  savingsScore : Q;
  budgetScore : Q;
  stabilityScore : Q;
  consistencyScore : Q
}.
End ScoreBreakdown.

Module FinancialScore.
Record t := mk {
  score : Q;
  rating : ScoreRating;
  explanation : string;
  breakdown : ScoreBreakdown.t
}.
End FinancialScore.

Module Score.
Import JS.
Local Open Scope Q_scope.

(** [WEIGHTS]. *)
Definition WEIGHTS_savings : Q := 40 # 100.
Definition WEIGHTS_budget : Q := 30 # 100.
Definition WEIGHTS_stability : Q := 20 # 100.
Definition WEIGHTS_consistency : Q := 10 # 100.

Definition calculateSavingsScore (savingsRate : Q) : Q :=
  if le savingsRate 0 then 0
  else if ge savingsRate 30 then 100
  else Math_round ((savingsRate / 30) * 100).

Definition calculateBudgetScore `{Host} (now : Date) (s : LocalStorage.t)
  : Q * LocalStorage.t :=
  let '(summary, s1) := BudgetService.getTotalBudgetSummary now s in
  (if strict_eq (TotalBudgetSummary.totalBudget summary) 0 then 50
   else
     let usagePercent := TotalBudgetSummary.overallPercentage summary in
     if le usagePercent 70 then 100
     else if le usagePercent 85 then 80
     else if le usagePercent 100 then 60
     else if le usagePercent 120 then 30
     else 0, s1).

Definition calculateStabilityScore `{Host} (now : Date) (s : LocalStorage.t) : Q :=
  let metrics := Analytics.getAnalyticsMetrics now s in
  let growthAbs := Math_abs (AnalyticsMetrics.expenseGrowth metrics) in
  if le growthAbs 5 then 100
  else if le growthAbs 10 then 85
  else if le growthAbs 20 then 70
  else if le growthAbs 30 then 50
  else if le growthAbs 50 then 30
  else 10.

Definition calculateConsistencyScore `{Host} (now : Date) (s : LocalStorage.t) : Q :=
  let today := now in
  let monthsWithData :=
    for_loop 6
             (fun i monthsWithData =>
                let date := Date_firstOfMonth (getFullYear today)
                                              (getMonth today - Z.of_nat i) in
                let data := Storage.getMonthlyData s (getFullYear date) (getMonth date) in
                if gt (MonthlyData.totalIncome data) 0
                   || gt (MonthlyData.totalNeeds data) 0
                   || gt (MonthlyData.totalWants data) 0
                then (monthsWithData + 1)%Z
                else monthsWithData)
             0%Z in
  Math_round ((inject_Z monthsWithData / 6) * 100).

Definition getRating (score : Q) : ScoreRating :=
  if ge score 80 then Excellent
  else if ge score 60 then Good
  else if ge score 40 then Average
  else Poor.

Definition generateExplanation (score : Q) (breakdown : ScoreBreakdown.t) : string :=
  let area (value : Q) (label : string) (areas : list string * list string) :=
    let '(weakAreas, strongAreas) := areas in
    if ge value 70 then (weakAreas, strongAreas ++ [label])
    else if lt value 50 then (weakAreas ++ [label], strongAreas)
    else (weakAreas, strongAreas) in
  let '(weakAreas, strongAreas) :=
    area (ScoreBreakdown.consistencyScore breakdown) "tracking consistency"%string
      (area (ScoreBreakdown.stabilityScore breakdown) "expense stability"%string
         (area (ScoreBreakdown.budgetScore breakdown) "budget control"%string
            (area (ScoreBreakdown.savingsScore breakdown) "savings"%string ([], [])))) in
  if ge score 80 then
    ("Outstanding financial discipline! "
       ++ (if (0 <? List.length strongAreas)%nat
           then "Especially strong in " ++ concat " and " strongAreas ++ "."
           else ""))%string
  else if ge score 60 then
    ("Good financial habits. "
       ++ (if (0 <? List.length weakAreas)%nat
           then "Focus on improving " ++ concat " and " weakAreas ++ " for a better score."
           else ""))%string
  else if ge score 40 then
    ("Room for improvement. "
       ++ (if (0 <? List.length weakAreas)%nat
           then "Work on " ++ concat " and " weakAreas ++ " to boost your score."
           else "Track your finances more consistently."))%string
  else "Time to take control! Start by tracking all expenses and setting up budgets."%string.

Definition calculateFinancialScore `{Host} (now : Date) (s : LocalStorage.t)
  : FinancialScore.t * LocalStorage.t :=
  let metrics := Analytics.getAnalyticsMetrics now s in
  let savingsScore := calculateSavingsScore (AnalyticsMetrics.savingsRate metrics) in
  let '(budgetScore, s1) := calculateBudgetScore now s in
  let stabilityScore := calculateStabilityScore now s1 in
  let consistencyScore := calculateConsistencyScore now s1 in
  let totalScore :=
    Math_round (savingsScore * WEIGHTS_savings
                + budgetScore * WEIGHTS_budget
                + stabilityScore * WEIGHTS_stability
                + consistencyScore * WEIGHTS_consistency) in
  let breakdown :=
    ScoreBreakdown.mk savingsScore budgetScore stabilityScore consistencyScore in
  let rating := getRating totalScore in
  let explanation := generateExplanation totalScore breakdown in
  (FinancialScore.mk totalScore rating explanation breakdown, s1).

End Score.

(** ** The services on binary64 numbers

    The functions whose result depends on how the engine rounds are
    embedded a second time, on the binary64 values a JavaScript [number]
    is: every [+], [-], [*] and [/] below is the IEEE 754 operation,
    rounding to nearest with ties to even, and a comparison with a NaN is
    false.  The dates, the texts and the shape of the store are those of
    the embedding above. *)

Module Double.
Import JS Floats.
Local Open Scope float_scope.

(** *** Numbers *)

(** The number an integer of at most 63 bits is; it is exact up to
    2{^53}, which covers every counter and array length converted below. *)
Definition of_Z (z : Z) : float :=
  match z with
  | Z0 => 0
  | Zpos _ => PrimFloat.of_uint63 (Uint63.of_Z z)
  | Zneg p => - PrimFloat.of_uint63 (Uint63.of_Z (Zpos p))
  end.

(** [a > b], [a < b], [a <= b], [a >= b], [a === b] on numbers. *)
Definition gt (a b : float) : bool := (b <? a).
Definition lt (a b : float) : bool := (a <? b).
Definition le (a b : float) : bool := (a <=? b).
Definition ge (a b : float) : bool := (b <=? a).
Definition strict_eq (a b : float) : bool := (a =? b).

(** A number counts as true unless it is [0], [-0] or NaN. *)
Definition truthy (a : float) : bool := negb (a =? 0) && negb (is_nan a).

(** [Math.round]: a number that is an integer, an infinity or NaN is
    returned as it is; any other [x], of the form [n * 2^e] with [e < 0],
    gives the integer [floor (x + 1/2)], taken exactly, with the sign of
    [x] when that integer is zero. *)
Definition Math_round (x : float) : float :=
  match Prim2SF x with
  | S754_finite s m e =>
      if (0 <=? e)%Z then x
      else
        let n := if s then Z.neg m else Z.pos m in
        let r := Z.shiftr (n + Z.shiftl 1 (- e - 1)) (- e) in
        if (r =? 0)%Z then (if s then neg_zero else 0) else of_Z r
  | _ => x
  end.

(** [arr.reduce((sum, e) => sum + f e, 0)]. *)
Definition sumOf {A : Type} (f : A -> float) (arr : list A) : float :=
  fold_left (fun sum e => sum + f e) arr 0.

(** *** types.ts *)

Module Entry.
Record t := mk {
  id : string;
  amount : float;
  type : EntryType;
  category : Category;
  categoryGroup : option string;
  priority : option string;
  date : string;
  note : option string;
  createdAt : Z
}.
End Entry.

Module MonthlyData.
Record t := mk {
  totalIncome : float;
  totalNeeds : float;
  totalLifestyle : float;
  totalSavings : float;
  totalWants : float;
  balance : float
}.
End MonthlyData.

Module Budget.
Record t := mk { category : Category; amount : float; month : Z; year : Z }.
End Budget.

Module CategoryBudgetStatus.
Record t := mk {
  category : Category;
  budgetAmount : float;
  spentAmount : float;
  remainingAmount : float;
  percentage : float;
  status : Status
}.
End CategoryBudgetStatus.

Module CategoryGrowth.
Record t := mk {
  category : Category;
  currentAmount : float;
  previousAmount : float;
  growthPercent : float
}.
End CategoryGrowth.

(** *** localStorage: the keys that storage.ts and budget.ts read *)

Module LocalStorage.
Record t := mk {
  STORAGE_KEY : option (list Entry.t);
  BUDGET_KEY : option (list Budget.t);
  BUDGET_MONTH_KEY : option BudgetMonth.t
}.

Definition empty : t := mk None None None.

Definition set_STORAGE_KEY (v : list Entry.t) (s : t) : t :=
  mk (Some v) (BUDGET_KEY s) (BUDGET_MONTH_KEY s).
Definition set_BUDGET_KEY (v : list Budget.t) (s : t) : t :=
  mk (STORAGE_KEY s) (Some v) (BUDGET_MONTH_KEY s).
Definition set_BUDGET_MONTH_KEY (v : BudgetMonth.t) (s : t) : t :=
  mk (STORAGE_KEY s) (BUDGET_KEY s) (Some v).
End LocalStorage.

(** *** services/storage.ts *)

Module Storage.

Definition getEntries (s : LocalStorage.t) : list Entry.t :=
  match LocalStorage.STORAGE_KEY s with
  | None => []
  | Some data => data
  end.

Definition getEntriesByMonth `{Host} (s : LocalStorage.t) (year month : Z) : list Entry.t :=
  let entries := getEntries s in
  sort (fun a b => (Entry.createdAt b - Entry.createdAt a <=? 0)%Z)
       (filter (fun entry =>
                  match Date_parse (Entry.date entry) with
                  | Some date => ((getFullYear date =? year) && (getMonth date =? month))%Z
                  | None => false
                  end) entries).

Definition equals (group : option string) (text : string) : bool :=
  match group with
  | Some g => (g =? text)%string
  | None => false
  end.

Definition getMonthlyData `{Host} (s : LocalStorage.t) (year month : Z) : MonthlyData.t :=
  let entries := getEntriesByMonth s year month in
  let '(totalIncome, totalNeeds, totalLifestyle, totalSavings) :=
    fold_left
      (fun '(totalIncome, totalNeeds, totalLifestyle, totalSavings) entry =>
         if EntryType_eqb (Entry.type entry) income then
           (totalIncome + Entry.amount entry, totalNeeds, totalLifestyle, totalSavings)
         else
           let group := orElse (Entry.categoryGroup entry) (Entry.priority entry) in
           if equals group "needs" || equals group "need" then
             (totalIncome, totalNeeds + Entry.amount entry, totalLifestyle, totalSavings)
           else if equals group "lifestyle" then
             (totalIncome, totalNeeds, totalLifestyle + Entry.amount entry, totalSavings)
           else if equals group "savings" then
             (totalIncome, totalNeeds, totalLifestyle, totalSavings + Entry.amount entry)
           else if equals group "want" then
             (totalIncome, totalNeeds, totalLifestyle + Entry.amount entry, totalSavings)
           else (totalIncome, totalNeeds, totalLifestyle, totalSavings))
      entries (0, 0, 0, 0) in
  MonthlyData.mk totalIncome totalNeeds totalLifestyle totalSavings totalLifestyle
                 (totalIncome - totalNeeds - totalLifestyle - totalSavings).
End Storage.

(** *** services/analytics.ts *)

Module Analytics.

(** The year and the month of the clock set back by [monthsAgo] months. *)
Definition getMonthDate (now : Date) (monthsAgo : Z) : Z * Z :=
  let date := Date_setMonth now (getMonth now - monthsAgo) in
  (getFullYear date, getMonth date).

Definition getCategorySpending `{Host} (s : LocalStorage.t)
           (category : Category) (year month : Z) : float :=
  let entries := Storage.getEntriesByMonth s year month in
  sumOf Entry.amount
        (filter (fun e => EntryType_eqb (Entry.type e) expense
                          && Category_eqb (Entry.category e) category) entries).

Definition calculateSavingsRate (income expenses : float) : float :=
  if le income 0 then 0
  else
    let savings := income - expenses in
    Math_round ((savings / income) * 100).

(** The growth computed for one category inside [calculateCategoryGrowth]. *)
Definition growthPercentOf (currentAmount previousAmount : float) : float :=
  if gt previousAmount 0 then
    Math_round (((currentAmount - previousAmount) / previousAmount) * 100)
  else if gt currentAmount 0 then 100
  else 0.

Definition calculateCategoryGrowth `{Host} (now : Date) (s : LocalStorage.t)
  : list CategoryGrowth.t :=
  let current := getMonthDate now 0 in
  let previous := getMonthDate now 1 in
  filter (fun cg => gt (CategoryGrowth.currentAmount cg) 0
                    || gt (CategoryGrowth.previousAmount cg) 0)
         (map (fun category =>
                 let currentAmount :=
                   getCategorySpending s category (fst current) (snd current) in
                 let previousAmount :=
                   getCategorySpending s category (fst previous) (snd previous) in
                 CategoryGrowth.mk category currentAmount previousAmount
                                   (growthPercentOf currentAmount previousAmount))
              CATEGORIES).





End Analytics.

(** *** services/forecast.ts *)

Module Forecast.

Definition calculateWeightedAverage (values : list float) : float :=
  if (List.length values =? 0)%nat then 0
  else
    let '(weightedSum, totalWeight) :=
      forEach (fun value index '(weightedSum, totalWeight) =>
                 let weight := of_Z (Z.of_nat (List.length values) - Z.of_nat index) in
                 (weightedSum + value * weight, totalWeight + weight))
              values (0, 0) in
    if gt totalWeight 0 then Math_round (weightedSum / totalWeight) else 0.
End Forecast.

(** *** services/budget.ts *)

Module BudgetService.

Definition updateLastBudgetMonth (now : Date) (s : LocalStorage.t) : LocalStorage.t :=
  LocalStorage.set_BUDGET_MONTH_KEY (BudgetMonth.mk (getMonth now) (getFullYear now)) s.

Definition getLastBudgetMonth (s : LocalStorage.t) : option BudgetMonth.t :=
  LocalStorage.BUDGET_MONTH_KEY s.

Definition checkAndResetMonthlyBudgets (now : Date) (s : LocalStorage.t) : LocalStorage.t :=
  match getLastBudgetMonth s with
  | None => s
  | Some last =>
      let currentMonth := getMonth now in
      let currentYear := getFullYear now in
      if negb (BudgetMonth.month last =? currentMonth)%Z
         || negb (BudgetMonth.year last =? currentYear)%Z
      then
        let oldBudgets :=
          match LocalStorage.BUDGET_KEY s with Some data => data | None => [] end in
        let lastMonthBudgets :=
          filter (fun b => (Budget.month b =? BudgetMonth.month last)%Z
                           && (Budget.year b =? BudgetMonth.year last)%Z) oldBudgets in
        let newBudgets :=
          map (fun b => Budget.mk (Budget.category b) (Budget.amount b)
                                  currentMonth currentYear) lastMonthBudgets in
        let allBudgets := oldBudgets ++ newBudgets in
        updateLastBudgetMonth now (LocalStorage.set_BUDGET_KEY allBudgets s)
      else s
  end.

Definition getBudgets (now : Date) (s : LocalStorage.t) : list Budget.t * LocalStorage.t :=
  let s1 := checkAndResetMonthlyBudgets now s in
  (match LocalStorage.BUDGET_KEY s1 with Some data => data | None => [] end, s1).

(** The row of [category] for the month of the clock. *)
Definition isCurrent (now : Date) (category : Category) (b : Budget.t) : bool :=
  Category_eqb (Budget.category b) category
  && (Budget.month b =? getMonth now)%Z
  && (Budget.year b =? getFullYear now)%Z.

(** [budget?.amount || 0]. *)
Definition getBudgetForCategory (now : Date) (s : LocalStorage.t) (category : Category)
  : float * LocalStorage.t :=
  let '(budgets, s1) := getBudgets now s in
  (match find (isCurrent now category) budgets with
   | Some budget => if truthy (Budget.amount budget) then Budget.amount budget else 0
   | None => 0
   end, s1).

Definition getCategorySpending `{Host} (s : LocalStorage.t)
           (category : Category) (year month : Z) : float :=
  let entries := Storage.getEntriesByMonth s year month in
  sumOf Entry.amount
        (filter (fun e => EntryType_eqb (Entry.type e) expense
                          && Category_eqb (Entry.category e) category) entries).

(** The tier chosen from a percentage inside [getBudgetStatus]. *)
Definition statusOf (percentage : float) : Status :=
  if ge percentage 90 then red
  else if ge percentage 70 then yellow
  else green.

Definition getBudgetStatus `{Host} (now : Date) (s : LocalStorage.t) (category : Category)
  : option CategoryBudgetStatus.t * LocalStorage.t :=
  let '(budgetAmount, s1) := getBudgetForCategory now s category in
  if strict_eq budgetAmount 0 then (None, s1)
  else
    let spentAmount := getCategorySpending s1 category (getFullYear now) (getMonth now) in
    let remainingAmount := budgetAmount - spentAmount in
    let percentage := (spentAmount / budgetAmount) * 100 in
    (Some (CategoryBudgetStatus.mk category budgetAmount spentAmount remainingAmount
                                   percentage (statusOf percentage)), s1).

(** [CATEGORIES.map(cat => getBudgetStatus(cat)).filter(status => status !== null)],
    the store passing from one call to the next. *)
Fixpoint statusesOf `{Host} (now : Date) (s : LocalStorage.t) (categories : list Category)
  : list (option CategoryBudgetStatus.t) * LocalStorage.t :=
  match categories with
  | [] => ([], s)
  | cat :: rest =>
      let '(status, s1) := getBudgetStatus now s cat in
      let '(others, s2) := statusesOf now s1 rest in
      (status :: others, s2)
  end.

Definition getAllBudgetStatuses `{Host} (now : Date) (s : LocalStorage.t)
  : list CategoryBudgetStatus.t * LocalStorage.t :=
  let '(statuses, s1) := statusesOf now s CATEGORIES in
  (flat_map (fun status => match status with Some st => [st] | None => [] end) statuses, s1).
End BudgetService.

End Double.

(** ** A host for running the services on concrete data

    Dates are read in the form [YYYY-MM-DD] the entry form produces; any
    other text, and a day the month does not have, is an invalid date.
    A number with an integral value is printed as JavaScript prints it;
    another one is printed as a fraction. *)

Module ExampleHost.
Import JS.
Local Open Scope Z_scope.

Definition digitValue (c : ascii) : option Z :=
  let n := nat_of_ascii c in
  if ((48 <=? n) && (n <=? 57))%nat then Some (Z.of_nat (n - 48)) else None.

Fixpoint number (acc : Z) (cs : list ascii) : option Z :=
  match cs with
  | [] => Some acc
  | c :: rest =>
      match digitValue c with
      | Some v => number (10 * acc + v) rest
      | None => None
      end
  end.

Definition dash : ascii := ascii_of_nat 45.

Definition parseISODate (text : string) : option Date :=
  match list_ascii_of_string text with
  | [y1; y2; y3; y4; s1; m1; m2; s2; d1; d2] =>
      if (Ascii.eqb s1 dash && Ascii.eqb s2 dash)%bool then
        match number 0 [y1; y2; y3; y4], number 0 [m1; m2], number 0 [d1; d2] with
        | Some y, Some m, Some d =>
            if ((1 <=? m) && (m <=? 12) && (1 <=? d) && (d <=? daysInMonth y (m - 1)))%bool
            then Some (mkDate y (m - 1) d)
            else None
        | _, _, _ => None
        end
      else None
  | _ => None
  end.

Definition printZ (z : Z) : string := DecimalString.NilZero.string_of_int (Z.to_int z).

Definition printNumber (q : Q) : string :=
  let r := Qred q in
  if (Z.pos (Qden r) =? 1) then printZ (Qnum r)
  else (printZ (Qnum r) ++ "/" ++ printZ (Z.pos (Qden r)))%string.

Definition host : Host := {| Date_parse := parseISODate; Number_toString := printNumber |}.

End ExampleHost.

(** ** Definitions used to state the properties *)

Module Spec.
Import JS.
Local Open Scope Q_scope.

(** The sum of [f 0], ..., [f (n - 1)]. *)
Definition sumOver (n : nat) (f : nat -> Q) : Q :=
  fold_right Qplus 0 (map f (seq 0 n)).

(** The linear recency weight of the value at [index] among [n] values. *)
Definition weightAt (n index : nat) : Q :=
  inject_Z (Z.of_nat n - Z.of_nat index).


(** A line all of whose fields stand between double quotes, with commas
    between the fields. *)
Definition everyFieldQuoted (line : string) : Prop :=
  exists fields, line = concat "," (map Storage.quoted fields).

(** A text of a header line and [n] more lines, every line, the header
    included, with every field quoted. *)
Definition allRowsQuoted (content : string) (n : nat) : Prop :=
  exists lines,
    content = concat Storage.newline lines
    /\ List.length lines = S n
    /\ Forall everyFieldQuoted lines.

(** The six columns of an entry. *)
Definition columns `{Host} (entry : Entry.t) : list string :=
  [ Entry.date entry;
    EntryType_text (Entry.type entry);
    Category_text (Entry.category entry);
    match Entry.priority entry with Some p => p | None => "undefined"%string end;
    Number_toString (Entry.amount entry);
    match Entry.note entry with Some n => n | None => ""%string end ].

(** The current streak is not negative and never exceeds the longest one. *)
Definition streakOrdered (d : StreakData.t) : Prop :=
  (0 <= StreakData.currentStreak d <= StreakData.longestStreak d)%Z.

(** [k] entries dated today recorded in a row under one clock. *)
Fixpoint recordToday (k : nat) (now : Date) (s : LocalStorage.t) : LocalStorage.t :=
  match k with
  | O => s
  | S k' => snd (Gamification.updateStreak now (recordToday k' now s) (toISODate now))
  end.


(** How many of [budgets] are rows of [category] for the month of the clock. *)
Definition currentRows (now : Date) (category : Category) (budgets : list Budget.t) : nat :=
  List.length (filter (BudgetService.isCurrent now category) budgets).

(** The ids that are stored as unlocked. *)
Definition storedIds (s : LocalStorage.t) : list string :=
  match LocalStorage.ACHIEVEMENTS_KEY s with Some l => l | None => [] end.

(** Whether [getAchievements] lists the achievement [achievementId] as
    unlocked. *)
Definition unlockedIn (s : LocalStorage.t) (achievementId : string) : bool :=
  match find (fun a => (Achievement.id a =? achievementId)%string)
             (Gamification.getAchievements s) with
  | Some achievement => Achievement.isUnlocked achievement
  | None => false
  end.

(** The ids of the six achievements. *)
Definition knownAchievement (achievementId : string) : Prop :=
  In achievementId (map Achievement.id Gamification.ACHIEVEMENT_DEFINITIONS).

(** One entry dated today recorded on each of the days [days], in turn. *)
Fixpoint recordDaily (days : list Date) (s : LocalStorage.t) : LocalStorage.t :=
  match days with
  | [] => s
  | day :: later => recordDaily later (snd (Gamification.updateStreak day s (toISODate day)))
  end.

(** Each day of [days] is the day after the one before it in the list. *)
Fixpoint consecutive (days : list Date) : Prop :=
  match days with
  | [] => True
  | day :: later =>
      match later with
      | [] => True
      | next :: _ => Gamification.getYesterday next = toISODate day /\ consecutive later
      end
  end.
End Spec.

(** ** Concrete data for the examples *)

Module Samples.
Import JS.

Definition sampleEntry : Entry.t :=
  Entry.mk "k1" 250 expense Shopping (Some "lifestyle"%string) (Some "lifestyle"%string)
           "2024-03-05" None 1000.

Definition sampleStore : LocalStorage.t :=
  LocalStorage.set_STORAGE_KEY [sampleEntry] LocalStorage.empty.

(** A gift of 120 with a note. *)
Definition noteStore : LocalStorage.t :=
  LocalStorage.set_STORAGE_KEY
    [Entry.mk "n1" 120 expense Gifts (Some "lifestyle"%string) (Some "lifestyle"%string)
              "2024-03-09" (Some "birthday"%string) 1000]
    LocalStorage.empty.

(** 14 March 2024. *)
Definition march14 : Date := mkDate 2024 2 14.

(** Budgets set in January and February 2024, last read in February. *)
Definition budgetStore : LocalStorage.t :=
  LocalStorage.set_BUDGET_MONTH_KEY (BudgetMonth.mk 1 2024)
    (LocalStorage.set_BUDGET_KEY
       [Budget.mk Meals 300 0 2024; Budget.mk Shopping 500 1 2024]
       LocalStorage.empty).

(** A budget of 1000 for shopping in March 2024, 899 of it spent. *)
Definition statusStore : LocalStorage.t :=
  LocalStorage.set_STORAGE_KEY
    [Entry.mk "k1" 899 expense Shopping (Some "lifestyle"%string) (Some "lifestyle"%string)
              "2024-03-05" None 1000]
    (LocalStorage.set_BUDGET_MONTH_KEY (BudgetMonth.mk 2 2024)
       (LocalStorage.set_BUDGET_KEY [Budget.mk Shopping 1000 2 2024] LocalStorage.empty)).

(** Shopping for 500 in February 2024 and for 750 in March 2024; a first
    gift of 120 in March. *)
Definition growthStore : LocalStorage.t :=
  LocalStorage.set_STORAGE_KEY
    [Entry.mk "g1" 500 expense Shopping (Some "lifestyle"%string) (Some "lifestyle"%string)
              "2024-02-11" None 1000;
     Entry.mk "g2" 750 expense Shopping (Some "lifestyle"%string) (Some "lifestyle"%string)
              "2024-03-02" None 2000;
     Entry.mk "g3" 120 expense Gifts (Some "lifestyle"%string) (Some "lifestyle"%string)
              "2024-03-09" (Some "birthday"%string) 3000]
    LocalStorage.empty.

(** Needs of 40 in January, 30 in February and 50 in March 2024. *)
Definition trendStore : LocalStorage.t :=
  LocalStorage.set_STORAGE_KEY
    [Entry.mk "t1" 40 expense Meals (Some "needs"%string) (Some "needs"%string)
              "2024-01-20" None 1000;
     Entry.mk "t2" 30 expense Meals (Some "needs"%string) (Some "needs"%string)
              "2024-02-20" None 2000;
     Entry.mk "t3" 50 expense Meals (Some "needs"%string) (Some "needs"%string)
              "2024-03-10" None 3000]
    LocalStorage.empty.

Definition streakStore (current longest : Z) (last : string) (total : Z) : LocalStorage.t :=
  LocalStorage.set_STREAK_KEY (StreakData.mk current longest last total) LocalStorage.empty.


(** Budgets of 1000 for shopping and 400 for meals in March 2024, with 250
    and 100 of them spent. *)
Definition summaryStore : LocalStorage.t :=
  LocalStorage.set_STORAGE_KEY
    [Entry.mk "s1" 250 expense Shopping (Some "lifestyle"%string) (Some "lifestyle"%string)
              "2024-03-05" None 1000;
     Entry.mk "s2" 100 expense Meals (Some "needs"%string) (Some "needs"%string)
              "2024-03-07" None 2000]
    (LocalStorage.set_BUDGET_MONTH_KEY (BudgetMonth.mk 2 2024)
       (LocalStorage.set_BUDGET_KEY
          [Budget.mk Shopping 1000 2 2024; Budget.mk Meals 400 2 2024]
          LocalStorage.empty)).

(** A host whose square root is the identity, for running the forecast on
    data where no square root is taken. *)
Definition plainMath : MathHost := {| Math_sqrt := fun x => x |}.
End Samples.

(** ** Definitions used to state the properties of the binary64 embedding *)

Module DoubleSpec.
Import JS Floats Double.
Local Open Scope float_scope.

(** The linear recency weight of the value at [index] among [n] values. *)
Definition weightAt (n index : nat) : float :=
  of_Z (Z.of_nat n - Z.of_nat index).

(** The values times their weights, and the weights, added up in index
    order from 0, each addition rounded. *)
Definition weightedSum (values : list float) : float :=
  fold_left (fun sum index => sum + nth index values 0 * weightAt (List.length values) index)
            (seq 0 (List.length values)) 0.

Definition weightSum (n : nat) : float :=
  fold_left (fun total index => total + weightAt n index) (seq 0 n) 0.

(** The rational number a finite binary64 value is. *)
Definition exactValue (x : float) : Q :=
  match Prim2SF x with
  | S754_finite s m e => (inject_Z (if s then Z.neg m else Z.pos m) * 2 ^ e)%Q
  | _ => 0%Q
  end.

(** The weighted average of the numbers [values] are, in exact arithmetic. *)
Definition exactWeightedAverage (values : list float) : Q :=
  let n := List.length values in
  (Spec.sumOver n (fun i => exactValue (nth i values 0%float) * Spec.weightAt n i)
   / Spec.sumOver n (Spec.weightAt n))%Q.




(** The year and the month of the calendar month [i] months before the
    month of [now]. *)
Definition monthsBack (now : Date) (i : nat) : Z * Z :=
  let index := (12 * getFullYear now + getMonth now - Z.of_nat i)%Z in
  ((index / 12)%Z, (index mod 12)%Z).



End DoubleSpec.

(** ** Concrete data for the examples on binary64 numbers *)

Module DoubleSamples.
Import JS Floats Double.
Local Open Scope float_scope.

(** 31 March 2024. *)
Definition march31 : Date := mkDate 2024 2 31.

Definition expenseOf (id : string) (amount : float) (category : Category)
           (group date : string) (createdAt : Z) : Entry.t :=
  Entry.mk id amount expense category (Some group) (Some group) date None createdAt.

(** Needs of 40 in January, 30 in February and 50 in March 2024. *)
Definition trendStore : LocalStorage.t :=
  LocalStorage.set_STORAGE_KEY
    [expenseOf "t1" 40 Meals "needs" "2024-01-20" 1000;
     expenseOf "t2" 30 Meals "needs" "2024-02-20" 2000;
     expenseOf "t3" 50 Meals "needs" "2024-03-10" 3000]
    LocalStorage.empty.


(** Shopping for 500 in February 2024 and for 750 in March 2024; a first
    gift of 120 in March. *)
Definition growthStore : LocalStorage.t :=
  LocalStorage.set_STORAGE_KEY
    [expenseOf "g1" 500 Shopping "lifestyle" "2024-02-11" 1000;
     expenseOf "g2" 750 Shopping "lifestyle" "2024-03-02" 2000;
     expenseOf "g3" 120 Gifts "lifestyle" "2024-03-09" 3000]
    LocalStorage.empty.


(** A budget of 1000 for shopping in March 2024, 899 of it spent. *)
Definition statusStore : LocalStorage.t :=
  LocalStorage.set_STORAGE_KEY
    [expenseOf "k1" 899 Shopping "lifestyle" "2024-03-05" 1000]
    (LocalStorage.set_BUDGET_MONTH_KEY (BudgetMonth.mk 2 2024)
       (LocalStorage.set_BUDGET_KEY [Budget.mk Shopping 1000 2 2024] LocalStorage.empty)).

(** The numbers 198.43, 244.05 and 11.61. *)
Definition threeAmounts : list float := [19843 / 100; 24405 / 100; 1161 / 100].

(** A budget of 9 for shopping in March 2024, with 0.9 and 7.2 spent. *)
Definition tenthsStore : LocalStorage.t :=
  LocalStorage.set_STORAGE_KEY
    [expenseOf "n1" (9 / 10) Shopping "lifestyle" "2024-03-05" 1000;
     expenseOf "n2" (72 / 10) Shopping "lifestyle" "2024-03-06" 2000]
    (LocalStorage.set_BUDGET_MONTH_KEY (BudgetMonth.mk 2 2024)
       (LocalStorage.set_BUDGET_KEY [Budget.mk Shopping 9 2 2024] LocalStorage.empty)).
End DoubleSamples.

(** * Properties *)

(** ** Numbers *)

Module JSFacts.
Import JS.
Local Open Scope Q_scope.

Lemma Math_round_comp (x y : Q) : x == y -> Math_round x = Math_round y.
Proof.
  intros E. unfold Math_round. f_equal. apply Qfloor_comp. now rewrite E.
Qed.

(** [Math_round x] is an integer within one half of [x]. *)
Lemma Math_round_nearest (x : Q) :
  Math_round x - (1 # 2) <= x /\ x < Math_round x + (1 # 2).
Proof.
  unfold Math_round. split.
  - pose proof (Qfloor_le (x + (1 # 2))) as L.
    apply Qplus_le_l with (z := 1 # 2). ring_simplify.
    ring_simplify in L. exact L.
  - pose proof (Qlt_floor (x + (1 # 2))) as L.
    rewrite inject_Z_plus in L.
    apply Qplus_lt_l with (z := 1 # 2).
    eapply Qlt_le_trans; [exact L|].
    apply Qle_lteq. right. simpl. ring.
Qed.

Lemma gt_true (a b : Q) : gt a b = true <-> b < a.
Proof.
  unfold gt. rewrite negb_true_iff. split.
  - intros E. apply Qnot_le_lt. intros L. apply Qle_bool_iff in L. congruence.
  - intros L. destruct (Qle_bool a b) eqn:E; [|reflexivity].
    apply Qle_bool_iff in E. exfalso. exact (Qlt_not_le _ _ L E).
Qed.

Lemma gt_false (a b : Q) : gt a b = false <-> a <= b.
Proof.
  unfold gt. rewrite negb_false_iff. apply Qle_bool_iff.
Qed.

Lemma lt_true (a b : Q) : lt a b = true <-> a < b.
Proof. unfold lt. apply (gt_true b a). Qed.

Lemma ge_true (a b : Q) : ge a b = true <-> b <= a.
Proof. unfold ge. apply Qle_bool_iff. Qed.

Lemma ge_false (a b : Q) : ge a b = false <-> a < b.
Proof.
  unfold ge. split.
  - intros E. apply Qnot_le_lt. intros L. apply Qle_bool_iff in L. congruence.
  - intros L. destruct (Qle_bool b a) eqn:E; [|reflexivity].
    apply Qle_bool_iff in E. exfalso. exact (Qlt_not_le _ _ L E).
Qed.

Lemma le_true (a b : Q) : le a b = true <-> a <= b.
Proof. unfold le. apply Qle_bool_iff. Qed.

Lemma le_false (a b : Q) : le a b = false <-> b < a.
Proof. unfold le. apply (ge_false b a). Qed.

Lemma strict_eq_true (a b : Q) : strict_eq a b = true <-> a == b.
Proof. unfold strict_eq. apply Qeq_bool_iff. Qed.

Lemma strict_eq_false (a b : Q) : strict_eq a b = false <-> ~ a == b.
Proof.
  unfold strict_eq. split.
  - intros E Q. apply Qeq_bool_iff in Q. congruence.
  - intros N. destruct (Qeq_bool a b) eqn:E; [|reflexivity].
    apply Qeq_bool_iff in E. contradiction.
Qed.

End JSFacts.

(** ** Weighted average *)

Module WeightedAverageFacts.
Import JS JSFacts Forecast Spec.
Local Open Scope Q_scope.






End WeightedAverageFacts.

(** ** The entry store *)

Module EntryStoreFacts.
Import JS Storage Samples.

Lemma findIndex_none {A : Type} (p : A -> bool) (l : list A) :
  (forall x, In x l -> p x = false) -> findIndex p l = None.
Proof.
  induction l as [|x rest IH]; intros N; [reflexivity|].
  simpl. rewrite (N x) by (left; reflexivity).
  rewrite IH; [reflexivity|]. intros y I. apply N. right. exact I.
Qed.

Lemma filter_keeps_all {A : Type} (p : A -> bool) (l : list A) :
  (forall x, In x l -> p x = true) -> filter p l = l.
Proof.
  induction l as [|x rest IH]; intros K; [reflexivity|].
  simpl. rewrite (K x) by (left; reflexivity).
  f_equal. apply IH. intros y I. apply K. right. exact I.
Qed.

(** C9.  For an id that no stored entry has, [updateEntry] returns null,
    [deleteEntry] returns false, and both leave the store as it was. *)
Theorem update_delete_absent_id (s : LocalStorage.t) (id : string)
        (updates : EntryUpdates.t) :
  (forall e, In e (getEntries s) -> Entry.id e <> id) ->
  updateEntry s id updates = (None, s) /\ deleteEntry s id = (false, s).
Proof.
  intros Absent. split.
  - unfold updateEntry. rewrite findIndex_none; [reflexivity|].
    intros e I. apply String.eqb_neq. now apply Absent.
  - unfold deleteEntry. rewrite filter_keeps_all.
    + now rewrite Nat.eqb_refl.
    + intros e I. apply negb_true_iff, String.eqb_neq. now apply Absent.
Qed.

Lemma update_delete_absent_id_witness :
  updateEntry sampleStore "k2"
              (EntryUpdates.mk (Some 300%Q) None None None None None None)
  = (None, sampleStore)
  /\ deleteEntry sampleStore "k2" = (false, sampleStore).
Proof.
  apply update_delete_absent_id.
  intros e [<-|[]]. discriminate.
Defined.

End EntryStoreFacts.

(** ** Dates as texts *)

Module DateFacts.
Import JS.
Local Open Scope string_scope.

Lemma length_append (a b : string) :
  String.length (a ++ b) = (String.length a + String.length b)%nat.
Proof. induction a as [|c a IH]; simpl; [reflexivity|now rewrite IH]. Qed.

Lemma append_assoc (a b c : string) : (a ++ b) ++ c = a ++ (b ++ c).
Proof. induction a as [|x a IH]; simpl; [reflexivity|now rewrite IH]. Qed.

(** Two texts that agree share their endings of a given length. *)
Lemma append_suffix_inj (p1 p2 s1 s2 : string) :
  String.length s1 = String.length s2 -> p1 ++ s1 = p2 ++ s2 -> s1 = s2.
Proof.
  revert p2. induction p1 as [|c p1 IH]; intros [|c2 p2] L E; simpl in E.
  - exact E.
  - exfalso. subst s1. simpl in L. rewrite length_append in L. lia.
  - exfalso. subst s2. simpl in L. rewrite length_append in L. lia.
  - injection E as _ E. now apply IH with p2.
Qed.

Lemma digit_inj (a b : Z) : digit a = digit b -> (a mod 10 = b mod 10)%Z.
Proof.
  unfold digit. intros E. apply (f_equal nat_of_ascii) in E.
  pose proof (Z.mod_pos_bound a 10 ltac:(lia)).
  pose proof (Z.mod_pos_bound b 10 ltac:(lia)).
  rewrite !nat_ascii_embedding in E by lia. lia.
Qed.

Lemma digits2 (z : Z) :
  digits 2 z = String (digit (z / 10)) (String (digit z) EmptyString).
Proof. reflexivity. Qed.

Lemma digits2_inj (a b : Z) :
  (0 <= a < 100)%Z -> (0 <= b < 100)%Z -> digits 2 a = digits 2 b -> a = b.
Proof.
  intros Ha Hb E. rewrite !digits2 in E. injection E as E1 E2.
  apply digit_inj in E1, E2.
  assert (Qa : (0 <= a / 10 < 10)%Z)
    by (split; [apply Z.div_pos|apply Z.div_lt_upper_bound]; lia).
  assert (Qb : (0 <= b / 10 < 10)%Z)
    by (split; [apply Z.div_pos|apply Z.div_lt_upper_bound]; lia).
  rewrite (Z.mod_small (a / 10)), (Z.mod_small (b / 10)) in E1 by assumption.
  rewrite (Z.div_mod a 10), (Z.div_mod b 10) by lia. lia.
Qed.

Lemma daysInMonth_bounds (y m : Z) : (28 <= daysInMonth y m <= 31)%Z.
Proof.
  unfold daysInMonth.
  destruct (m =? 1)%Z; [destruct (isLeapYear y); lia|].
  destruct ((m =? 3) || (m =? 5) || (m =? 8) || (m =? 10))%Z; lia.
Qed.

Lemma toISODate_split (d : Date) :
  toISODate d
  = (isoYear (getFullYear d) ++ "-" ++ digits 2 (getMonth d + 1) ++ "-")
      ++ digits 2 (getDate d).
Proof.
  unfold toISODate. now rewrite !append_assoc.
Qed.

Lemma toISODate_not_empty (d : Date) : toISODate d <> "".
Proof.
  unfold toISODate. destruct (isoYear (getFullYear d)); discriminate.
Qed.

(** Two dates whose days of the month differ are printed differently. *)
Lemma toISODate_day (d1 d2 : Date) :
  (0 <= getDate d1 < 100)%Z -> (0 <= getDate d2 < 100)%Z ->
  toISODate d1 = toISODate d2 -> getDate d1 = getDate d2.
Proof.
  intros B1 B2 E. rewrite !toISODate_split in E.
  apply append_suffix_inj in E; [|reflexivity].
  now apply digits2_inj.
Qed.

Lemma today_not_yesterday (now : Date) :
  Date_valid now -> toISODate now <> Gamification.getYesterday now.
Proof.
  intros [Hm Hd] E. unfold Gamification.getYesterday in E.
  pose proof (daysInMonth_bounds (getFullYear now) (getMonth now)) as B.
  apply toISODate_day in E.
  - unfold Date_setDate in E. destruct (1 <=? getDate now - 1)%Z eqn:C.
    + simpl in E. lia.
    + apply Z.leb_gt in C. simpl in E.
      match type of E with
      | _ = (daysInMonth ?y ?m + _)%Z => pose proof (daysInMonth_bounds y m)
      end. lia.
  - lia.
  - unfold Date_setDate. destruct (1 <=? getDate now - 1)%Z eqn:C.
    + apply Z.leb_le in C. simpl. lia.
    + apply Z.leb_gt in C. simpl.
      match goal with
      | |- (_ <= daysInMonth ?y ?m + _ < _)%Z => pose proof (daysInMonth_bounds y m)
      end. lia.
Qed.

End DateFacts.

(** ** The streak *)

Module StreakFacts.
Import JS DateFacts Gamification Spec Samples.
Local Open Scope Z_scope.

Lemma unlockAchievement_streak (s : LocalStorage.t) (achievementId : string) :
  LocalStorage.STREAK_KEY (snd (unlockAchievement s achievementId))
  = LocalStorage.STREAK_KEY s.
Proof.
  unfold unlockAchievement.
  destruct (find _ (getAchievements s)) as [achievement|]; [|reflexivity].
  destruct (Achievement.isUnlocked achievement); [reflexivity|].
  destruct (negb _); reflexivity.
Qed.

Lemma checkStreakAchievements_streak (s : LocalStorage.t) (currentStreak : Z) :
  LocalStorage.STREAK_KEY (checkStreakAchievements s currentStreak)
  = LocalStorage.STREAK_KEY s.
Proof.
  unfold checkStreakAchievements.
  repeat match goal with
         | |- context [if ?c then _ else _] => destruct c
         end;
    repeat rewrite unlockAchievement_streak; reflexivity.
Qed.

(** What [updateStreak] stores is what it returns. *)
Lemma updateStreak_stored (now : Date) (s : LocalStorage.t) (entryDate : string) :
  getStreakData (snd (updateStreak now s entryDate)) = fst (updateStreak now s entryDate).
Proof.
  unfold updateStreak.
  destruct ((entryDate =? toISODate now)%string || (entryDate =? getYesterday now)%string).
  - cbn [fst snd]. unfold getStreakData at 1.
    now rewrite checkStreakAchievements_streak.
  - reflexivity.
Qed.

(** [streakOrdered] holds of the initial record and is kept by both
    operations that write the record. *)
Lemma streakOrdered_initial : streakOrdered (getStreakData LocalStorage.empty).
Proof. unfold streakOrdered. simpl. lia. Qed.

Lemma streakOrdered_updateStreak (now : Date) (s : LocalStorage.t) (entryDate : string) :
  streakOrdered (getStreakData s) ->
  streakOrdered (getStreakData (snd (updateStreak now s entryDate))).
Proof.
  rewrite updateStreak_stored. unfold updateStreak, streakOrdered.
  intros O.
  destruct ((entryDate =? toISODate now)%string || (entryDate =? getYesterday now)%string);
    [|exact O].
  cbn [fst StreakData.currentStreak StreakData.longestStreak].
  destruct (_ || _)%bool; [lia|]. destruct (negb _); lia.
Qed.

Lemma streakOrdered_validateStreak (now : Date) (s : LocalStorage.t) :
  streakOrdered (getStreakData s) ->
  streakOrdered (getStreakData (validateStreak now s)).
Proof.
  unfold validateStreak, streakOrdered. intros O.
  destruct (_ && _)%bool; [|exact O]. simpl. lia.
Qed.

(** C4.  For an entry dated today or yesterday: a stored last entry date
    of yesterday, or none, adds one to the current streak; any other one
    that is not today sets it to 1; the last entry date becomes today and
    the longest streak the larger of itself and the new current streak;
    the record is stored.  From the initial store an entry dated today
    gives a current and a longest streak of 1. *)
Theorem updateStreak_recent_entry (now : Date) (s : LocalStorage.t) (entryDate : string) :
  entryDate = toISODate now \/ entryDate = getYesterday now ->
  let before := getStreakData s in
  let after := fst (updateStreak now s entryDate) in
  let last := StreakData.lastEntryDate before in
  (last = getYesterday now \/ last = ""%string ->
   StreakData.currentStreak after = StreakData.currentStreak before + 1) /\
  (last <> getYesterday now -> last <> ""%string -> last <> toISODate now ->
   StreakData.currentStreak after = 1) /\
  (last <> getYesterday now -> last <> ""%string -> last = toISODate now ->
   StreakData.currentStreak after = StreakData.currentStreak before) /\
  StreakData.lastEntryDate after = toISODate now /\
  StreakData.longestStreak after
  = Z.max (StreakData.longestStreak before) (StreakData.currentStreak after) /\
  getStreakData (snd (updateStreak now s entryDate)) = after /\
  (LocalStorage.STREAK_KEY s = None -> entryDate = toISODate now ->
   StreakData.currentStreak after = 1 /\ StreakData.longestStreak after = 1).
Proof.
  intros Recent before after last.
  assert (G : ((entryDate =? toISODate now)%string
               || (entryDate =? getYesterday now)%string)%bool = true).
  { apply orb_true_iff. destruct Recent as [-> | ->]; [left|right]; apply String.eqb_refl. }
  assert (A : after
              = let currentStreak :=
                  if ((last =? getYesterday now)%string || (last =? "")%string)%bool
                  then StreakData.currentStreak before + 1
                  else if negb (last =? toISODate now)%string then 1
                       else StreakData.currentStreak before in
                StreakData.mk currentStreak
                              (Z.max (StreakData.longestStreak before) currentStreak)
                              (toISODate now)
                              (StreakData.totalDaysWithEntries before + 1)).
  { subst after. unfold updateStreak. rewrite G. reflexivity. }
  cbv zeta in A.
  split; [|split; [|split; [|split; [|split; [|split]]]]].
  - intros Y. rewrite A. cbn [StreakData.currentStreak].
    replace ((last =? getYesterday now)%string || (last =? "")%string)%bool with true;
      [reflexivity|].
    symmetry. apply orb_true_iff.
    destruct Y as [-> | ->]; [left|right]; apply String.eqb_refl.
  - intros N1 N2 N3. rewrite A. cbn [StreakData.currentStreak].
    apply String.eqb_neq in N1, N2, N3. now rewrite N1, N2, N3.
  - intros N1 N2 T. rewrite A. cbn [StreakData.currentStreak].
    apply String.eqb_neq in N1, N2. apply String.eqb_eq in T. now rewrite N1, N2, T.
  - now rewrite A.
  - now rewrite A.
  - apply updateStreak_stored.
  - intros Empty _. rewrite A. subst last before. unfold getStreakData.
    rewrite Empty. cbn [StreakData.lastEntryDate StreakData.currentStreak
                        StreakData.longestStreak].
    rewrite String.eqb_refl, orb_true_r. split; reflexivity.
Qed.

Lemma updateStreak_recent_entry_witness :
  (let after := fst (updateStreak march14 LocalStorage.empty (toISODate march14)) in
   StreakData.currentStreak after = 1 /\ StreakData.longestStreak after = 1)
  /\ StreakData.currentStreak
       (fst (updateStreak march14 (streakStore 4 6 "2024-03-13" 9) "2024-03-13")) = 4 + 1
  /\ StreakData.currentStreak
       (fst (updateStreak march14 (streakStore 4 6 "2024-03-10" 9) "2024-03-14")) = 1.
Proof.
  destruct (updateStreak_recent_entry march14 LocalStorage.empty
              (or_introl eq_refl)) as [_ [_ [_ [_ [_ [_ Initial]]]]]].
  destruct (updateStreak_recent_entry march14 (streakStore 4 6 "2024-03-13" 9)
              (entryDate := "2024-03-13") (or_intror eq_refl)) as [Next _].
  destruct (updateStreak_recent_entry march14 (streakStore 4 6 "2024-03-10" 9)
              (entryDate := "2024-03-14") (or_introl eq_refl)) as [_ [Stale _]].
  split; [|split].
  - apply Initial; reflexivity.
  - apply Next. left. reflexivity.
  - apply Stale; discriminate.
Defined.

(** C10.  When the stored last entry date is already today, a further
    entry dated today leaves the current streak, the longest streak and
    the last entry date as they are and adds one to
    [totalDaysWithEntries]; so [k] entries recorded on one day from the
    initial store leave that counter at [k], on a single day with
    entries. *)
Theorem updateStreak_same_day (now : Date) (s : LocalStorage.t) :
  Date_valid now ->
  StreakData.lastEntryDate (getStreakData s) = toISODate now ->
  streakOrdered (getStreakData s) ->
  let before := getStreakData s in
  let after := fst (updateStreak now s (toISODate now)) in
  (StreakData.currentStreak after = StreakData.currentStreak before /\
   StreakData.longestStreak after = StreakData.longestStreak before /\
   StreakData.lastEntryDate after = StreakData.lastEntryDate before /\
   StreakData.totalDaysWithEntries after = StreakData.totalDaysWithEntries before + 1) /\
  (forall k : nat,
      let final := getStreakData (recordToday (S k) now LocalStorage.empty) in
      StreakData.totalDaysWithEntries final = Z.of_nat (S k) /\
      StreakData.lastEntryDate final = toISODate now /\
      StreakData.currentStreak final = 1).
Proof.
  intros Valid Today Ordered before after.
  assert (Step : forall s0,
             StreakData.lastEntryDate (getStreakData s0) = toISODate now ->
             fst (updateStreak now s0 (toISODate now))
             = StreakData.mk (StreakData.currentStreak (getStreakData s0))
                             (Z.max (StreakData.longestStreak (getStreakData s0))
                                    (StreakData.currentStreak (getStreakData s0)))
                             (toISODate now)
                             (StreakData.totalDaysWithEntries (getStreakData s0) + 1)).
  { intros s0 T. unfold updateStreak.
    rewrite String.eqb_refl, orb_true_l. cbn [fst]. rewrite T.
    pose proof (today_not_yesterday Valid) as NY.
    pose proof (toISODate_not_empty now) as NE.
    apply String.eqb_neq in NY, NE. rewrite NY, NE, String.eqb_refl.
    reflexivity. }
  split.
  - subst after. rewrite (Step s Today).
    cbn [StreakData.currentStreak StreakData.longestStreak StreakData.lastEntryDate
         StreakData.totalDaysWithEntries].
    fold before. unfold streakOrdered in Ordered. fold before in Ordered, Today.
    repeat split; [lia|now rewrite Today].
  - induction k as [|k IH].
    + cbv zeta. cbn [recordToday]. rewrite updateStreak_stored.
      unfold updateStreak. cbv zeta. rewrite String.eqb_refl, orb_true_l.
      change (getStreakData LocalStorage.empty) with (StreakData.mk 0 0 "" 0).
      cbn [fst StreakData.currentStreak StreakData.longestStreak
           StreakData.lastEntryDate StreakData.totalDaysWithEntries].
      change ("" =? "")%string with true. rewrite orb_true_r.
      repeat split.
    + cbv zeta in IH. destruct IH as [Total [Last Current]].
      change (recordToday (S (S k)) now LocalStorage.empty)
        with (snd (updateStreak now (recordToday (S k) now LocalStorage.empty)
                                (toISODate now))).
      cbv zeta. rewrite updateStreak_stored, (Step _ Last).
      cbn [StreakData.currentStreak StreakData.longestStreak StreakData.lastEntryDate
           StreakData.totalDaysWithEntries].
      rewrite Total, Current. repeat split.
      rewrite (Nat2Z.inj_succ (S k)). reflexivity.
Qed.

Lemma updateStreak_same_day_witness :
  (let after := fst (updateStreak march14 (streakStore 3 5 "2024-03-14" 7) "2024-03-14") in
   StreakData.currentStreak after = 3 /\
   StreakData.longestStreak after = 5 /\
   StreakData.lastEntryDate after = "2024-03-14"%string /\
   StreakData.totalDaysWithEntries after = 7 + 1)
  /\ StreakData.totalDaysWithEntries
       (getStreakData (recordToday 3 march14 LocalStorage.empty)) = 3.
Proof.
  assert (Valid : Date_valid march14) by (cbv; repeat split; discriminate).
  assert (Ordered : streakOrdered (getStreakData (streakStore 3 5 "2024-03-14" 7)))
    by (unfold streakOrdered; simpl; lia).
  destruct (updateStreak_same_day (streakStore 3 5 "2024-03-14" 7)
              Valid eq_refl Ordered) as [Same Count].
  split.
  - exact Same.
  - exact (proj1 (Count 2%nat)).
Defined.

End StreakFacts.

(** ** Budgets: the carry-over at a change of month *)

Module BudgetRolloverFacts.
Import JS BudgetService Samples.
Local Open Scope Z_scope.

(** A read in the month the marker names changes nothing. *)
Lemma checkAndReset_same_month (now : Date) (s : LocalStorage.t) (last : BudgetMonth.t) :
  getLastBudgetMonth s = Some last ->
  BudgetMonth.month last = getMonth now ->
  BudgetMonth.year last = getFullYear now ->
  checkAndResetMonthlyBudgets now s = s.
Proof.
  intros L M Y. unfold checkAndResetMonthlyBudgets. rewrite L, M, Y.
  now rewrite !Z.eqb_refl.
Qed.

(** Without a marker no read carries anything over. *)
Lemma checkAndReset_no_marker (now : Date) (s : LocalStorage.t) :
  getLastBudgetMonth s = None -> checkAndResetMonthlyBudgets now s = s.
Proof. intros L. unfold checkAndResetMonthlyBudgets. now rewrite L. Qed.

(** C3.  A read of the budgets in a month other than the recorded last
    tracked month: every row already stored stays where it was; for every
    row of the last tracked month a row with the same category and amount
    is added for the current month, and nothing else is added; the marker
    moves to the current month; the other keys are untouched; a later
    read in the same month returns the same rows and changes nothing. *)
Theorem getBudgets_rollover (now : Date) (s : LocalStorage.t) (last : BudgetMonth.t) :
  getLastBudgetMonth s = Some last ->
  BudgetMonth.month last <> getMonth now \/ BudgetMonth.year last <> getFullYear now ->
  let old := match LocalStorage.BUDGET_KEY s with Some data => data | None => [] end in
  let read := fst (getBudgets now s) in
  let s1 := snd (getBudgets now s) in
  let ofLast b := Budget.month b = BudgetMonth.month last
                  /\ Budget.year b = BudgetMonth.year last in
  let carried b := Budget.mk (Budget.category b) (Budget.amount b)
                             (getMonth now) (getFullYear now) in
  (forall i b, nth_error old i = Some b -> nth_error read i = Some b) /\
  (forall b, In b old -> ofLast b -> In (carried b) (skipn (List.length old) read)) /\
  (forall b, In b (skipn (List.length old) read) ->
             exists b0, In b0 old /\ ofLast b0 /\ b = carried b0) /\
  List.length read
  = (List.length old
     + List.length (filter (fun b => (Budget.month b =? BudgetMonth.month last)%Z
                                     && (Budget.year b =? BudgetMonth.year last)%Z) old))%nat /\
  LocalStorage.BUDGET_KEY s1 = Some read /\
  LocalStorage.BUDGET_MONTH_KEY s1 = Some (BudgetMonth.mk (getMonth now) (getFullYear now)) /\
  LocalStorage.STORAGE_KEY s1 = LocalStorage.STORAGE_KEY s /\
  LocalStorage.STREAK_KEY s1 = LocalStorage.STREAK_KEY s /\
  LocalStorage.ACHIEVEMENTS_KEY s1 = LocalStorage.ACHIEVEMENTS_KEY s /\
  (forall now', getMonth now' = getMonth now -> getFullYear now' = getFullYear now ->
                getBudgets now' s1 = (read, s1)).
Proof.
  intros L Changed old read s1 ofLast carried.
  set (inLast := fun b => (Budget.month b =? BudgetMonth.month last)
                          && (Budget.year b =? BudgetMonth.year last)).
  assert (G : (negb (BudgetMonth.month last =? getMonth now)
               || negb (BudgetMonth.year last =? getFullYear now))%bool = true).
  { apply orb_true_iff.
    destruct Changed as [N|N]; [left|right]; apply negb_true_iff, Z.eqb_neq, N. }
  assert (R : checkAndResetMonthlyBudgets now s
              = updateLastBudgetMonth now
                  (LocalStorage.set_BUDGET_KEY (old ++ map carried (filter inLast old)) s)).
  { unfold checkAndResetMonthlyBudgets. rewrite L, G. reflexivity. }
  assert (Eread : read = old ++ map carried (filter inLast old)).
  { subst read. unfold getBudgets. rewrite R. reflexivity. }
  assert (Es1 : s1 = updateLastBudgetMonth now
                       (LocalStorage.set_BUDGET_KEY read s)).
  { subst s1. unfold getBudgets. cbn [snd]. now rewrite R, Eread. }
  assert (Skip : skipn (List.length old) read = map carried (filter inLast old)).
  { rewrite Eread, skipn_app, Nat.sub_diag, skipn_all. reflexivity. }
  assert (InLast : forall b, inLast b = true <-> ofLast b).
  { intros b. unfold inLast, ofLast. rewrite andb_true_iff, !Z.eqb_eq. reflexivity. }
  repeat split.
  - intros i b N. rewrite Eread, nth_error_app1; [exact N|].
    apply nth_error_Some. congruence.
  - intros b I O. rewrite Skip. apply in_map, filter_In. split; [exact I|].
    now apply InLast.
  - intros b I. rewrite Skip in I. apply in_map_iff in I.
    destruct I as [b0 [E I]]. apply filter_In in I. destruct I as [I O].
    exists b0. split; [exact I|]. split; [now apply InLast|now symmetry].
  - rewrite Eread, length_app, length_map. reflexivity.
  - now rewrite Es1.
  - now rewrite Es1.
  - now rewrite Es1.
  - now rewrite Es1.
  - now rewrite Es1.
  - intros now' M Y. unfold getBudgets.
    rewrite (@checkAndReset_same_month now' s1 (BudgetMonth.mk (getMonth now) (getFullYear now))).
    + now rewrite Es1.
    + now rewrite Es1.
    + now rewrite M.
    + now rewrite Y.
Qed.

Lemma getBudgets_rollover_witness :
  fst (getBudgets march14 budgetStore)
  = [Budget.mk Meals 300 0 2024; Budget.mk Shopping 500 1 2024; Budget.mk Shopping 500 2 2024]
  /\ In (Budget.mk Shopping 500 2 2024)
        (skipn 2 (fst (getBudgets march14 budgetStore)))
  /\ getBudgets march14 (snd (getBudgets march14 budgetStore))
     = (fst (getBudgets march14 budgetStore), snd (getBudgets march14 budgetStore)).
Proof.
  assert (Changed : BudgetMonth.month (BudgetMonth.mk 1 2024) <> getMonth march14
                    \/ BudgetMonth.year (BudgetMonth.mk 1 2024) <> getFullYear march14)
    by (left; discriminate).
  destruct (@getBudgets_rollover march14 budgetStore (BudgetMonth.mk 1 2024) eq_refl Changed)
    as [_ [Carried [_ [_ [_ [_ [_ [_ [_ Again]]]]]]]]].
  split; [reflexivity|]. split.
  - apply (Carried (Budget.mk Shopping 500 1 2024)).
    + right. left. reflexivity.
    + split; reflexivity.
  - apply Again; reflexivity.
Defined.

End BudgetRolloverFacts.

(** ** Budgets: the status of a category *)

Module BudgetStatusFacts.
Import JS JSFacts BudgetService BudgetRolloverFacts Samples.
Local Open Scope Q_scope.

Lemma checkAndReset_entries (now : Date) (s : LocalStorage.t) :
  LocalStorage.STORAGE_KEY (checkAndResetMonthlyBudgets now s) = LocalStorage.STORAGE_KEY s.
Proof.
  unfold checkAndResetMonthlyBudgets.
  destruct (getLastBudgetMonth s) as [last|]; [|reflexivity].
  destruct (_ || _)%bool; reflexivity.
Qed.

Lemma getBudgetStatus_store `{Host} (now : Date) (s : LocalStorage.t) (category : Category) :
  snd (getBudgetStatus now s category) = checkAndResetMonthlyBudgets now s.
Proof.
  unfold getBudgetStatus, getBudgetForCategory, getBudgets.
  destruct (strict_eq _ 0); reflexivity.
Qed.

Lemma In_CATEGORIES (category : Category) : In category CATEGORIES.
Proof. destruct category; simpl; tauto. Qed.

Lemma statusOf_tiers (percentage : Q) :
  (statusOf percentage = red <-> 90 <= percentage) /\
  (statusOf percentage = yellow <-> 70 <= percentage /\ percentage < 90) /\
  (statusOf percentage = green <-> percentage < 70).
Proof.
  unfold statusOf.
  destruct (ge percentage 90) eqn:R.
  - apply ge_true in R.
    assert (70 <= percentage) by (eapply Qle_trans; [|exact R]; discriminate).
    repeat split; try discriminate; try (intros; assumption).
    + intros [_ L]. exfalso. exact (Qlt_not_le _ _ L R).
    + intros L. exfalso. apply (Qlt_not_le _ _ L). assumption.
  - apply ge_false in R. destruct (ge percentage 70) eqn:Y.
    + apply ge_true in Y.
      repeat split; try discriminate; try assumption.
      * intros L. exfalso. exact (Qlt_not_le _ _ R L).
      * intros L. exfalso. exact (Qlt_not_le _ _ L Y).
    + apply ge_false in Y.
      repeat split; try discriminate; try (intros; assumption).
      * intros L. exfalso. exact (Qlt_not_le _ _ R L).
      * intros [L _]. exfalso. exact (Qlt_not_le _ _ Y L).
Qed.

Lemma isCurrent_true (now : Date) (category : Category) (b : Budget.t) :
  isCurrent now category b = true
  <-> Budget.category b = category
      /\ Budget.month b = getMonth now /\ Budget.year b = getFullYear now.
Proof.
  unfold isCurrent. rewrite !andb_true_iff, !Z.eqb_eq.
  assert (C : Category_eqb (Budget.category b) category = true
              <-> Budget.category b = category).
  { destruct (Budget.category b), category; simpl; split;
      solve [reflexivity | discriminate]. }
  rewrite C. tauto.
Qed.

End BudgetStatusFacts.

(** ** Category growth *)

Module CategoryGrowthFacts.
Import JS JSFacts Analytics Samples.
Local Open Scope Q_scope.

Lemma In_insertSorted {A : Type} (before : A -> A -> bool) (x y : A) (l : list A) :
  In y (insertSorted before x l) <-> y = x \/ In y l.
Proof.
  induction l as [|z rest IH]; simpl.
  - intuition.
  - destruct (before x z); simpl; [intuition|]. rewrite IH. intuition.
Qed.

Lemma In_sort {A : Type} (before : A -> A -> bool) (y : A) (l : list A) :
  In y (sort before l) <-> In y l.
Proof.
  unfold sort. induction l as [|x rest IH]; simpl; [reflexivity|].
  rewrite In_insertSorted, IH. intuition.
Qed.

Lemma In_getEntriesByMonth `{Host} (s : LocalStorage.t) (year month : Z) (e : Entry.t) :
  In e (Storage.getEntriesByMonth s year month) -> In e (Storage.getEntries s).
Proof.
  unfold Storage.getEntriesByMonth. rewrite In_sort, filter_In. tauto.
Qed.



End CategoryGrowthFacts.

(** ** The export *)

Module ExportFacts.
Import JS Storage Spec Samples.
Local Open Scope string_scope.

Lemma everyFieldQuoted_start (line : string) :
  everyFieldQuoted line -> line = "" \/ exists rest, line = String doubleQuote rest.
Proof.
  intros [[|field fields] ->]; [left; reflexivity|right].
  destruct fields as [|next fields]; cbn [map concat];
    unfold quoted; cbn [append]; eexists; reflexivity.
Qed.

(** A text whose lines all have their fields quoted is empty or starts with
    a double quote or with a line break. *)
Lemma allRowsQuoted_start (content : string) (n : nat) :
  allRowsQuoted content n ->
  content = ""
  \/ exists c rest, content = String c rest /\ (c = doubleQuote \/ c = ascii_of_nat 10).
Proof.
  intros [[|line lines] [-> [L Q]]]; [discriminate|].
  inversion Q as [|? ? Q1 _]; subst.
  apply everyFieldQuoted_start in Q1. cbn [concat].
  destruct Q1 as [->|[rest ->]].
  - destruct lines; [left; reflexivity|right].
    exists (ascii_of_nat 10). eexists. split; [reflexivity|right; reflexivity].
  - right. exists doubleQuote.
    destruct lines; eexists; (split; [reflexivity|left; reflexivity]).
Qed.

Lemma header_not_quoted :
  concat "," headers = "Date,Type,Category,Priority,Amount,Note"
  /\ ~ everyFieldQuoted (concat "," headers).
Proof.
  split; [reflexivity|].
  intros Q. apply everyFieldQuoted_start in Q.
  destruct Q as [E|[rest E]]; discriminate E.
Qed.

(** C2, as the code has it.  With [n] entries stored, [n] not zero, the
    export is a download whose text is the header line followed by one line
    per entry, in the stored order, the lines joined by line breaks; every
    line of an entry has the six columns date, type, category, priority,
    amount and note, each between double quotes, with commas between them;
    the header line is the six column names with commas between them and
    no quotes.  With no entry stored there is an alert and no download. *)
Theorem exportToCSV_rows `{Host} (now : Date) (s : LocalStorage.t) :
  let entries := getEntries s in
  let header := "Date,Type,Category,Priority,Amount,Note" in
  let line entry := concat "," (map quoted (columns entry)) in
  (entries <> [] ->
   exportToCSV now s
   = Download ("expenses_" ++ toISODate now ++ ".csv")
              (concat newline (header :: map line entries))
   /\ List.length (header :: map line entries) = S (List.length entries)
   /\ (forall i entry, nth_error entries i = Some entry ->
                       nth_error (header :: map line entries) (S i) = Some (line entry))
   /\ Forall everyFieldQuoted (map line entries)) /\
  (forall entry, List.length (columns entry) = 6%nat) /\
  ~ everyFieldQuoted header /\
  (entries = [] -> exportToCSV now s = Alert "No entries to export!").
Proof.
  intros entries header line. split; [|split; [|split]].
  - intros NE. split; [|split; [|split]].
    + unfold exportToCSV. fold entries.
      destruct entries as [|e rest] eqn:E; [congruence|].
      cbn [List.length Nat.eqb]. unfold csvContent. rewrite map_map. reflexivity.
    + cbn [List.length]. now rewrite length_map.
    + intros i entry N. cbn [nth_error]. now apply map_nth_error.
    + apply Forall_forall. intros l I. apply in_map_iff in I.
      destruct I as [entry [<- _]]. now exists (columns entry).
  - reflexivity.
  - apply header_not_quoted.
  - intros E. unfold exportToCSV. fold entries. now rewrite E.
Qed.

Lemma exportToCSV_rows_witness :
  exists content,
    @exportToCSV ExampleHost.host march14 sampleStore
    = Download "expenses_2024-03-14.csv" content
    /\ content
       = concat newline
                ["Date,Type,Category,Priority,Amount,Note";
                 concat "," (map quoted ["2024-03-05"; "expense"; "Shopping";
                                         "lifestyle"; "250"; ""])].
Proof.
  destruct (@exportToCSV_rows ExampleHost.host march14 sampleStore) as [Rows _].
  destruct (Rows ltac:(discriminate)) as [E _].
  eexists. split; [exact E|reflexivity].
Defined.

(** C2 as the specification words it fails on a store of one entry: the
    text starts with the letter D of the unquoted header. *)
Lemma exportToCSV_header_counterexample :
  ~ (exists filename content,
        @exportToCSV ExampleHost.host march14 sampleStore = Download filename content
        /\ allRowsQuoted content 1).
Proof.
  intros [filename [content [E Q]]].
  apply allRowsQuoted_start in Q.
  vm_compute in E. injection E as _ <-.
  destruct Q as [Q|[c [rest [Q [C|C]]]]].
  - discriminate Q.
  - injection Q as <- _. vm_compute in C. discriminate C.
  - injection Q as <- _. vm_compute in C. discriminate C.
Qed.

End ExportFacts.

(** ** The entry store: adding, changing and removing entries *)

Module EntryWriteFacts.
Import JS Storage Samples.

Lemma findIndex_some {A : Type} (p : A -> bool) (l : list A) (i : nat) :
  findIndex p l = Some i ->
  exists x, nth_error l i = Some x /\ p x = true
            /\ forall j y, (j < i)%nat -> nth_error l j = Some y -> p y = false.
Proof.
  revert i. induction l as [|a rest IH]; intros i F; [discriminate|].
  simpl in F. destruct (p a) eqn:Pa.
  - injection F as <-. exists a. repeat split; [exact Pa|]. intros j y L. lia.
  - destruct (findIndex p rest) as [k|] eqn:Fr; [|discriminate].
    injection F as <-. destruct (IH k eq_refl) as [x [N [Px Before]]].
    exists x. repeat split; [exact N|exact Px|].
    intros [|j] y L Nj.
    + simpl in Nj. injection Nj as <-. exact Pa.
    + simpl in Nj. apply (Before j y); [lia|exact Nj].
Qed.

Lemma findIndex_found {A : Type} (p : A -> bool) (l : list A) (x : A) :
  In x l -> p x = true -> exists i, findIndex p l = Some i.
Proof.
  induction l as [|a rest IH]; intros I Px; [contradiction|].
  simpl. destruct (p a) eqn:Pa; [now exists 0%nat|].
  destruct I as [->|I]; [congruence|].
  destruct (IH I Px) as [i ->]. now exists (S i).
Qed.

Lemma nth_error_setAt_same {A : Type} (l : list A) (i : nat) (v : A) :
  (i < List.length l)%nat -> nth_error (setAt l i v) i = Some v.
Proof.
  revert i. induction l as [|a rest IH]; intros [|i] L; simpl in *; try lia.
  - reflexivity.
  - apply IH. lia.
Qed.

Lemma nth_error_setAt_other {A : Type} (l : list A) (i j : nat) (v : A) :
  i <> j -> nth_error (setAt l i v) j = nth_error l j.
Proof.
  revert i j. induction l as [|a rest IH]; intros [|i] [|j] N; simpl; try reflexivity.
  - congruence.
  - apply IH. congruence.
Qed.

Lemma length_setAt {A : Type} (l : list A) (i : nat) (v : A) :
  List.length (setAt l i v) = List.length l.
Proof.
  revert i. induction l as [|a rest IH]; intros [|i]; simpl; try reflexivity.
  now rewrite IH.
Qed.

Lemma filter_shorter {A : Type} (p : A -> bool) (l : list A) (x : A) :
  In x l -> p x = false -> (List.length (filter p l) < List.length l)%nat.
Proof.
  induction l as [|a rest IH]; intros I Px; [contradiction|].
  simpl. pose proof (filter_length_le p rest) as B.
  destruct I as [->|I].
  - rewrite Px. lia.
  - specialize (IH I Px). destruct (p a); simpl; lia.
Qed.

(** An entry added under an id that no stored entry has goes to the end of
    the list with that id, the given creation time and every one of the
    seven fields it was given; deleting that id afterwards gives back the
    list as it was, and neither step touches the other keys. *)
Theorem addEntry_then_deleteEntry (s : LocalStorage.t) (entry : Entry.t)
        (generatedId : string) (timestamp : Z) :
  (forall e, In e (getEntries s) -> Entry.id e <> generatedId) ->
  let added := fst (addEntry s entry generatedId timestamp) in
  let s1 := snd (addEntry s entry generatedId timestamp) in
  getEntries s1 = getEntries s ++ [added] /\
  Entry.id added = generatedId /\
  Entry.createdAt added = timestamp /\
  (Entry.amount added, Entry.type added, Entry.category added, Entry.categoryGroup added,
   Entry.priority added, Entry.date added, Entry.note added)
  = (Entry.amount entry, Entry.type entry, Entry.category entry, Entry.categoryGroup entry,
     Entry.priority entry, Entry.date entry, Entry.note entry) /\
  fst (deleteEntry s1 generatedId) = true /\
  getEntries (snd (deleteEntry s1 generatedId)) = getEntries s /\
  LocalStorage.BUDGET_KEY (snd (deleteEntry s1 generatedId)) = LocalStorage.BUDGET_KEY s /\
  LocalStorage.STREAK_KEY (snd (deleteEntry s1 generatedId)) = LocalStorage.STREAK_KEY s.
Proof.
  intros Fresh added s1.
  assert (E1 : getEntries s1 = getEntries s ++ [added]) by reflexivity.
  assert (F : filter (fun e => negb (Entry.id e =? generatedId)%string) (getEntries s1)
              = getEntries s).
  { rewrite E1, filter_app. cbn [filter]. subst added. cbn [addEntry fst Entry.id].
    rewrite String.eqb_refl. cbn [negb]. rewrite app_nil_r.
    apply EntryStoreFacts.filter_keeps_all.
    intros e I. apply negb_true_iff, String.eqb_neq. now apply Fresh. }
  assert (D : deleteEntry s1 generatedId
              = (true, saveEntries (getEntries s) s1)).
  { unfold deleteEntry. rewrite F, E1, length_app. cbn [List.length].
    replace (_ =? _)%nat with false by (symmetry; apply Nat.eqb_neq; lia).
    reflexivity. }
  repeat split; try (rewrite D; reflexivity).
Qed.

Lemma addEntry_then_deleteEntry_witness :
  getEntries (snd (deleteEntry (snd (addEntry sampleStore sampleEntry "k9" 5000)) "k9"))
  = getEntries sampleStore.
Proof.
  assert (Fresh : forall e, In e (getEntries sampleStore) -> Entry.id e <> "k9"%string).
  { intros e [<-|[]]. discriminate. }
  exact (proj1 (proj2 (proj2 (proj2 (proj2 (proj2
           (addEntry_then_deleteEntry sampleStore sampleEntry 5000 Fresh))))))).
Defined.

(** Deleting an id that some stored entry has returns true and stores the
    entries with another id, in their order; no entry with the id is left,
    the list is shorter, and a second deletion of the id finds nothing. *)
Theorem deleteEntry_present (s : LocalStorage.t) (id : string) :
  (exists e, In e (getEntries s) /\ Entry.id e = id) ->
  let s1 := snd (deleteEntry s id) in
  fst (deleteEntry s id) = true /\
  (forall e, In e (getEntries s1) <-> In e (getEntries s) /\ Entry.id e <> id) /\
  getEntries s1 = filter (fun e => negb (Entry.id e =? id)%string) (getEntries s) /\
  (List.length (getEntries s1) < List.length (getEntries s))%nat /\
  deleteEntry s1 id = (false, s1).
Proof.
  intros [e0 [I0 Id0]] s1.
  assert (Short : (List.length (filter (fun e => negb (Entry.id e =? id)%string)
                                       (getEntries s))
                   < List.length (getEntries s))%nat).
  { apply filter_shorter with e0; [exact I0|].
    apply negb_false_iff, String.eqb_eq, Id0. }
  assert (D : deleteEntry s id
              = (true, saveEntries (filter (fun e => negb (Entry.id e =? id)%string)
                                           (getEntries s)) s)).
  { unfold deleteEntry.
    replace (_ =? _)%nat with false by (symmetry; apply Nat.eqb_neq; lia).
    reflexivity. }
  assert (E1 : getEntries s1
               = filter (fun e => negb (Entry.id e =? id)%string) (getEntries s)).
  { subst s1. rewrite D. reflexivity. }
  assert (M : forall e, In e (getEntries s1) <-> In e (getEntries s) /\ Entry.id e <> id).
  { intros e. rewrite E1, filter_In, negb_true_iff, String.eqb_neq. reflexivity. }
  split; [now rewrite D|]. split; [exact M|]. split; [exact E1|].
  split; [now rewrite E1|].
  unfold deleteEntry. rewrite EntryStoreFacts.filter_keeps_all.
  - now rewrite Nat.eqb_refl.
  - intros e I. apply negb_true_iff, String.eqb_neq. now apply M in I.
Qed.

Lemma deleteEntry_present_witness :
  fst (deleteEntry sampleStore "k1") = true
  /\ getEntries (snd (deleteEntry sampleStore "k1")) = [].
Proof.
  assert (Present : exists e, In e (getEntries sampleStore) /\ Entry.id e = "k1"%string).
  { exists sampleEntry. split; [left|]; reflexivity. }
  destruct (deleteEntry_present sampleStore Present) as [T [_ [F _]]].
  split; [exact T|exact F].
Defined.


(** Updating an id that some stored entry has changes the first entry with
    that id and no other: the entry keeps its id and creation time, takes
    each of the seven fields that was given and keeps the others; a note
    given as [undefined] removes the note; the entry is returned and
    stored at the same place; the list keeps its length. *)
Theorem updateEntry_present (s : LocalStorage.t) (id : string) (updates : EntryUpdates.t) :
  (exists e, In e (getEntries s) /\ Entry.id e = id) ->
  exists index old updated,
    nth_error (getEntries s) index = Some old /\
    Entry.id old = id /\
    (forall j e, (j < index)%nat -> nth_error (getEntries s) j = Some e -> Entry.id e <> id) /\
    fst (updateEntry s id updates) = Some updated /\
    Entry.id updated = id /\
    Entry.createdAt updated = Entry.createdAt old /\
    Entry.amount updated
    = match EntryUpdates.amount updates with Some a => a | None => Entry.amount old end /\
    Entry.date updated
    = match EntryUpdates.date updates with Some d => d | None => Entry.date old end /\
    Entry.category updated
    = match EntryUpdates.category updates with Some c => c | None => Entry.category old end /\
    Entry.type updated
    = match EntryUpdates.type updates with Some t => t | None => Entry.type old end /\
    Entry.categoryGroup updated
    = match EntryUpdates.categoryGroup updates with
      | Some g => Some g | None => Entry.categoryGroup old end /\
    Entry.priority updated
    = match EntryUpdates.priority updates with
      | Some p => Some p | None => Entry.priority old end /\
    Entry.note updated
    = match EntryUpdates.note updates with Some n => n | None => Entry.note old end /\
    let s1 := snd (updateEntry s id updates) in
    List.length (getEntries s1) = List.length (getEntries s) /\
    nth_error (getEntries s1) index = Some updated /\
    (forall j, j <> index -> nth_error (getEntries s1) j = nth_error (getEntries s) j).
Proof.
  intros [e0 [I0 Id0]].
  destruct (findIndex_found (fun e => (Entry.id e =? id)%string) (getEntries s) e0 I0)
    as [index F]; [now apply String.eqb_eq|].
  destruct (findIndex_some _ _ F) as [old [N [P Before]]].
  apply String.eqb_eq in P.
  assert (L : (index < List.length (getEntries s))%nat)
    by (apply nth_error_Some; congruence).
  assert (U : updateEntry s id updates
              = (Some (spread old updates),
                 saveEntries (setAt (getEntries s) index (spread old updates)) s)).
  { unfold updateEntry. rewrite F, N. now rewrite nth_error_setAt_same. }
  exists index, old, (spread old updates).
  split; [exact N|]. split; [exact P|]. split.
  { intros j e Lj Nj. apply String.eqb_neq. exact (Before j e Lj Nj). }
  split; [now rewrite U|]. split; [exact P|]. split; [reflexivity|].
  split; [reflexivity|]. split; [reflexivity|]. split; [reflexivity|].
  split; [reflexivity|]. split; [reflexivity|]. split; [reflexivity|].
  split; [reflexivity|].
  rewrite U. cbn [snd]. unfold saveEntries, getEntries at 1 3 5. cbn [LocalStorage.STORAGE_KEY LocalStorage.set_STORAGE_KEY].
  split; [apply length_setAt|]. split; [now apply nth_error_setAt_same|].
  intros j Nj. apply nth_error_setAt_other. congruence.
Qed.

Lemma updateEntry_present_witness :
  exists updated,
    fst (updateEntry noteStore "n1"
                     (EntryUpdates.mk (Some 150%Q) None None None None None (Some None)))
    = Some updated
    /\ Entry.amount updated = 150%Q
    /\ Entry.date updated = "2024-03-09"%string
    /\ Entry.note updated = None.
Proof.
  assert (Present : exists e, In e (getEntries noteStore) /\ Entry.id e = "n1"%string).
  { eexists. split; [left|]; reflexivity. }
  destruct (updateEntry_present noteStore
              (EntryUpdates.mk (Some 150%Q) None None None None None (Some None)) Present)
    as [index [old [updated [N [_ [_ [R [_ [_ [A [D [_ [_ [_ [_ [T _]]]]]]]]]]]]]]]].
  exists updated. split; [exact R|]. split; [exact A|]. split; [|exact T].
  rewrite D. cbn [EntryUpdates.date].
  destruct index as [|index]; [|destruct index; discriminate N].
  injection N as <-. reflexivity.
Defined.

Lemma equals_exclusive (group : option string) (a b : string) :
  a <> b -> equals group a = true -> equals group b = false.
Proof.
  intros N E. destruct group as [g|]; [|discriminate]. simpl in *.
  apply String.eqb_eq in E. subst g. now apply String.eqb_neq.
Qed.

(** The two folds that add up an entry list by group agree on the three
    expense groups, whatever the counters start from. *)
Lemma group_folds_agree (entries : list Entry.t) :
  forall totalIncome needs lifestyle savings : Q,
    let '(_, n4, l4, s4) :=
      fold_left
        (fun '(totalIncome, totalNeeds, totalLifestyle, totalSavings) entry =>
           if EntryType_eqb (Entry.type entry) income then
             (totalIncome + Entry.amount entry, totalNeeds, totalLifestyle, totalSavings)
           else
             let group := orElse (Entry.categoryGroup entry) (Entry.priority entry) in
             if equals group "needs" || equals group "need" then
               (totalIncome, totalNeeds + Entry.amount entry, totalLifestyle, totalSavings)
             else if equals group "lifestyle" then
               (totalIncome, totalNeeds, totalLifestyle + Entry.amount entry, totalSavings)
             else if equals group "savings" then
               (totalIncome, totalNeeds, totalLifestyle, totalSavings + Entry.amount entry)
             else if equals group "want" then
               (totalIncome, totalNeeds, totalLifestyle + Entry.amount entry, totalSavings)
             else (totalIncome, totalNeeds, totalLifestyle, totalSavings))
        entries (totalIncome, needs, lifestyle, savings) in
    fold_left
      (fun '(needs, lifestyle, savings) entry =>
         let group := orElse (Entry.categoryGroup entry) (Entry.priority entry) in
         if equals group "needs" || equals group "need" then
           (needs + Entry.amount entry, lifestyle, savings)
         else if equals group "lifestyle" || equals group "want" then
           (needs, lifestyle + Entry.amount entry, savings)
         else if equals group "savings" then
           (needs, lifestyle, savings + Entry.amount entry)
         else (needs, lifestyle, savings))
      (filter (fun e => EntryType_eqb (Entry.type e) expense) entries)
      (needs, lifestyle, savings)
    = (n4, l4, s4).
Proof.
  induction entries as [|entry rest IH]; intros totalIncome needs lifestyle savings.
  - reflexivity.
  - cbn [fold_left filter].
    destruct (Entry.type entry); cbn [EntryType_eqb].
    + apply IH.
    + cbn [fold_left]. cbv zeta.
      set (group := orElse (Entry.categoryGroup entry) (Entry.priority entry)).
      destruct (equals group "needs" || equals group "need")%bool; [apply IH|].
      destruct (equals group "lifestyle") eqn:Li; cbn [orb]; [apply IH|].
      destruct (equals group "want") eqn:W.
      * rewrite (equals_exclusive group (a := "want") (b := "savings")) by
          (try discriminate; exact W).
        apply IH.
      * destruct (equals group "savings"); apply IH.
Qed.

(** The group totals of [getCategoryGroupData] are the needs, lifestyle and
    savings totals of [getMonthlyData] for the same month, and the
    [totalWants] kept for older callers is the lifestyle total. *)
Theorem getCategoryGroupData_getMonthlyData `{Host} (s : LocalStorage.t) (year month : Z) :
  GroupedData.needs (getCategoryGroupData s year month)
  = MonthlyData.totalNeeds (getMonthlyData s year month) /\
  GroupedData.lifestyle (getCategoryGroupData s year month)
  = MonthlyData.totalLifestyle (getMonthlyData s year month) /\
  GroupedData.savings (getCategoryGroupData s year month)
  = MonthlyData.totalSavings (getMonthlyData s year month) /\
  MonthlyData.totalWants (getMonthlyData s year month)
  = GroupedData.lifestyle (getCategoryGroupData s year month).
Proof.
  unfold getCategoryGroupData, getMonthlyData.
  pose proof (group_folds_agree (getEntriesByMonth s year month) 0 0 0 0) as A.
  destruct (fold_left _ (getEntriesByMonth s year month) (0, 0, 0, 0))
    as [[[i4 n4] l4] s4].
  match goal with
  | |- context [fold_left ?f (filter ?p ?l) ?a] =>
      replace (fold_left f (filter p l) a) with (n4, l4, s4) by (symmetry; exact A)
  end.
  cbn. repeat split.
Qed.
End EntryWriteFacts.

(** ** The monthly metrics *)

Module MetricsFacts.
Import JS JSFacts Storage Analytics Spec Samples.
Local Open Scope Q_scope.

Lemma Math_round_le (x y : Q) : x <= y -> Math_round x <= Math_round y.
Proof.
  intros L. unfold Math_round. rewrite <- Zle_Qle.
  apply Qfloor_resp_le. now apply Qplus_le_compat; [|apply Qle_refl].
Qed.

Lemma Math_round_Z (n : Z) : Math_round (inject_Z n) = inject_Z n.
Proof.
  unfold Math_round. f_equal. unfold Qfloor, inject_Z, Qplus. cbn [Qnum Qden].
  symmetry. apply Z.div_unique with 1%Z; lia.
Qed.

Lemma Math_round_upper (x : Q) (n : Z) : x <= inject_Z n -> Math_round x <= inject_Z n.
Proof. intros L. rewrite <- (Math_round_Z n). now apply Math_round_le. Qed.

Lemma Math_round_lower (x : Q) (n : Z) : inject_Z n <= x -> inject_Z n <= Math_round x.
Proof. intros L. rewrite <- (Math_round_Z n). now apply Math_round_le. Qed.

(** A part of a positive whole, as a percentage, is between 0 and 100. *)
Lemma percentage_bounds (part whole : Q) :
  0 < whole -> 0 <= part -> part <= whole ->
  0 <= (part / whole) * 100 /\ (part / whole) * 100 <= 100.
Proof.
  intros W P L. split.
  - apply Qmult_le_0_compat; [|discriminate].
    apply Qle_shift_div_l; [exact W|]. now rewrite Qmult_0_l.
  - setoid_replace 100 with (1 * 100) at 2 by ring.
    apply Qmult_le_compat_r; [|discriminate].
    apply Qle_shift_div_r; [exact W|]. now rewrite Qmult_1_l.
Qed.

(** The savings rate is at most 100 when the expenses are not negative and
    at least 0 when they do not exceed the income. *)
Theorem calculateSavingsRate_bounds (income expenses : Q) :
  (0 <= expenses -> calculateSavingsRate income expenses <= 100) /\
  (expenses <= income -> 0 <= calculateSavingsRate income expenses).
Proof.
  unfold calculateSavingsRate. destruct (le income 0) eqn:G.
  - split; intros _; discriminate.
  - apply le_false in G. split; intros B.
    + apply (@Math_round_upper _ 100%Z).
      setoid_replace (inject_Z 100) with (1 * 100) by ring.
      apply Qmult_le_compat_r; [|discriminate].
      apply Qle_shift_div_r; [exact G|]. rewrite Qmult_1_l.
      rewrite <- (Qplus_0_r income) at 2. unfold Qminus.
      apply Qplus_le_compat; [apply Qle_refl|].
      apply (Qopp_le_compat 0 expenses B).
    + apply (@Math_round_lower _ 0%Z).
      apply Qmult_le_0_compat; [|discriminate].
      apply Qle_shift_div_l; [exact G|]. rewrite Qmult_0_l.
      unfold Qminus. rewrite <- (Qplus_opp_r expenses).
      apply Qplus_le_compat; [exact B|apply Qle_refl].
Qed.

Lemma calculateSavingsRate_bounds_witness :
  calculateSavingsRate 800 600 <= 100 /\ 0 <= calculateSavingsRate 800 600.
Proof.
  destruct (calculateSavingsRate_bounds 800 600) as [Hi Lo].
  split; [apply Hi|apply Lo]; discriminate.
Defined.

(** On totals that are not negative the month-over-month growth of all
    expenses follows the rule of the growth of one category, and it is
    never below -100. *)
Theorem calculateExpenseGrowth_nonneg (currentExpenses previousExpenses : Q) :
  0 <= currentExpenses -> 0 <= previousExpenses ->
  calculateExpenseGrowth currentExpenses previousExpenses
  = growthPercentOf currentExpenses previousExpenses
  /\ - (100) <= calculateExpenseGrowth currentExpenses previousExpenses.
Proof.
  intros C P. unfold calculateExpenseGrowth, growthPercentOf.
  destruct (strict_eq previousExpenses 0) eqn:Z.
  - apply strict_eq_true in Z.
    replace (gt previousExpenses 0) with false
      by (symmetry; apply gt_false; rewrite Z; apply Qle_refl).
    split; [reflexivity|]. destruct (gt currentExpenses 0); discriminate.
  - apply strict_eq_false in Z.
    assert (Pos : 0 < previousExpenses).
    { apply Qle_lteq in P. destruct P as [L|E]; [exact L|].
      exfalso. apply Z. now symmetry. }
    replace (gt previousExpenses 0) with true by (symmetry; now apply gt_true).
    split; [reflexivity|].
    apply (@Math_round_lower _ (-100)%Z).
    setoid_replace (inject_Z (-100)) with (- (1) * 100) by ring.
    apply Qmult_le_compat_r; [|discriminate].
    apply Qle_shift_div_l; [exact Pos|].
    setoid_replace (- (1) * previousExpenses) with (0 - previousExpenses) by ring.
    unfold Qminus. apply Qplus_le_compat; [exact C|apply Qle_refl].
Qed.

Lemma calculateExpenseGrowth_nonneg_witness :
  calculateExpenseGrowth 750 500 = growthPercentOf 750 500
  /\ - (100) <= calculateExpenseGrowth 750 500.
Proof.
  apply calculateExpenseGrowth_nonneg; discriminate.
Defined.


(** Adding up entries whose amounts are not negative keeps the four
    counters of [getMonthlyData] from falling below zero. *)
Lemma monthly_fold_nonneg (entries : list Entry.t) :
  (forall e, In e entries -> 0 <= Entry.amount e) ->
  forall totalIncome totalNeeds totalLifestyle totalSavings : Q,
    0 <= totalIncome -> 0 <= totalNeeds -> 0 <= totalLifestyle -> 0 <= totalSavings ->
    let '(i, n, l, sv) :=
      fold_left
        (fun '(totalIncome, totalNeeds, totalLifestyle, totalSavings) entry =>
           if EntryType_eqb (Entry.type entry) income then
             (totalIncome + Entry.amount entry, totalNeeds, totalLifestyle, totalSavings)
           else
             let group := orElse (Entry.categoryGroup entry) (Entry.priority entry) in
             if equals group "needs" || equals group "need" then
               (totalIncome, totalNeeds + Entry.amount entry, totalLifestyle, totalSavings)
             else if equals group "lifestyle" then
               (totalIncome, totalNeeds, totalLifestyle + Entry.amount entry, totalSavings)
             else if equals group "savings" then
               (totalIncome, totalNeeds, totalLifestyle, totalSavings + Entry.amount entry)
             else if equals group "want" then
               (totalIncome, totalNeeds, totalLifestyle + Entry.amount entry, totalSavings)
             else (totalIncome, totalNeeds, totalLifestyle, totalSavings))
        entries (totalIncome, totalNeeds, totalLifestyle, totalSavings) in
    0 <= i /\ 0 <= n /\ 0 <= l /\ 0 <= sv.
Proof.
  induction entries as [|entry rest IH]; intros P i n l sv Hi Hn Hl Hs.
  - cbn. tauto.
  - assert (A : 0 <= Entry.amount entry) by (apply P; left; reflexivity).
    assert (Add : forall x, 0 <= x -> 0 <= x + Entry.amount entry).
    { intros x X. rewrite <- (Qplus_0_r 0). now apply Qplus_le_compat. }
    assert (P' : forall e, In e rest -> 0 <= Entry.amount e)
      by (intros e I; apply P; right; exact I).
    cbn [fold_left].
    destruct (EntryType_eqb (Entry.type entry) income); [apply IH; auto|].
    cbv zeta.
    destruct (_ || _)%bool; [apply IH; auto|].
    destruct (equals _ "lifestyle"); [apply IH; auto|].
    destruct (equals _ "savings"); [apply IH; auto|].
    destruct (equals _ "want"); apply IH; auto.
Qed.

Lemma getMonthlyData_nonneg `{Host} (s : LocalStorage.t) (year month : Z) :
  (forall e, In e (getEntries s) -> 0 < Entry.amount e) ->
  0 <= MonthlyData.totalIncome (getMonthlyData s year month)
  /\ 0 <= MonthlyData.totalNeeds (getMonthlyData s year month)
  /\ 0 <= MonthlyData.totalLifestyle (getMonthlyData s year month)
  /\ 0 <= MonthlyData.totalSavings (getMonthlyData s year month)
  /\ 0 <= MonthlyData.totalWants (getMonthlyData s year month).
Proof.
  intros P. unfold getMonthlyData.
  assert (P' : forall e, In e (getEntriesByMonth s year month) -> 0 <= Entry.amount e).
  { intros e I. apply Qlt_le_weak, P.
    now apply CategoryGrowthFacts.In_getEntriesByMonth in I. }
  pose proof (@monthly_fold_nonneg _ P' 0 0 0 0
                (Qle_refl 0) (Qle_refl 0) (Qle_refl 0) (Qle_refl 0)) as N.
  destruct (fold_left _ (getEntriesByMonth s year month) (0, 0, 0, 0))
    as [[[i n] l] sv].
  cbn. tauto.
Qed.

(** With every stored amount positive the share of wants in the spending of
    the current month is a whole percentage between 0 and 100; it is 0 when
    the month has no expenses and 100 when all of them are wants. *)
Theorem getWantsRatio_bounds `{Host} (now : Date) (s : LocalStorage.t) :
  (forall e, In e (getEntries s) -> 0 < Entry.amount e) ->
  let data := getMonthlyData s (fst (getMonthDate now 0)) (snd (getMonthDate now 0)) in
  0 <= getWantsRatio now s /\
  getWantsRatio now s <= 100 /\
  (MonthlyData.totalNeeds data + MonthlyData.totalWants data == 0 ->
   getWantsRatio now s = 0) /\
  (MonthlyData.totalNeeds data == 0 -> 0 < MonthlyData.totalWants data ->
   getWantsRatio now s = 100).
Proof.
  intros P data.
  destruct (getMonthlyData_nonneg s (fst (getMonthDate now 0)) (snd (getMonthDate now 0)) P)
    as [_ [Nn [_ [_ Nw]]]].
  fold data in Nn, Nw.
  unfold getWantsRatio. cbv zeta. fold data.
  destruct (strict_eq (MonthlyData.totalNeeds data + MonthlyData.totalWants data) 0) eqn:Z.
  - apply strict_eq_true in Z. repeat split; try discriminate.
    intros N0 W. exfalso. rewrite N0, Qplus_0_l in Z. rewrite Z in W.
    exact (Qlt_irrefl _ W).
  - apply strict_eq_false in Z.
    assert (Pos : 0 < MonthlyData.totalNeeds data + MonthlyData.totalWants data).
    { assert (S : 0 <= MonthlyData.totalNeeds data + MonthlyData.totalWants data).
      { rewrite <- (Qplus_0_r 0). now apply Qplus_le_compat. }
      apply Qle_lteq in S. destruct S as [L|E]; [exact L|].
      exfalso. apply Z. now symmetry. }
    assert (Le : MonthlyData.totalWants data
                 <= MonthlyData.totalNeeds data + MonthlyData.totalWants data).
    { rewrite <- (Qplus_0_l (MonthlyData.totalWants data)) at 1.
      apply Qplus_le_compat; [exact Nn|apply Qle_refl]. }
    destruct (percentage_bounds Pos Nw Le) as [Lo Hi].
    split; [now apply (@Math_round_lower _ 0%Z)|].
    split; [now apply (@Math_round_upper _ 100%Z)|].
    split; [intros E; contradiction|].
    intros N0 W. transitivity (Math_round 100); [|reflexivity].
    apply Math_round_comp. rewrite N0, Qplus_0_l. field. intros E. rewrite E in W. exact (Qlt_irrefl _ W).
Qed.

Lemma getWantsRatio_bounds_witness :
  0 <= @getWantsRatio ExampleHost.host march14 growthStore
  /\ @getWantsRatio ExampleHost.host march14 growthStore <= 100.
Proof.
  assert (Positive : forall e, In e (getEntries growthStore) -> 0 < Entry.amount e).
  { intros e [<-|[<-|[<-|[]]]]; reflexivity. }
  destruct (@getWantsRatio_bounds ExampleHost.host march14 growthStore Positive)
    as [Lo [Hi _]].
  split; [exact Lo|exact Hi].
Defined.

End MetricsFacts.

(** ** Budgets: setting, removing and reading again *)

Module BudgetWriteFacts.
Import JS JSFacts BudgetService BudgetRolloverFacts BudgetStatusFacts Spec Samples.
Local Open Scope Q_scope.

Lemma find_findIndex {A : Type} (p : A -> bool) (l : list A) :
  find p l = match findIndex p l with
             | Some i => nth_error l i
             | None => None
             end.
Proof.
  induction l as [|a rest IH]; [reflexivity|]. simpl.
  destruct (p a); [reflexivity|]. rewrite IH.
  destruct (findIndex p rest); reflexivity.
Qed.

Lemma find_setAt_first {A : Type} (p : A -> bool) (l : list A) (i : nat) (v : A) :
  findIndex p l = Some i -> p v = true -> find p (setAt l i v) = Some v.
Proof.
  revert i. induction l as [|a rest IH]; intros i F Pv; [discriminate|].
  simpl in F. destruct (p a) eqn:Pa.
  - injection F as <-. simpl. now rewrite Pv.
  - destruct (findIndex p rest) as [k|] eqn:Fr; [|discriminate].
    injection F as <-. simpl. rewrite Pa. now apply IH.
Qed.

Lemma find_setAt_other {A : Type} (q : A -> bool) (l : list A) (i : nat) (x v : A) :
  nth_error l i = Some x -> q x = false -> q v = false ->
  find q (setAt l i v) = find q l.
Proof.
  revert i. induction l as [|a rest IH]; intros [|i] N Qx Qv; try discriminate.
  - simpl in N. injection N as ->. simpl. now rewrite Qx, Qv.
  - simpl in N |- *. destruct (q a); [reflexivity|]. now apply IH.
Qed.

Lemma find_app_last {A : Type} (q : A -> bool) (l : list A) (v : A) :
  find q (l ++ [v])
  = match find q l with
    | Some x => Some x
    | None => if q v then Some v else None
    end.
Proof.
  induction l as [|a rest IH]; simpl; [reflexivity|].
  destruct (q a); [reflexivity|exact IH].
Qed.

Lemma filter_setAt_length {A : Type} (q : A -> bool) (l : list A) (i : nat) (x v : A) :
  nth_error l i = Some x -> q v = q x ->
  List.length (filter q (setAt l i v)) = List.length (filter q l).
Proof.
  revert i. induction l as [|a rest IH]; intros [|i] N E; try discriminate.
  - simpl in N. injection N as ->. simpl. rewrite E. now destruct (q x).
  - simpl in N |- *. destruct (q a); simpl; now rewrite (IH i N E).
Qed.

Lemma findIndex_none_count {A : Type} (p : A -> bool) (l : list A) :
  findIndex p l = None <-> List.length (filter p l) = 0%nat.
Proof.
  induction l as [|a rest IH]; simpl; [tauto|].
  destruct (p a); simpl.
  - split; discriminate.
  - destruct (findIndex p rest) as [k|]; simpl.
    + split; [discriminate|]. intros E. apply IH in E. discriminate E.
    + split; [intros _; now apply IH|reflexivity].
Qed.

(** After a read the marker, if there is one, names the month of the clock. *)
Lemma marker_after_read (now : Date) (s : LocalStorage.t) :
  LocalStorage.BUDGET_MONTH_KEY (checkAndResetMonthlyBudgets now s) = None
  \/ LocalStorage.BUDGET_MONTH_KEY (checkAndResetMonthlyBudgets now s)
     = Some (BudgetMonth.mk (getMonth now) (getFullYear now)).
Proof.
  unfold checkAndResetMonthlyBudgets, getLastBudgetMonth.
  destruct (LocalStorage.BUDGET_MONTH_KEY s) as [last|] eqn:L; [|left; exact L].
  destruct ((negb (BudgetMonth.month last =? getMonth now)%Z
             || negb (BudgetMonth.year last =? getFullYear now)%Z)%bool) eqn:G.
  - right. reflexivity.
  - right. rewrite L. apply orb_false_iff in G. destruct G as [M Y].
    apply negb_false_iff, Z.eqb_eq in M. apply negb_false_iff, Z.eqb_eq in Y.
    destruct last as [m y]. simpl in *. now subst.
Qed.

(** A store whose marker is missing or names the month of the clock is read
    as it is. *)
Lemma no_reset_needed (now : Date) (s : LocalStorage.t) :
  LocalStorage.BUDGET_MONTH_KEY s = None
  \/ LocalStorage.BUDGET_MONTH_KEY s = Some (BudgetMonth.mk (getMonth now) (getFullYear now)) ->
  checkAndResetMonthlyBudgets now s = s.
Proof.
  intros [N|C].
  - now apply checkAndReset_no_marker.
  - now apply checkAndReset_same_month
      with (last := BudgetMonth.mk (getMonth now) (getFullYear now)).
Qed.

(** Reading the budgets again, under any clock of the same month, returns
    the rows of the first read and writes nothing. *)
Theorem getBudgets_again (now now' : Date) (s : LocalStorage.t) :
  getMonth now' = getMonth now -> getFullYear now' = getFullYear now ->
  getBudgets now' (snd (getBudgets now s)) = getBudgets now s.
Proof.
  intros M Y. unfold getBudgets. cbn [snd].
  rewrite (no_reset_needed now' (checkAndResetMonthlyBudgets now s)); [reflexivity|].
  rewrite M, Y. apply marker_after_read.
Qed.

Lemma getBudgets_again_witness :
  getBudgets (mkDate 2024 2 20) (snd (getBudgets march14 budgetStore))
  = getBudgets march14 budgetStore.
Proof.
  apply getBudgets_again; reflexivity.
Defined.


Lemma Category_eqb_eq (a b : Category) : Category_eqb a b = true <-> a = b.
Proof. destruct a, b; simpl; split; solve [reflexivity | discriminate]. Qed.

Lemma isCurrent_new_row (now : Date) (category other : Category) (amount : Q) :
  isCurrent now other (Budget.mk category amount (getMonth now) (getFullYear now))
  = Category_eqb category other.
Proof.
  unfold isCurrent. cbn [Budget.category Budget.month Budget.year].
  now rewrite !Z.eqb_refl, !andb_true_r.
Qed.

Lemma isCurrent_other (now : Date) (category other : Category) (b : Budget.t) :
  other <> category -> isCurrent now category b = true -> isCurrent now other b = false.
Proof.
  intros N C. apply isCurrent_true in C. destruct C as [C _].
  destruct (isCurrent now other b) eqn:O; [|reflexivity].
  apply isCurrent_true in O. destruct O as [O _]. congruence.
Qed.

(** The rows [setBudget] stores, and what the next read finds. *)
Lemma setBudget_stored (now : Date) (s : LocalStorage.t) (category : Category) (amount : Q) :
  let read := fst (getBudgets now s) in
  let rows :=
    match findIndex (isCurrent now category) read with
    | Some existing =>
        match nth_error read existing with
        | Some b => setAt read existing
                          (Budget.mk (Budget.category b) amount (Budget.month b) (Budget.year b))
        | None => read
        end
    | None => read ++ [Budget.mk category amount (getMonth now) (getFullYear now)]
    end in
  getBudgets now (setBudget now s category amount)
  = (rows, setBudget now s category amount)
  /\ LocalStorage.BUDGET_MONTH_KEY (setBudget now s category amount)
     = Some (BudgetMonth.mk (getMonth now) (getFullYear now))
  /\ LocalStorage.STORAGE_KEY (setBudget now s category amount) = LocalStorage.STORAGE_KEY s.
Proof.
  intros read rows.
  assert (E : setBudget now s category amount
              = updateLastBudgetMonth now
                  (saveBudgets rows (checkAndResetMonthlyBudgets now s))).
  { unfold setBudget, getBudgets. reflexivity. }
  split; [|split].
  - unfold getBudgets at 1. rewrite no_reset_needed.
    + rewrite E at 1. reflexivity.
    + right. rewrite E. reflexivity.
  - rewrite E. reflexivity.
  - rewrite E. cbn. apply checkAndReset_entries.
Qed.

(** A budget that was set is the budget that is read: [setBudget] followed
    by [getBudgetForCategory] gives the amount (0 for an amount of 0), the
    budgets of the other categories read as before, and the marker names
    the month of the clock. *)
Theorem setBudget_then_get (now : Date) (s : LocalStorage.t)
        (category : Category) (amount : Q) :
  let s1 := setBudget now s category amount in
  fst (getBudgetForCategory now s1 category)
  = (if strict_eq amount 0 then 0 else amount) /\
  (forall other, other <> category ->
                 fst (getBudgetForCategory now s1 other)
                 = fst (getBudgetForCategory now s other)) /\
  LocalStorage.BUDGET_MONTH_KEY s1 = Some (BudgetMonth.mk (getMonth now) (getFullYear now)).
Proof.
  intros s1.
  destruct (setBudget_stored now s category amount) as [G [M _]].
  cbv zeta in G. fold s1 in G, M.
  set (read := fst (getBudgets now s)) in *.
  split; [|split; [|exact M]].
  - unfold getBudgetForCategory. rewrite G. cbn [fst].
    destruct (findIndex (isCurrent now category) read) as [existing|] eqn:F.
    + destruct (EntryWriteFacts.findIndex_some _ _ F) as [b [N [C _]]].
      rewrite N. rewrite (find_setAt_first _ _ _ F); [reflexivity|].
      unfold isCurrent in C |- *. exact C.
    + rewrite find_app_last, find_findIndex, F, isCurrent_new_row.
      replace (Category_eqb category category) with true
        by (symmetry; now apply Category_eqb_eq).
      reflexivity.
  - intros other N. unfold getBudgetForCategory at 1. rewrite G. cbn [fst].
    assert (Same : find (isCurrent now other)
                     match findIndex (isCurrent now category) read with
                     | Some existing =>
                         match nth_error read existing with
                         | Some b => setAt read existing
                                           (Budget.mk (Budget.category b) amount
                                                      (Budget.month b) (Budget.year b))
                         | None => read
                         end
                     | None => read ++ [Budget.mk category amount
                                                  (getMonth now) (getFullYear now)]
                     end
                   = find (isCurrent now other) read).
    { destruct (findIndex (isCurrent now category) read) as [existing|] eqn:F.
      - destruct (EntryWriteFacts.findIndex_some _ _ F) as [b [Nb [C _]]].
        rewrite Nb. apply find_setAt_other with b; [exact Nb| |].
        + now apply isCurrent_other with category.
        + apply isCurrent_other with category; [exact N|].
          unfold isCurrent in C |- *. exact C.
      - rewrite find_app_last, isCurrent_new_row.
        replace (Category_eqb category other) with false.
        + now destruct (find (isCurrent now other) read).
        + symmetry. destruct (Category_eqb category other) eqn:Q; [|reflexivity].
          apply Category_eqb_eq in Q. congruence. }
    rewrite Same. unfold getBudgetForCategory. subst read.
    now destruct (getBudgets now s).
Qed.

Lemma setBudget_then_get_witness :
  fst (getBudgetForCategory march14 (setBudget march14 summaryStore Shopping 650) Shopping)
  = 650
  /\ fst (getBudgetForCategory march14 (setBudget march14 summaryStore Shopping 650) Meals)
     = 400.
Proof.
  destruct (setBudget_then_get march14 summaryStore Shopping 650) as [Own [Others _]].
  split.
  - exact Own.
  - rewrite (Others Meals); [reflexivity|discriminate].
Defined.

(** [setBudget] never makes a second row for a key: it adds a row for the
    category and the month of the clock only when there was none, and
    leaves the number of rows of every other key as it was; so a list with
    at most one row per current key keeps that. *)
Theorem setBudget_rows (now : Date) (s : LocalStorage.t)
        (category : Category) (amount : Q) :
  let before := fst (getBudgets now s) in
  let after := fst (getBudgets now (setBudget now s category amount)) in
  (forall c, currentRows now c after
             = if Category_eqb c category && (currentRows now category before =? 0)%nat
               then 1%nat else currentRows now c before) /\
  List.length after
  = (List.length before + if (currentRows now category before =? 0)%nat then 1 else 0)%nat /\
  ((forall c, (currentRows now c before <= 1)%nat) ->
   forall c, (currentRows now c after <= 1)%nat).
Proof.
  intros before after.
  destruct (setBudget_stored now s category amount) as [G _].
  cbv zeta in G. fold before in G.
  assert (A : after
              = match findIndex (isCurrent now category) before with
                | Some existing =>
                    match nth_error before existing with
                    | Some b => setAt before existing
                                      (Budget.mk (Budget.category b) amount
                                                 (Budget.month b) (Budget.year b))
                    | None => before
                    end
                | None => before ++ [Budget.mk category amount
                                               (getMonth now) (getFullYear now)]
                end).
  { subst after. now rewrite G. }
  assert (Counts : forall c, currentRows now c after
                             = if Category_eqb c category
                                  && (currentRows now category before =? 0)%nat
                               then 1%nat else currentRows now c before).
  { intros c. rewrite A. unfold currentRows.
    destruct (findIndex (isCurrent now category) before) as [existing|] eqn:F.
    - destruct (EntryWriteFacts.findIndex_some _ _ F) as [b [N _]]. rewrite N.
      assert (NZ : List.length (filter (isCurrent now category) before) <> 0%nat).
      { intros Z. apply findIndex_none_count in Z. congruence. }
      apply Nat.eqb_neq in NZ. rewrite NZ, andb_false_r.
      now apply filter_setAt_length with b.
    - assert (Z : List.length (filter (isCurrent now category) before) = 0%nat)
        by now apply findIndex_none_count.
      rewrite Z. cbn [Nat.eqb]. rewrite andb_true_r.
      rewrite filter_app, length_app. cbn [filter]. rewrite isCurrent_new_row.
      destruct (Category_eqb c category) eqn:Q.
      + apply Category_eqb_eq in Q. subst c.
        replace (Category_eqb category category) with true
          by (symmetry; now apply Category_eqb_eq).
        rewrite Z. reflexivity.
      + replace (Category_eqb category c) with false.
        * cbn [List.length]. lia.
        * symmetry. destruct (Category_eqb category c) eqn:Q'; [|reflexivity].
          apply Category_eqb_eq in Q'. subst c.
          assert (T : Category_eqb category category = true) by now apply Category_eqb_eq.
          congruence. }
  split; [exact Counts|]. split.
  - rewrite A. unfold currentRows.
    destruct (findIndex (isCurrent now category) before) as [existing|] eqn:F.
    + destruct (EntryWriteFacts.findIndex_some _ _ F) as [b [N _]]. rewrite N.
      assert (NZ : List.length (filter (isCurrent now category) before) <> 0%nat).
      { intros Z. apply findIndex_none_count in Z. congruence. }
      apply Nat.eqb_neq in NZ. rewrite NZ, EntryWriteFacts.length_setAt. lia.
    + assert (Z : List.length (filter (isCurrent now category) before) = 0%nat)
        by now apply findIndex_none_count.
      rewrite Z, length_app. reflexivity.
  - intros U c. rewrite Counts. destruct (_ && _)%bool; [lia|apply U].
Qed.

Lemma setBudget_rows_witness :
  (currentRows march14 Shopping
               (fst (getBudgets march14 (setBudget march14 budgetStore Shopping 650)))
   <= 1)%nat
  /\ (currentRows march14 Meals
                  (fst (getBudgets march14 (setBudget march14 budgetStore Shopping 650)))
      <= 1)%nat.
Proof.
  assert (Single : forall c, (currentRows march14 c (fst (getBudgets march14 budgetStore))
                              <= 1)%nat)
    by (intros c; destruct c; cbv; repeat constructor).
  split;
    apply (proj2 (proj2 (setBudget_rows march14 budgetStore Shopping 650)) Single).
Defined.

Lemma find_filter {A : Type} (q r : A -> bool) (l : list A) :
  (forall x, q x = true -> r x = true) -> find q (filter r l) = find q l.
Proof.
  intros K. induction l as [|a rest IH]; [reflexivity|]. simpl.
  destruct (q a) eqn:Qa.
  - rewrite (K a Qa). simpl. now rewrite Qa.
  - destruct (r a); simpl; [rewrite Qa|]; exact IH.
Qed.

Lemma find_filter_out {A : Type} (q : A -> bool) (l : list A) :
  find q (filter (fun x => negb (q x)) l) = None.
Proof.
  induction l as [|a rest IH]; [reflexivity|]. simpl.
  destruct (q a) eqn:Qa; simpl; [|rewrite Qa]; exact IH.
Qed.

Lemma removeBudget_stored (now : Date) (s : LocalStorage.t) (category : Category) :
  getBudgets now (removeBudget now s category)
  = (filter (fun b => negb (isCurrent now category b)) (fst (getBudgets now s)),
     removeBudget now s category).
Proof.
  assert (E : removeBudget now s category
              = saveBudgets (filter (fun b => negb (isCurrent now category b))
                                    (fst (getBudgets now s)))
                            (checkAndResetMonthlyBudgets now s)) by reflexivity.
  unfold getBudgets at 1. rewrite no_reset_needed.
  - rewrite E at 1. reflexivity.
  - rewrite E. apply (marker_after_read now s).
Qed.

(** After [removeBudget] the category has no budget and no status for the
    month of the clock; the other categories read as before; the rows that
    are left are all the other rows, so the budgets of earlier months stay. *)
Theorem removeBudget_then_get `{Host} (now : Date) (s : LocalStorage.t)
        (category : Category) :
  let s1 := removeBudget now s category in
  fst (getBudgetForCategory now s1 category) = 0 /\
  fst (getBudgetStatus now s1 category) = None /\
  (forall other, other <> category ->
                 fst (getBudgetForCategory now s1 other)
                 = fst (getBudgetForCategory now s other)) /\
  (forall b, In b (fst (getBudgets now s1))
             <-> In b (fst (getBudgets now s)) /\ isCurrent now category b = false).
Proof.
  intros s1.
  assert (Z : fst (getBudgetForCategory now s1 category) = 0).
  { unfold getBudgetForCategory. subst s1. rewrite removeBudget_stored. cbn [fst].
    now rewrite find_filter_out. }
  split; [exact Z|]. split; [|split].
  - unfold getBudgetStatus.
    destruct (getBudgetForCategory now s1 category) as [budgetAmount s2].
    cbn [fst] in Z. subst budgetAmount. reflexivity.
  - intros other N. unfold getBudgetForCategory at 1. subst s1.
    rewrite removeBudget_stored. cbn [fst].
    rewrite find_filter.
    + unfold getBudgetForCategory. now destruct (getBudgets now s).
    + intros b O. apply negb_true_iff.
      destruct (isCurrent now category b) eqn:C; [|reflexivity].
      pose proof (isCurrent_other now (category := category) (other := other) b N C).
      congruence.
  - intros b. subst s1. rewrite removeBudget_stored. cbn [fst].
    rewrite filter_In, negb_true_iff. reflexivity.
Qed.

Lemma removeBudget_then_get_witness :
  fst (getBudgetForCategory march14 (removeBudget march14 budgetStore Shopping) Shopping) = 0
  /\ fst (getBudgetForCategory march14 (removeBudget march14 budgetStore Shopping) Meals)
     = fst (getBudgetForCategory march14 budgetStore Meals).
Proof.
  destruct (@removeBudget_then_get ExampleHost.host march14 budgetStore Shopping)
    as [Gone [_ [Others _]]].
  split; [exact Gone|]. apply Others. discriminate.
Defined.

End BudgetWriteFacts.

(** ** Achievements *)

Module AchievementFacts.
Import JS Gamification Spec Samples.
Local Open Scope string_scope.

Lemma includes_push (l : list string) (id x : string) :
  includes (l ++ [id]) x = (includes l x || (id =? x))%bool.
Proof.
  unfold includes. rewrite existsb_app. simpl. now rewrite orb_false_r.
Qed.

Lemma find_marked (unlocked : string -> bool) (x : string) (defs : list Achievement.t) :
  find (fun a => Achievement.id a =? x)
       (map (fun ach => Achievement.mk (Achievement.id ach) (Achievement.name ach)
                                       (Achievement.description ach) (Achievement.icon ach)
                                       (unlocked (Achievement.id ach))) defs)
  = option_map (fun ach => Achievement.mk (Achievement.id ach) (Achievement.name ach)
                                          (Achievement.description ach) (Achievement.icon ach)
                                          (unlocked x))
               (find (fun a => Achievement.id a =? x) defs).
Proof.
  induction defs as [|ach rest IH]; [reflexivity|]. simpl.
  destruct (Achievement.id ach =? x) eqn:E; [|exact IH].
  apply String.eqb_eq in E. simpl. now rewrite E.
Qed.

Lemma find_known (x : string) (defs : list Achievement.t) :
  (exists ach, find (fun a => Achievement.id a =? x) defs = Some ach)
  <-> In x (map Achievement.id defs).
Proof.
  induction defs as [|ach rest IH]; simpl.
  - split; [intros [? E]; discriminate|contradiction].
  - destruct (Achievement.id ach =? x) eqn:E.
    + apply String.eqb_eq in E. split; [now left|]. intros _. now exists ach.
    + apply String.eqb_neq in E. rewrite IH. tauto.
Qed.

Lemma definitions_locked :
  forall ach, In ach ACHIEVEMENT_DEFINITIONS -> Achievement.isUnlocked ach = false.
Proof.
  intros ach I. simpl in I.
  repeat (destruct I as [<-|I]; [reflexivity|]). contradiction.
Qed.

(** An achievement is listed as unlocked exactly when it is one of the six
    and its id is stored. *)
Lemma unlockedIn_stored (s : LocalStorage.t) (x : string) :
  unlockedIn s x
  = match find (fun a => Achievement.id a =? x) ACHIEVEMENT_DEFINITIONS with
    | Some _ => includes (storedIds s) x
    | None => false
    end.
Proof.
  unfold unlockedIn, getAchievements, storedIds.
  destruct (LocalStorage.ACHIEVEMENTS_KEY s) as [unlocked|].
  - rewrite (find_marked (includes unlocked)).
    now destruct (find _ ACHIEVEMENT_DEFINITIONS).
  - destruct (find _ ACHIEVEMENT_DEFINITIONS) as [ach|] eqn:F; [|reflexivity].
    apply find_some in F. destruct F as [I _]. now apply definitions_locked.
Qed.

(** [unlockAchievement] stores an id that is one of the six and is not yet
    stored, and does nothing else. *)
Lemma unlockAchievement_cases (s : LocalStorage.t) (x : string) :
  unlockAchievement s x
  = match find (fun a => Achievement.id a =? x) ACHIEVEMENT_DEFINITIONS with
    | Some _ =>
        if includes (storedIds s) x then (false, s)
        else (true, LocalStorage.set_ACHIEVEMENTS_KEY (storedIds s ++ [x]) s)
    | None => (false, s)
    end.
Proof.
  pose proof (unlockedIn_stored s x) as U. unfold unlockedIn in U.
  assert (K : find (fun a => Achievement.id a =? x) (getAchievements s) = None
              <-> find (fun a => Achievement.id a =? x) ACHIEVEMENT_DEFINITIONS = None).
  { unfold getAchievements.
    destruct (LocalStorage.ACHIEVEMENTS_KEY s) as [unlocked|]; [|reflexivity].
    rewrite (find_marked (includes unlocked)).
    destruct (find _ ACHIEVEMENT_DEFINITIONS); simpl; split; congruence. }
  unfold unlockAchievement. fold (storedIds s).
  destruct (find (fun a => Achievement.id a =? x) (getAchievements s)) as [ach|] eqn:F.
  - destruct (find (fun a => Achievement.id a =? x) ACHIEVEMENT_DEFINITIONS) as [d|] eqn:D.
    + rewrite U. now destruct (includes (storedIds s) x).
    + exfalso. assert (N : Some ach = None) by now apply K. discriminate N.
  - rewrite (proj1 K eq_refl). reflexivity.
Qed.


Lemma storedIds_set (l : list string) (s : LocalStorage.t) :
  storedIds (LocalStorage.set_ACHIEVEMENTS_KEY l s) = l.
Proof. reflexivity. Qed.

Lemma count_marked (unlocked : string -> bool) (defs : list Achievement.t) :
  List.length
    (filter Achievement.isUnlocked
            (map (fun ach => Achievement.mk (Achievement.id ach) (Achievement.name ach)
                                            (Achievement.description ach) (Achievement.icon ach)
                                            (unlocked (Achievement.id ach))) defs))
  = List.length (filter (fun ach => unlocked (Achievement.id ach)) defs).
Proof.
  induction defs as [|ach rest IH]; [reflexivity|]. simpl.
  destruct (unlocked (Achievement.id ach)); simpl; now rewrite IH.
Qed.

Lemma getUnlockedCount_stored (s : LocalStorage.t) :
  getUnlockedCount s
  = List.length (filter (fun ach => includes (storedIds s) (Achievement.id ach))
                        ACHIEVEMENT_DEFINITIONS).
Proof.
  unfold getUnlockedCount, getAchievements, storedIds.
  destruct (LocalStorage.ACHIEVEMENTS_KEY s) as [unlocked|].
  - apply count_marked.
  - reflexivity.
Qed.

(** Marking one more id of a list without repeated ids marks one more
    element. *)
Lemma count_one_more (marked : string -> bool) (x : string) (defs : list Achievement.t) :
  NoDup (map Achievement.id defs) -> In x (map Achievement.id defs) -> marked x = false ->
  List.length (filter (fun ach => (marked (Achievement.id ach) || (x =? Achievement.id ach))%bool)
                      defs)
  = S (List.length (filter (fun ach => marked (Achievement.id ach)) defs)).
Proof.
  induction defs as [|ach rest IH]; intros ND I M; [contradiction|].
  simpl in ND, I |- *. inversion ND as [|? ? NI ND']; subst.
  destruct I as [E|I].
  - subst x. rewrite M, String.eqb_refl. simpl. f_equal.
    f_equal. apply filter_ext_in. intros a Ia.
    replace (Achievement.id ach =? Achievement.id a) with false; [now rewrite orb_false_r|].
    symmetry. apply String.eqb_neq. intros E. apply NI. rewrite E. now apply in_map.
  - replace (x =? Achievement.id ach) with false.
    + rewrite orb_false_r. destruct (marked (Achievement.id ach)); simpl;
        now rewrite (IH ND' I M).
    + symmetry. apply String.eqb_neq. intros E. apply NI. now rewrite <- E.
Qed.

Lemma NoDup_definitions : NoDup (map Achievement.id ACHIEVEMENT_DEFINITIONS).
Proof.
  simpl. repeat (constructor; [simpl; intuition discriminate|]). constructor.
Qed.

(** Unlocking one of the six achievements lists it as unlocked; the call
    returns true exactly when it was not unlocked before, and then the
    number of unlocked achievements grows by one; a second call returns
    false and changes nothing.  An id that is none of the six is refused.
    No call locks an achievement that was unlocked, and the number of
    unlocked achievements never exceeds their total. *)
Theorem unlockAchievement_once (s : LocalStorage.t) (x : string) :
  (knownAchievement x ->
   let r := unlockAchievement s x in
   fst r = negb (unlockedIn s x) /\
   unlockedIn (snd r) x = true /\
   unlockAchievement (snd r) x = (false, snd r) /\
   getUnlockedCount (snd r) = (getUnlockedCount s + if fst r then 1 else 0)%nat) /\
  (~ knownAchievement x -> unlockAchievement s x = (false, s)) /\
  (forall other, unlockedIn s other = true ->
                 unlockedIn (snd (unlockAchievement s x)) other = true) /\
  (getUnlockedCount s <= getTotalAchievements)%nat.
Proof.
  split; [|split; [|split]].
  - intros Known.
    pose proof (proj2 (find_known x ACHIEVEMENT_DEFINITIONS) Known) as [d D].
    cbv zeta. rewrite (unlockedIn_stored s x), (unlockAchievement_cases s x), D.
    destruct (includes (storedIds s) x) eqn:I; cbn [fst snd negb].
    + repeat split.
      * now rewrite unlockedIn_stored, D.
      * now rewrite unlockAchievement_cases, D, I.
      * lia.
    + assert (After : includes (storedIds s ++ [x]) x = true)
        by (rewrite includes_push, String.eqb_refl; apply orb_true_r).
      repeat split.
      * now rewrite unlockedIn_stored, D, storedIds_set.
      * now rewrite unlockAchievement_cases, D, storedIds_set, After.
      * rewrite !getUnlockedCount_stored, storedIds_set.
        rewrite (filter_ext _ (fun ach => (includes (storedIds s) (Achievement.id ach)
                                           || (x =? Achievement.id ach))%bool))
          by (intros a; apply includes_push).
        rewrite (@count_one_more (includes (storedIds s)) x ACHIEVEMENT_DEFINITIONS
                                 NoDup_definitions Known I). lia.
  - intros Unknown. rewrite unlockAchievement_cases.
    destruct (find _ ACHIEVEMENT_DEFINITIONS) as [d|] eqn:D; [|reflexivity].
    exfalso. apply Unknown. apply find_known. now exists d.
  - intros other U. rewrite unlockedIn_stored in U |- *.
    destruct (find (fun a => Achievement.id a =? other) ACHIEVEMENT_DEFINITIONS);
      [|discriminate].
    rewrite unlockAchievement_cases.
    destruct (find (fun a => Achievement.id a =? x) ACHIEVEMENT_DEFINITIONS); [|exact U].
    destruct (includes (storedIds s) x); [exact U|].
    cbn [snd]. rewrite storedIds_set, includes_push, U. reflexivity.
  - rewrite getUnlockedCount_stored. apply filter_length_le.
Qed.

Lemma unlockAchievement_once_witness :
  fst (unlockAchievement LocalStorage.empty "saver") = true
  /\ unlockAchievement (snd (unlockAchievement LocalStorage.empty "saver")) "saver"
     = (false, snd (unlockAchievement LocalStorage.empty "saver"))
  /\ unlockAchievement LocalStorage.empty "night_owl" = (false, LocalStorage.empty).
Proof.
  destruct (unlockAchievement_once LocalStorage.empty "saver") as [Known _].
  destruct (unlockAchievement_once LocalStorage.empty "night_owl") as [_ [Unknown _]].
  assert (K : knownAchievement "saver") by (unfold knownAchievement; simpl; tauto).
  destruct (Known K) as [First [_ [Again _]]].
  split; [exact First|]. split; [exact Again|].
  apply Unknown. unfold knownAchievement. simpl. intuition discriminate.
Defined.

Lemma unlockedIn_key (s s' : LocalStorage.t) (x : string) :
  LocalStorage.ACHIEVEMENTS_KEY s' = LocalStorage.ACHIEVEMENTS_KEY s ->
  unlockedIn s' x = unlockedIn s x.
Proof.
  intros E. unfold unlockedIn, getAchievements. now rewrite E.
Qed.

Lemma unlockAchievement_keeps (s : LocalStorage.t) (x other : string) :
  unlockedIn s other = true -> unlockedIn (snd (unlockAchievement s x)) other = true.
Proof.
  intros U. rewrite unlockedIn_stored in U |- *.
  destruct (find (fun a => Achievement.id a =? other) ACHIEVEMENT_DEFINITIONS);
    [|discriminate].
  rewrite unlockAchievement_cases.
  destruct (find (fun a => Achievement.id a =? x) ACHIEVEMENT_DEFINITIONS); [|exact U].
  destruct (includes (storedIds s) x); [exact U|].
  cbn [snd]. rewrite storedIds_set, includes_push, U. reflexivity.
Qed.

Lemma unlockAchievement_sets (s : LocalStorage.t) (x : string) :
  knownAchievement x -> unlockedIn (snd (unlockAchievement s x)) x = true.
Proof.
  intros Known.
  pose proof (proj2 (find_known x ACHIEVEMENT_DEFINITIONS) Known) as [d D].
  rewrite unlockAchievement_cases, D.
  destruct (includes (storedIds s) x) eqn:I; cbn [snd];
    rewrite unlockedIn_stored, D; [exact I|].
  rewrite storedIds_set, includes_push, String.eqb_refl. apply orb_true_r.
Qed.

Lemma checkStreakAchievements_keeps (s : LocalStorage.t) (currentStreak : Z) (other : string) :
  unlockedIn s other = true ->
  unlockedIn (checkStreakAchievements s currentStreak) other = true.
Proof.
  intros U. unfold checkStreakAchievements.
  repeat match goal with
         | |- context [if ?c then _ else _] => destruct c
         end;
    repeat apply unlockAchievement_keeps; exact U.
Qed.

Lemma checkStreakAchievements_unlocks (s : LocalStorage.t) (currentStreak : Z) :
  ((7 <= currentStreak)%Z ->
   unlockedIn (checkStreakAchievements s currentStreak) "week_warrior" = true) /\
  ((30 <= currentStreak)%Z ->
   unlockedIn (checkStreakAchievements s currentStreak) "month_master" = true) /\
  ((90 <= currentStreak)%Z ->
   unlockedIn (checkStreakAchievements s currentStreak) "consistent_tracker" = true) /\
  (List.length (Storage.getEntries s) = 1%nat ->
   unlockedIn (checkStreakAchievements s currentStreak) "first_entry" = true).
Proof.
  assert (K : forall x, In x ["week_warrior"; "month_master"; "consistent_tracker";
                              "first_entry"] -> knownAchievement x).
  { intros x I. unfold knownAchievement. simpl in I |- *. tauto. }
  unfold checkStreakAchievements. cbv zeta.
  split; [|split; [|split]]; intros B.
  - apply Z.leb_le in B. rewrite B.
    destruct (30 <=? currentStreak)%Z; destruct (90 <=? currentStreak)%Z;
      cbv beta iota;
      repeat first [ solve [apply unlockAchievement_sets, K; simpl; tauto]
                   | apply unlockAchievement_keeps ].
  - apply Z.leb_le in B. rewrite B.
    destruct (90 <=? currentStreak)%Z;
      cbv beta iota;
      repeat first [ solve [apply unlockAchievement_sets, K; simpl; tauto]
                   | apply unlockAchievement_keeps ].
  - apply Z.leb_le in B. rewrite B. cbv beta iota.
    apply unlockAchievement_sets, K; simpl; tauto.
  - apply Nat.eqb_eq in B. rewrite B.
    destruct (7 <=? currentStreak)%Z; destruct (30 <=? currentStreak)%Z;
      destruct (90 <=? currentStreak)%Z;
      cbv beta iota;
      repeat first [ solve [apply unlockAchievement_sets, K; simpl; tauto]
                   | apply unlockAchievement_keeps ].
Qed.

(** Recording an entry and checking the streak never lock an achievement
    that was unlocked. *)
Theorem achievements_stay_unlocked (now : Date) (s : LocalStorage.t)
        (entryDate achievementId : string) :
  unlockedIn s achievementId = true ->
  unlockedIn (snd (updateStreak now s entryDate)) achievementId = true
  /\ unlockedIn (validateStreak now s) achievementId = true.
Proof.
  intros U. split.
  - unfold updateStreak.
    destruct ((entryDate =? toISODate now) || (entryDate =? getYesterday now))%bool;
      [|exact U].
    cbn [snd]. apply checkStreakAchievements_keeps.
    now rewrite (unlockedIn_key s _ achievementId).
  - unfold validateStreak. destruct (_ && _)%bool; [|exact U].
    now rewrite (unlockedIn_key s _ achievementId).
Qed.

Lemma achievements_stay_unlocked_witness :
  unlockedIn (snd (updateStreak march14
                                (snd (unlockAchievement LocalStorage.empty "saver"))
                                "2024-03-14")) "saver" = true.
Proof.
  refine (proj1 (@achievements_stay_unlocked
                   march14 (snd (unlockAchievement LocalStorage.empty "saver"))
                   "2024-03-14" "saver" _)).
  reflexivity.
Defined.

(** An entry dated today or yesterday that brings the current streak to 7,
    30 or 90 days unlocks the achievement of that length, and it unlocks
    the first-entry achievement when exactly one entry is stored. *)
Theorem updateStreak_unlocks (now : Date) (s : LocalStorage.t) (entryDate : string) :
  entryDate = toISODate now \/ entryDate = getYesterday now ->
  let after := fst (updateStreak now s entryDate) in
  let s1 := snd (updateStreak now s entryDate) in
  ((7 <= StreakData.currentStreak after)%Z -> unlockedIn s1 "week_warrior" = true) /\
  ((30 <= StreakData.currentStreak after)%Z -> unlockedIn s1 "month_master" = true) /\
  ((90 <= StreakData.currentStreak after)%Z -> unlockedIn s1 "consistent_tracker" = true) /\
  (List.length (Storage.getEntries s) = 1%nat -> unlockedIn s1 "first_entry" = true).
Proof.
  intros Recent after s1.
  assert (G : ((entryDate =? toISODate now) || (entryDate =? getYesterday now))%bool = true).
  { apply orb_true_iff. destruct Recent as [-> | ->]; [left|right]; apply String.eqb_refl. }
  subst after s1. unfold updateStreak. rewrite G. cbn [fst snd].
  match goal with
  | |- context [checkStreakAchievements ?s' ?c] =>
      exact (checkStreakAchievements_unlocks s' c)
  end.
Qed.

Lemma updateStreak_unlocks_witness :
  unlockedIn (snd (updateStreak march14 (streakStore 6 6 "2024-03-13" 6) "2024-03-14"))
             "week_warrior" = true.
Proof.
  destruct (@updateStreak_unlocks march14 (streakStore 6 6 "2024-03-13" 6) "2024-03-14"
              (or_introl eq_refl)) as [Week _].
  apply Week. cbv. discriminate.
Defined.
End AchievementFacts.

(** ** The streak over several days *)

Module StreakRunFacts.
Import JS DateFacts Gamification Spec Samples StreakFacts.
Local Open Scope Z_scope.

(** [validateStreak] only ever resets the current streak: it leaves the
    longest streak, the last entry date, the day count and the other keys
    alone, sets the current streak to 0 when the last entry date is neither
    today nor yesterday, writes nothing otherwise, and a second check
    changes nothing more. *)
Theorem validateStreak_resets (now : Date) (s : LocalStorage.t) :
  let before := getStreakData s in
  let after := getStreakData (validateStreak now s) in
  StreakData.longestStreak after = StreakData.longestStreak before /\
  StreakData.lastEntryDate after = StreakData.lastEntryDate before /\
  StreakData.totalDaysWithEntries after = StreakData.totalDaysWithEntries before /\
  (StreakData.lastEntryDate before <> toISODate now ->
   StreakData.lastEntryDate before <> getYesterday now ->
   StreakData.currentStreak after = 0) /\
  (StreakData.lastEntryDate before = toISODate now
   \/ StreakData.lastEntryDate before = getYesterday now ->
   validateStreak now s = s) /\
  validateStreak now (validateStreak now s) = validateStreak now s /\
  LocalStorage.STORAGE_KEY (validateStreak now s) = LocalStorage.STORAGE_KEY s /\
  LocalStorage.ACHIEVEMENTS_KEY (validateStreak now s) = LocalStorage.ACHIEVEMENTS_KEY s.
Proof.
  intros before after. subst after. unfold validateStreak. fold before.
  destruct (negb (StreakData.lastEntryDate before =? toISODate now)%string
            && negb (StreakData.lastEntryDate before =? getYesterday now)%string)%bool
           eqn:Stale.
  - apply andb_true_iff in Stale. destruct Stale as [T Y].
    repeat split; try reflexivity.
    + intros [E|E]; rewrite E, String.eqb_refl in *; discriminate.
    + unfold getStreakData at 1 2.
      cbn [LocalStorage.STREAK_KEY LocalStorage.set_STREAK_KEY StreakData.lastEntryDate].
      rewrite T, Y. reflexivity.
  - repeat split; try reflexivity.
    + intros T Y. apply String.eqb_neq in T, Y. rewrite T, Y in Stale. discriminate.
    + fold before. now rewrite Stale.
Qed.

Lemma validateStreak_resets_witness :
  StreakData.currentStreak
    (getStreakData (validateStreak march14 (streakStore 4 6 "2024-03-10" 9))) = 0
  /\ validateStreak march14 (streakStore 4 6 "2024-03-13" 9) = streakStore 4 6 "2024-03-13" 9.
Proof.
  destruct (validateStreak_resets march14 (streakStore 4 6 "2024-03-10" 9))
    as [_ [_ [_ [Stale _]]]].
  destruct (validateStreak_resets march14 (streakStore 4 6 "2024-03-13" 9))
    as [_ [_ [_ [_ [Fresh _]]]]].
  split.
  - apply Stale; discriminate.
  - apply Fresh. right. reflexivity.
Defined.

(** Whatever the entry, [updateStreak] never lowers the longest streak or
    the day count and keeps the current streak within the longest one; an
    entry dated neither today nor yesterday changes nothing at all. *)
Theorem updateStreak_never_lowers (now : Date) (s : LocalStorage.t) (entryDate : string) :
  let before := getStreakData s in
  let after := fst (updateStreak now s entryDate) in
  StreakData.longestStreak before <= StreakData.longestStreak after /\
  StreakData.totalDaysWithEntries before <= StreakData.totalDaysWithEntries after /\
  (streakOrdered before -> streakOrdered after) /\
  (entryDate <> toISODate now -> entryDate <> getYesterday now ->
   updateStreak now s entryDate = (before, s)).
Proof.
  intros before after. subst after. unfold updateStreak. fold before.
  destruct ((entryDate =? toISODate now)%string
            || (entryDate =? getYesterday now)%string)%bool eqn:Recent.
  - cbn [fst StreakData.longestStreak StreakData.totalDaysWithEntries].
    split; [apply Z.le_max_l|]. split; [lia|]. split.
    + unfold streakOrdered.
      cbn [StreakData.currentStreak StreakData.longestStreak].
      intros O.
      destruct ((StreakData.lastEntryDate before =? getYesterday now)%string
                || (StreakData.lastEntryDate before =? "")%string)%bool; [lia|].
      destruct (negb (StreakData.lastEntryDate before =? toISODate now)%string); lia.
    + intros T Y. apply String.eqb_neq in T, Y. rewrite T, Y in Recent. discriminate.
  - cbn [fst]. split; [lia|]. split; [lia|]. split; [tauto|reflexivity].
Qed.

Lemma updateStreak_never_lowers_witness :
  updateStreak march14 (streakStore 4 6 "2024-03-13" 9) "2024-02-01"
  = (getStreakData (streakStore 4 6 "2024-03-13" 9), streakStore 4 6 "2024-03-13" 9)
  /\ streakOrdered (fst (updateStreak march14 (streakStore 4 6 "2024-03-13" 9) "2024-03-14")).
Proof.
  destruct (updateStreak_never_lowers march14 (streakStore 4 6 "2024-03-13" 9) "2024-02-01")
    as [_ [_ [_ Old]]].
  destruct (updateStreak_never_lowers march14 (streakStore 4 6 "2024-03-13" 9) "2024-03-14")
    as [_ [_ [Ordered _]]].
  split.
  - apply Old; discriminate.
  - apply Ordered. unfold streakOrdered. cbn. lia.
Defined.


Lemma last_cons {A : Type} (a d : A) (l : list A) : last (a :: l) d = last l a.
Proof.
  revert a d. induction l as [|b rest IH]; intros a d; [reflexivity|].
  change (last (a :: b :: rest) d) with (last (b :: rest) d).
  now rewrite !IH.
Qed.

(** A day recorded right after the day of the last entry adds one to a
    streak that stands at its longest. *)
Lemma daily_run (days : list Date) :
  forall (s : LocalStorage.t) (prev : Date) (c t : Z),
    getStreakData s = StreakData.mk c c (toISODate prev) t ->
    consecutive (prev :: days) ->
    getStreakData (recordDaily days s)
    = StreakData.mk (c + Z.of_nat (List.length days)) (c + Z.of_nat (List.length days))
                    (toISODate (last days prev)) (t + Z.of_nat (List.length days)).
Proof.
  induction days as [|day later IH]; intros s prev c t E C.
  - cbn [recordDaily List.length last Z.of_nat]. now rewrite !Z.add_0_r.
  - destruct C as [Y C].
    cbn [recordDaily].
    assert (Step : getStreakData (snd (updateStreak day s (toISODate day)))
                   = StreakData.mk (c + 1) (c + 1) (toISODate day) (t + 1)).
    { rewrite updateStreak_stored. unfold updateStreak.
      rewrite String.eqb_refl, orb_true_l. cbn [fst]. rewrite E.
      cbn [StreakData.lastEntryDate StreakData.currentStreak StreakData.longestStreak
           StreakData.totalDaysWithEntries].
      rewrite Y, String.eqb_refl, orb_true_l. f_equal. lia. }
    rewrite (IH _ day (c + 1) (t + 1) Step C), last_cons.
    cbn [List.length]. rewrite Nat2Z.inj_succ. f_equal; lia.
Qed.

(** One entry dated today on each of [n] days in a row, from the initial
    store, gives a current streak, a longest streak and a day count of [n],
    and the last of the days as the last entry date. *)
Theorem streak_of_consecutive_days (first : Date) (rest : list Date) :
  consecutive (first :: rest) ->
  let n := Z.of_nat (List.length (first :: rest)) in
  getStreakData (recordDaily (first :: rest) LocalStorage.empty)
  = StreakData.mk n n (toISODate (last rest first)) n.
Proof.
  intros C n. cbn [recordDaily].
  assert (Step : getStreakData (snd (updateStreak first LocalStorage.empty (toISODate first)))
                 = StreakData.mk 1 1 (toISODate first) 1).
  { rewrite updateStreak_stored. unfold updateStreak.
    rewrite String.eqb_refl, orb_true_l.
    change (getStreakData LocalStorage.empty) with (StreakData.mk 0 0 "" 0).
    cbn [fst StreakData.lastEntryDate StreakData.currentStreak StreakData.longestStreak
         StreakData.totalDaysWithEntries].
    change ("" =? "")%string with true. rewrite orb_true_r. reflexivity. }
  rewrite (daily_run rest _ first Step C).
  subst n. cbn [List.length]. rewrite Nat2Z.inj_succ. f_equal; lia.
Qed.

Lemma streak_of_consecutive_days_witness :
  getStreakData (recordDaily [march14; mkDate 2024 2 15; mkDate 2024 2 16]
                             LocalStorage.empty)
  = StreakData.mk 3 3 "2024-03-16" 3.
Proof.
  refine (@streak_of_consecutive_days march14 [mkDate 2024 2 15; mkDate 2024 2 16] _).
  cbn. repeat split.
Defined.
End StreakRunFacts.

(** ** The financial score *)

Module ScoreFacts.
Import JS JSFacts Score MetricsFacts Samples.
Local Open Scope Q_scope.

(** The savings score lies between 0 and 100, is 0 up to a rate of 0 and
    100 from a rate of 30, and a higher savings rate never gives a lower
    score. *)
Theorem calculateSavingsScore_monotone (rate1 rate2 : Q) :
  (0 <= calculateSavingsScore rate1 /\ calculateSavingsScore rate1 <= 100) /\
  (rate1 <= 0 -> calculateSavingsScore rate1 = 0) /\
  (30 <= rate1 -> calculateSavingsScore rate1 = 100) /\
  (rate1 <= rate2 -> calculateSavingsScore rate1 <= calculateSavingsScore rate2).
Proof.
  assert (Scale : forall r, r / 30 * 100 == r * (10 # 3)) by (intros r; field).
  assert (Bounds : forall r, 0 <= calculateSavingsScore r /\ calculateSavingsScore r <= 100).
  { intros r. unfold calculateSavingsScore.
    destruct (le r 0) eqn:L; [split; discriminate|].
    destruct (ge r 30) eqn:G; [split; discriminate|].
    apply le_false in L. apply ge_false in G. split.
    - apply (@Math_round_lower _ 0%Z). change (inject_Z 0) with 0. rewrite Scale. lra.
    - apply (@Math_round_upper _ 100%Z). change (inject_Z 100) with 100. rewrite Scale. lra. }
  split; [apply Bounds|]. split; [|split].
  - intros L. unfold calculateSavingsScore. apply le_true in L. now rewrite L.
  - intros G. unfold calculateSavingsScore.
    replace (le rate1 0) with false by (symmetry; apply le_false; lra).
    apply ge_true in G. now rewrite G.
  - intros Le. unfold calculateSavingsScore at 1.
    destruct (le rate1 0) eqn:L1; [apply Bounds|]. apply le_false in L1.
    destruct (ge rate1 30) eqn:G1.
    + apply ge_true in G1. unfold calculateSavingsScore.
      replace (le rate2 0) with false by (symmetry; apply le_false; lra).
      replace (ge rate2 30) with true by (symmetry; apply ge_true; lra).
      apply Qle_refl.
    + apply ge_false in G1. unfold calculateSavingsScore.
      replace (le rate2 0) with false by (symmetry; apply le_false; lra).
      destruct (ge rate2 30) eqn:G2.
      * apply (@Math_round_upper _ 100%Z). change (inject_Z 100) with 100.
        rewrite Scale. lra.
      * apply ge_false in G2. apply Math_round_le. rewrite !Scale. lra.
Qed.

Lemma calculateSavingsScore_monotone_witness :
  calculateSavingsScore 12 <= calculateSavingsScore 18
  /\ calculateSavingsScore (-4) = 0 /\ calculateSavingsScore 45 = 100.
Proof.
  destruct (calculateSavingsScore_monotone 12 18) as [_ [_ [_ Mono]]].
  destruct (calculateSavingsScore_monotone (-4) 0) as [_ [Zero _]].
  destruct (calculateSavingsScore_monotone 45 0) as [_ [_ [Full _]]].
  split; [apply Mono; discriminate|].
  split; [apply Zero; discriminate|apply Full; discriminate].
Defined.


Lemma calculateBudgetScore_bounds `{Host} (now : Date) (s : LocalStorage.t) :
  0 <= fst (calculateBudgetScore now s) /\ fst (calculateBudgetScore now s) <= 100.
Proof.
  unfold calculateBudgetScore.
  destruct (BudgetService.getTotalBudgetSummary now s) as [summary s1]. cbn [fst].
  repeat match goal with
         | |- context [if ?c then _ else _] => destruct c
         end; split; discriminate.
Qed.

Lemma calculateStabilityScore_bounds `{Host} (now : Date) (s : LocalStorage.t) :
  0 <= calculateStabilityScore now s /\ calculateStabilityScore now s <= 100.
Proof.
  unfold calculateStabilityScore. cbv zeta.
  repeat match goal with
         | |- context [if ?c then _ else _] => destruct c
         end; split; discriminate.
Qed.

(** A loop that adds one to a counter on some of its rounds ends between
    the start of the counter and the start plus the number of rounds. *)
Lemma counting_loop (test : nat -> bool) (rounds : list nat) :
  forall start : Z,
    (start
     <= fold_left (fun (count : Z) i => if test i then (count + 1)%Z else count) rounds start
     <= start + Z.of_nat (List.length rounds))%Z.
Proof.
  induction rounds as [|i rest IH]; intros start.
  - cbn. lia.
  - cbn [fold_left List.length]. rewrite Nat2Z.inj_succ.
    destruct (test i).
    + specialize (IH (start + 1)%Z). lia.
    + specialize (IH start). lia.
Qed.

Lemma calculateConsistencyScore_bounds `{Host} (now : Date) (s : LocalStorage.t) :
  0 <= calculateConsistencyScore now s /\ calculateConsistencyScore now s <= 100.
Proof.
  unfold calculateConsistencyScore, for_loop. cbv zeta.
  match goal with
  | |- context [fold_left ?f (seq 0 6) 0%Z] =>
      pose proof (counting_loop
                    (fun i =>
                       let date := Date_firstOfMonth (getFullYear now)
                                                     (getMonth now - Z.of_nat i) in
                       let data := Storage.getMonthlyData s (getFullYear date)
                                                          (getMonth date) in
                       gt (MonthlyData.totalIncome data) 0
                       || gt (MonthlyData.totalNeeds data) 0
                       || gt (MonthlyData.totalWants data) 0)%bool
                    (seq 0 6) 0%Z) as B;
      change (0 <= fold_left f (seq 0 6) 0 <= 0 + Z.of_nat (List.length (seq 0 6)))%Z in B;
      set (monthsWithData := fold_left f (seq 0 6) 0%Z) in *
  end.
  cbn [List.length seq] in B.
  assert (Lo : 0 <= inject_Z monthsWithData)
    by (change 0 with (inject_Z 0); rewrite <- Zle_Qle; lia).
  assert (Hi : inject_Z monthsWithData <= 6)
    by (change 6 with (inject_Z 6); rewrite <- Zle_Qle; lia).
  assert (Scale : inject_Z monthsWithData / 6 * 100 == inject_Z monthsWithData * (50 # 3))
    by field.
  split.
  - apply (@Math_round_lower _ 0%Z). change (inject_Z 0) with 0. rewrite Scale. lra.
  - apply (@Math_round_upper _ 100%Z). change (inject_Z 100) with 100. rewrite Scale. lra.
Qed.

(** The four parts of the financial score and the score itself lie between
    0 and 100; the score is a whole number; the rating is Excellent exactly
    from 80 and Poor exactly below 40; computing the score leaves the
    entries as they are. *)
Theorem calculateFinancialScore_bounds `{Host} (now : Date) (s : LocalStorage.t) :
  let result := fst (calculateFinancialScore now s) in
  let parts := FinancialScore.breakdown result in
  (0 <= ScoreBreakdown.savingsScore parts /\ ScoreBreakdown.savingsScore parts <= 100) /\
  (0 <= ScoreBreakdown.budgetScore parts /\ ScoreBreakdown.budgetScore parts <= 100) /\
  (0 <= ScoreBreakdown.stabilityScore parts /\ ScoreBreakdown.stabilityScore parts <= 100) /\
  (0 <= ScoreBreakdown.consistencyScore parts
   /\ ScoreBreakdown.consistencyScore parts <= 100) /\
  (0 <= FinancialScore.score result /\ FinancialScore.score result <= 100) /\
  (exists z, FinancialScore.score result = inject_Z z) /\
  (FinancialScore.rating result = Excellent <-> 80 <= FinancialScore.score result) /\
  (FinancialScore.rating result = Poor <-> FinancialScore.score result < 40) /\
  LocalStorage.STORAGE_KEY (snd (calculateFinancialScore now s)) = LocalStorage.STORAGE_KEY s.
Proof.
  intros result parts. subst parts result. unfold calculateFinancialScore.
  pose proof (calculateBudgetScore_bounds now s) as Bb.
  assert (Es : LocalStorage.STORAGE_KEY (snd (calculateBudgetScore now s))
               = LocalStorage.STORAGE_KEY s).
  { unfold calculateBudgetScore, BudgetService.getTotalBudgetSummary,
      BudgetService.getAllBudgetStatuses.
    pose proof (BudgetStatusFacts.getBudgetStatus_store now) as St.
    assert (All : forall cats s0,
               LocalStorage.STORAGE_KEY (snd (BudgetService.statusesOf now s0 cats))
               = LocalStorage.STORAGE_KEY s0).
    { induction cats as [|cat rest IH]; intros s0; [reflexivity|].
      cbn [BudgetService.statusesOf].
      destruct (BudgetService.getBudgetStatus now s0 cat) as [status s1] eqn:E.
      specialize (IH s1). destruct (BudgetService.statusesOf now s1 rest) as [others s2].
      cbn [snd] in IH |- *. rewrite IH.
      pose proof (St s0 cat) as S1. rewrite E in S1. cbn [snd] in S1. subst s1.
      apply BudgetStatusFacts.checkAndReset_entries. }
    specialize (All CATEGORIES s).
    destruct (BudgetService.statusesOf now s CATEGORIES) as [statuses s1].
    cbn [snd] in All. now destruct (List.length _ =? 0)%nat. }
  destruct (calculateBudgetScore now s) as [budgetScore s1]. cbn [fst snd] in Bb, Es |- *.
  cbn [FinancialScore.breakdown FinancialScore.score FinancialScore.rating
       ScoreBreakdown.savingsScore ScoreBreakdown.budgetScore
       ScoreBreakdown.stabilityScore ScoreBreakdown.consistencyScore].
  pose proof (calculateStabilityScore_bounds now s1) as Bs.
  pose proof (calculateConsistencyScore_bounds now s1) as Bc.
  assert (Ba : 0 <= calculateSavingsScore
                      (AnalyticsMetrics.savingsRate (Analytics.getAnalyticsMetrics now s))
               /\ calculateSavingsScore
                    (AnalyticsMetrics.savingsRate (Analytics.getAnalyticsMetrics now s))
                  <= 100).
  { set (r := AnalyticsMetrics.savingsRate _). unfold calculateSavingsScore.
    assert (Scale : r / 30 * 100 == r * (10 # 3)) by field.
    destruct (le r 0) eqn:L; [split; discriminate|].
    destruct (ge r 30) eqn:G; [split; discriminate|].
    apply le_false in L. apply ge_false in G. split.
    - apply (@Math_round_lower _ 0%Z). change (inject_Z 0) with 0. rewrite Scale. lra.
    - apply (@Math_round_upper _ 100%Z). change (inject_Z 100) with 100. rewrite Scale. lra. }
  set (a := calculateSavingsScore _) in *.
  set (c := calculateStabilityScore now s1) in *.
  set (d := calculateConsistencyScore now s1) in *.
  unfold WEIGHTS_savings, WEIGHTS_budget, WEIGHTS_stability, WEIGHTS_consistency.
  set (total := a * (40 # 100) + budgetScore * (30 # 100) + c * (20 # 100) + d * (10 # 100)).
  assert (Bt : 0 <= total /\ total <= 100) by (subst total; split; lra).
  assert (Br : 0 <= Math_round total /\ Math_round total <= 100).
  { split; [apply (@Math_round_lower _ 0%Z)|apply (@Math_round_upper _ 100%Z)]; tauto. }
  repeat split; try tauto.
  - now exists (Qfloor (total + (1 # 2))).
  - unfold getRating. intros E.
    destruct (ge (Math_round total) 80) eqn:G; [now apply ge_true|].
    destruct (ge (Math_round total) 60); [discriminate E|].
    destruct (ge (Math_round total) 40); discriminate E.
  - intros G. unfold getRating. apply ge_true in G. now rewrite G.
  - unfold getRating. intros E.
    destruct (ge (Math_round total) 80); [discriminate E|].
    destruct (ge (Math_round total) 60); [discriminate E|].
    destruct (ge (Math_round total) 40) eqn:G; [discriminate E|].
    now apply ge_false.
  - intros L. unfold getRating.
    replace (ge (Math_round total) 80) with false by (symmetry; apply ge_false; lra).
    replace (ge (Math_round total) 60) with false by (symmetry; apply ge_false; lra).
    replace (ge (Math_round total) 40) with false by (symmetry; apply ge_false; lra).
    reflexivity.
Qed.

Lemma calculateFinancialScore_bounds_witness :
  0 <= FinancialScore.score (fst (@calculateFinancialScore ExampleHost.host march14 summaryStore))
  /\ FinancialScore.score (fst (@calculateFinancialScore ExampleHost.host march14 summaryStore))
     <= 100.
Proof.
  destruct (@calculateFinancialScore_bounds ExampleHost.host march14 summaryStore)
    as [_ [_ [_ [_ [Score _]]]]].
  exact Score.
Defined.
End ScoreFacts.

(** ** The forecast *)

Module ForecastFacts.
Import JS JSFacts Forecast Spec WeightedAverageFacts MetricsFacts Samples.
Local Open Scope Q_scope.







(** The loop of [getYearEndProjection] adds up the income and the expenses
    of the months [0] to [n - 1] of the year. *)
Lemma year_loop (income expenses : nat -> Q) (n : nat) :
  let r := for_loop n
                    (fun i '(actualIncome, actualExpenses) =>
                       (actualIncome + income i, actualExpenses + expenses i))
                    (0, 0) in
  fst r == sumOver n income /\ snd r == sumOver n expenses.
Proof.
  unfold for_loop, sumOver.
  assert (G : forall l a b,
             let r := fold_left
                        (fun (s : Q * Q) i =>
                           (fun '(actualIncome, actualExpenses) =>
                              (actualIncome + income i, actualExpenses + expenses i)) s)
                        l (a, b) in
             fst r == a + fold_right Qplus 0 (map income l)
             /\ snd r == b + fold_right Qplus 0 (map expenses l)).
  { induction l as [|i rest IH]; intros a b.
    - cbn. split; ring.
    - cbn [fold_left map fold_right].
      destruct (IH (a + income i) (b + expenses i)) as [I E]. cbv zeta in I, E |- *.
      rewrite I, E. split; ring. }
  destruct (G (seq 0 n) 0 0) as [I E]. cbv zeta in I, E |- *.
  rewrite I, E. split; ring.
Qed.

(** For a clock in the months 0 to 11 the months that remain are 11 less
    the month of the clock, between 0 and 11; in December nothing is
    projected: the yearly income and expenses are the sums over the twelve
    months of the year. *)
Theorem getYearEndProjection_december `{Host} `{MathHost} (now : Date) (s : LocalStorage.t) :
  (0 <= getMonth now <= 11)%Z ->
  let projection := getYearEndProjection now s in
  let income i :=
    MonthlyData.totalIncome (Storage.getMonthlyData s (getFullYear now) (Z.of_nat i)) in
  let expenses i :=
    MonthlyData.totalNeeds (Storage.getMonthlyData s (getFullYear now) (Z.of_nat i))
    + MonthlyData.totalWants (Storage.getMonthlyData s (getFullYear now) (Z.of_nat i)) in
  YearEndProjection.monthsRemaining projection = (11 - getMonth now)%Z /\
  (0 <= YearEndProjection.monthsRemaining projection <= 11)%Z /\
  (getMonth now = 11%Z ->
   YearEndProjection.projectedYearlyIncome projection == sumOver 12 income
   /\ YearEndProjection.projectedYearlyExpenses projection == sumOver 12 expenses).
Proof.
  intros M projection income expenses.
  subst projection. unfold getYearEndProjection. cbv zeta.
  pose proof (year_loop income expenses (Z.to_nat (getMonth now + 1))) as L.
  cbv zeta in L.
  match type of L with
  | fst ?r == _ /\ _ =>
      match goal with
      | |- context [let (_, _) := ?r' in _] => change r' with r
      end;
      destruct r as [actualIncome actualExpenses]
  end.
  cbn [fst snd] in L. destruct L as [I E].
  cbn [YearEndProjection.monthsRemaining YearEndProjection.projectedYearlyIncome
       YearEndProjection.projectedYearlyExpenses].
  split; [lia|]. split; [lia|].
  intros Dec. rewrite Dec in I, E |- *.
  change (Z.to_nat (11 + 1)) with 12%nat in I, E.
  change (inject_Z (12 - 11 - 1)) with 0.
  rewrite I, E. split; ring.
Qed.

Lemma getYearEndProjection_december_witness :
  YearEndProjection.monthsRemaining
    (@getYearEndProjection ExampleHost.host plainMath march14 trendStore) = 9%Z.
Proof.
  refine (proj1 (@getYearEndProjection_december ExampleHost.host plainMath
                   march14 trendStore _)).
  cbv. split; discriminate.
Defined.
End ForecastFacts.

(** ** Clearing the data *)

Module ClearDataFacts.
Import JS Storage BudgetService Gamification Samples.

(** The monthly rollover of the budgets does not look at the entries. *)
Lemma rollover_without_entries (now : Date) (s : LocalStorage.t) :
  checkAndResetMonthlyBudgets now (LocalStorage.remove_STORAGE_KEY s)
  = LocalStorage.remove_STORAGE_KEY (checkAndResetMonthlyBudgets now s).
Proof.
  unfold checkAndResetMonthlyBudgets, getLastBudgetMonth.
  destruct s as [entries budgets marker streak unlocked]. cbn.
  destruct marker as [last|]; [|reflexivity].
  destruct (negb (BudgetMonth.month last =? getMonth now)%Z
            || negb (BudgetMonth.year last =? getFullYear now)%Z); reflexivity.
Qed.

Lemma getBudgetForCategory_without_entries (now : Date) (s : LocalStorage.t)
      (category : Category) :
  getBudgetForCategory now (LocalStorage.remove_STORAGE_KEY s) category
  = (fst (getBudgetForCategory now s category),
     LocalStorage.remove_STORAGE_KEY (snd (getBudgetForCategory now s category))).
Proof.
  unfold getBudgetForCategory, getBudgets. rewrite rollover_without_entries.
  destruct (checkAndResetMonthlyBudgets now s) as [entries budgets marker streak unlocked].
  reflexivity.
Qed.

(** A confirmed [clearAllData] removes the entries and nothing else: no
    entry is left and every month sums to zero, while the budget of every
    category, the streak and the unlocked achievements read as before; a
    budget status that is still shown has nothing spent and is green. A
    declined [clearAllData] changes nothing. *)
Theorem clearAllData_entries_only `{Host} (now : Date) (s : LocalStorage.t)
        (category : Category) :
  let s1 := clearAllData true s in
  getEntries s1 = [] /\
  (forall year month, getMonthlyData s1 year month = MonthlyData.mk 0 0 0 0 0 0) /\
  fst (getBudgetForCategory now s1 category) = fst (getBudgetForCategory now s category) /\
  (forall status, fst (getBudgetStatus now s1 category) = Some status ->
                  CategoryBudgetStatus.budgetAmount status
                  = fst (getBudgetForCategory now s category)
                  /\ CategoryBudgetStatus.spentAmount status = 0
                  /\ CategoryBudgetStatus.status status = green) /\
  getStreakData s1 = getStreakData s /\
  getAchievements s1 = getAchievements s /\
  clearAllData false s = s.
Proof.
  intros s1. subst s1. unfold clearAllData.
  split; [reflexivity|]. split; [reflexivity|].
  split; [rewrite getBudgetForCategory_without_entries; reflexivity|].
  split; [|repeat split; destruct s; reflexivity].
  intros status. unfold getBudgetStatus.
  rewrite getBudgetForCategory_without_entries.
  destruct (strict_eq (fst (getBudgetForCategory now s category)) 0); [discriminate|].
  cbn [fst]. intros E. injection E as <-.
  cbn [CategoryBudgetStatus.budgetAmount CategoryBudgetStatus.spentAmount
       CategoryBudgetStatus.status].
  split; [reflexivity|]. split; [reflexivity|].
  apply BudgetStatusFacts.statusOf_tiers.
  match goal with
  | |- ?spent / ?budget * 100 < 70 =>
      change spent with 0;
      assert (P : 0 / budget * 100 == 0) by (unfold Qdiv; ring);
      rewrite P; reflexivity
  end.
Qed.

Lemma clearAllData_entries_only_witness :
  exists status,
    fst (@getBudgetStatus ExampleHost.host march14 (clearAllData true summaryStore) Shopping)
    = Some status
    /\ CategoryBudgetStatus.budgetAmount status = 1000
    /\ CategoryBudgetStatus.spentAmount status = 0.
Proof.
  destruct (@clearAllData_entries_only ExampleHost.host march14 summaryStore Shopping)
    as [_ [_ [_ [Shown _]]]].
  eexists. split; [reflexivity|].
  destruct (Shown _ eq_refl) as [Amount [Spent _]].
  split; [exact Amount|exact Spent].
Defined.
End ClearDataFacts.

(** * Properties of the binary64 embedding *)

(** ** Comparisons of binary64 numbers *)

Module DoubleFacts.
Import JS Floats Double.
Local Open Scope float_scope.

Lemma SFcompare_antisym (x y : spec_float) :
  SFcompare y x = option_map CompOpp (SFcompare x y).
Proof.
  destruct x as [sx|sx| |sx mx ex], y as [sy|sy| |sy my ey]; simpl;
    try reflexivity;
    try (destruct sx; reflexivity); try (destruct sy; reflexivity);
    try (destruct sx, sy; reflexivity).
  assert (P : Pos.compare_cont Eq my mx = CompOpp (Pos.compare_cont Eq mx my))
    by (rewrite (Pos.compare_cont_antisym mx my Eq); reflexivity).
  destruct sx, sy; try reflexivity; f_equal;
    rewrite (Z.compare_antisym ey ex);
    destruct (ey ?= ex)%Z; simpl; try reflexivity;
    change PosDef.Pos.compare_cont with Pos.compare_cont; rewrite P;
    destruct (Pos.compare_cont Eq mx my); reflexivity.
Qed.

Lemma is_nan_spec (a : float) : is_nan a = true <-> Prim2SF a = S754_nan.
Proof.
  unfold is_nan. rewrite FloatAxioms.eqb_spec. unfold SFeqb.
  destruct (Prim2SF a) as [s|s| |s m e]; simpl.
  - split; discriminate.
  - destruct s; split; discriminate.
  - tauto.
  - destruct s; rewrite Z.compare_refl, Pos.compare_cont_refl; simpl; split; discriminate.
Qed.

Lemma SFcompare_some (x y : spec_float) :
  x <> S754_nan -> y <> S754_nan -> exists c, SFcompare x y = Some c.
Proof.
  destruct x, y; simpl; intros; try congruence; eexists; reflexivity.
Qed.


(** [a > b] excludes [a <= b], and [a < b] excludes [a >= b]. *)
Lemma gt_excludes_le (a b : float) : gt a b = true -> le a b = false.
Proof.
  unfold gt, le. rewrite ltb_spec, leb_spec. unfold SFltb, SFleb.
  rewrite (SFcompare_antisym (Prim2SF b) (Prim2SF a)).
  destruct (SFcompare (Prim2SF b) (Prim2SF a)) as [[ | | ]|]; simpl; congruence.
Qed.

Lemma lt_excludes_ge (a b : float) : lt a b = true -> ge a b = false.
Proof. exact (@gt_excludes_le b a). Qed.

(** Two numbers neither of which is NaN are comparable. *)
Lemma not_ge_lt (a b : float) :
  is_nan a = false -> is_nan b = false -> ge a b = false -> lt a b = true.
Proof.
  intros Na Nb. unfold ge, lt. rewrite ltb_spec, leb_spec. unfold SFltb, SFleb.
  rewrite (SFcompare_antisym (Prim2SF a) (Prim2SF b)).
  destruct (@SFcompare_some (Prim2SF a) (Prim2SF b)) as [c E].
  - intros K. apply is_nan_spec in K. congruence.
  - intros K. apply is_nan_spec in K. congruence.
  - rewrite E. destruct c; simpl; congruence.
Qed.

(** A number that compares with another is not NaN. *)
Lemma ge_number (a b : float) : ge a b = true -> is_nan a = false.
Proof.
  unfold ge. rewrite leb_spec. unfold SFleb. intros L.
  destruct (is_nan a) eqn:N; [|reflexivity]. apply is_nan_spec in N. rewrite N in L.
  destruct (Prim2SF b); simpl in L; discriminate.
Qed.

Lemma ge_90_70 (p : float) : ge p 90 = true -> ge p 70 = true.
Proof.
  unfold ge. rewrite !leb_spec. unfold SFleb.
  change (Prim2SF 90) with (S754_finite false 6333186975989760 (-46)).
  change (Prim2SF 70) with (S754_finite false 4925812092436480 (-46)).
  destruct (Prim2SF p) as [s|s| |s m e]; cbv beta iota delta [SFcompare];
    try (intros; assumption).
  destruct s; [intros; assumption|].
  destruct (-46 ?= e)%Z; try (intros; assumption).
  rewrite !Pos.compare_cont_spec. cbv beta iota delta [Pos.switch_Eq].
  destruct (6333186975989760 ?= m)%positive eqn:A; try discriminate; intros _.
  - apply Pos.compare_eq in A. subst m. reflexivity.
  - apply Pos.compare_lt_iff in A.
    assert (B : (4925812092436480 < m)%positive)
      by (apply Pos.lt_trans with 6333186975989760%positive; [reflexivity|exact A]).
    apply Pos.compare_lt_iff in B. rewrite B. reflexivity.
Qed.



End DoubleFacts.

(** ** Savings rate *)

Module SavingsRateDouble.
Import JS Floats Double DoubleFacts Analytics.
Local Open Scope float_scope.

(** C8, as the code has it.  [calculateSavingsRate income expenses] is 0
    whenever [income <= 0]; otherwise, and so for every positive income, it
    is [((income - expenses) / income) * 100] rounded to the nearest
    integer, the quotient being taken first and each operation rounded to
    binary64; an income of 1000 with no expenses gives 100. *)
Theorem calculateSavingsRate_quotient_first (income expenses : float) :
  (le income 0 = true -> calculateSavingsRate income expenses = 0) /\
  (le income 0 = false ->
   calculateSavingsRate income expenses
   = Math_round (((income - expenses) / income) * 100)) /\
  (gt income 0 = true ->
   calculateSavingsRate income expenses
   = Math_round (((income - expenses) / income) * 100)) /\
  calculateSavingsRate 1000 0 = 100.
Proof.
  unfold calculateSavingsRate. repeat split.
  - intros L. now rewrite L.
  - intros L. now rewrite L.
  - intros G. now rewrite (gt_excludes_le G).
Qed.

Lemma calculateSavingsRate_quotient_first_witness :
  calculateSavingsRate (-5) 3 = 0 /\
  calculateSavingsRate 800 600 = 25 /\
  calculateSavingsRate 40 17 = 57.
Proof.
  destruct (calculateSavingsRate_quotient_first (-5) 3) as [Hle _].
  destruct (calculateSavingsRate_quotient_first 800 600) as [_ [_ [Hpos _]]].
  destruct (calculateSavingsRate_quotient_first 40 17) as [_ [Hnot _]].
  split; [|split].
  - apply Hle. reflexivity.
  - rewrite Hpos; reflexivity.
  - rewrite Hnot; reflexivity.
Defined.

(** C8 as the specification words it fails for an income of 40 and expenses
    of 17: [100 * (40 - 17) / 40] is 57.5, in binary64 as in exact
    arithmetic, and rounds to 58, while 23 / 40 is rounded to a number below
    0.575, so that the code arrives at 57.49999999999999 and returns 57. *)
Lemma calculateSavingsRate_product_first_counterexample :
  calculateSavingsRate 40 17 = 57
  /\ Math_round (100 * (40 - 17) / 40) = 58
  /\ (JS.Math_round (100 * (40 - 17) / 40) == 58)%Q
  /\ calculateSavingsRate 40 17 <> Math_round (100 * (40 - 17) / 40).
Proof.
  split; [reflexivity|]. split; [reflexivity|]. split; [reflexivity|].
  intros E. apply (f_equal (fun x => x =? 58)) in E. vm_compute in E. discriminate E.
Qed.

End SavingsRateDouble.

(** ** Weighted average *)

Module WeightedAverageDouble.
Import JS Floats Double DoubleFacts DoubleSpec DoubleSamples Forecast.
Local Open Scope float_scope.

(** The loop of [calculateWeightedAverage], resumed at index
    [length done] of [done ++ rest], adds the weighted values to the first
    counter and the weights to the second, in index order. *)
Lemma forEach_from_weighted (n : nat) (rest : list float) :
  forall (done : list float) (weightedSum totalWeight : float),
    forEach_from
      (fun value index '(weightedSum, totalWeight) =>
         let weight := of_Z (Z.of_nat n - Z.of_nat index) in
         (weightedSum + value * weight, totalWeight + weight))
      (List.length done) rest (weightedSum, totalWeight)
    = (fold_left (fun sum index => sum + nth index (done ++ rest) 0 * weightAt n index)
                 (seq (List.length done) (List.length rest)) weightedSum,
       fold_left (fun total index => total + weightAt n index)
                 (seq (List.length done) (List.length rest)) totalWeight).
Proof.
  induction rest as [|value rest IH]; intros done weightedSum totalWeight.
  - reflexivity.
  - cbn [forEach_from List.length seq fold_left].
    assert (N : nth (List.length done) (done ++ value :: rest) 0 = value).
    { rewrite app_nth2, Nat.sub_diag by lia. reflexivity. }
    rewrite N.
    specialize (IH (done ++ [value])).
    rewrite <- app_assoc, length_app in IH. cbn [List.length app] in IH.
    rewrite Nat.add_1_r in IH.
    apply IH.
Qed.

(** The weights of up to 1000 values add up to a positive number. *)
Lemma weightSum_positive (n : nat) : (0 < n <= 1000)%nat -> gt (weightSum n) 0 = true.
Proof.
  intros B.
  assert (A : forallb (fun k => gt (weightSum k) 0) (seq 1 1000) = true)
    by (vm_compute; reflexivity).
  rewrite forallb_forall in A. apply A. apply in_seq. lia.
Qed.

(** Up to 1000, the number before a whole number is that number less 1,
    the subtraction being exact. *)
Lemma weight_before (k : nat) :
  (1 <= k <= 1000)%nat -> of_Z (Z.of_nat k - 1) = of_Z (Z.of_nat k) - 1.
Proof.
  intros B.
  assert (A : forallb (fun j => Leibniz.eqb (of_Z (Z.of_nat j - 1)) (of_Z (Z.of_nat j) - 1))
                      (seq 1 1000) = true)
    by (vm_compute; reflexivity).
  rewrite forallb_forall in A. apply FloatAxioms.Leibniz.eqb_spec, A, in_seq. lia.
Qed.

(** C7, as the code has it.  [calculateWeightedAverage] gives the value at
    index [i] of [n] values the weight [n - i] (so [n] at index 0, one less
    at each next index, 1 at the last index) and returns the weighted sum
    divided by the sum of the weights, both added up in index order in
    binary64, rounded to the nearest integer; the empty list gives 0;
    [[100]] gives 100 and [[200; 100]] gives 167.  The code returns 0
    should the weights not add up to a positive number; for up to 1000
    values they do. *)
Theorem calculateWeightedAverage_double (values : list float) :
  let n := List.length values in
  (values = [] -> calculateWeightedAverage values = 0) /\
  (values <> [] ->
   calculateWeightedAverage values
   = if gt (weightSum n) 0 then Math_round (weightedSum values / weightSum n) else 0) /\
  (values <> [] -> (n <= 1000)%nat ->
   calculateWeightedAverage values = Math_round (weightedSum values / weightSum n)) /\
  weightAt n 0 = of_Z (Z.of_nat n) /\
  ((n <= 1000)%nat -> forall i, (S i < n)%nat -> weightAt n (S i) = weightAt n i - 1) /\
  ((0 < n)%nat -> weightAt n (n - 1) = 1) /\
  calculateWeightedAverage [] = 0 /\
  calculateWeightedAverage [100] = 100 /\
  calculateWeightedAverage [200; 100] = 167.
Proof.
  intros n.
  assert (General : values <> [] ->
                    calculateWeightedAverage values
                    = if gt (weightSum n) 0
                      then Math_round (weightedSum values / weightSum n) else 0).
  { intros NE. unfold calculateWeightedAverage.
    assert (Hn : (0 < n)%nat).
    { subst n. destruct values; [congruence|simpl; lia]. }
    replace (List.length values =? 0)%nat with false
      by (symmetry; apply Nat.eqb_neq; fold n; lia).
    unfold forEach.
    pose proof (forEach_from_weighted (List.length values) values [] 0 0) as S.
    cbn [List.length app] in S. rewrite S. reflexivity. }
  split; [intros ->; reflexivity|]. split; [exact General|]. split.
  { intros NE B. rewrite (General NE), weightSum_positive; [reflexivity|].
    split; [|exact B]. subst n. destruct values; [congruence|simpl; lia]. }
  split.
  { unfold weightAt. f_equal. simpl. lia. }
  split.
  { intros B i L. unfold weightAt.
    replace (Z.of_nat n - Z.of_nat (S i))%Z with (Z.of_nat (n - i) - 1)%Z by lia.
    replace (Z.of_nat n - Z.of_nat i)%Z with (Z.of_nat (n - i)) by lia.
    apply weight_before. lia. }
  split.
  { intros Hn. unfold weightAt.
    replace (Z.of_nat n - Z.of_nat (n - 1))%Z with 1%Z by lia. reflexivity. }
  repeat split; reflexivity.
Qed.

Lemma calculateWeightedAverage_double_witness :
  calculateWeightedAverage [] = 0 /\
  calculateWeightedAverage [300; 200; 100] = 233 /\
  calculateWeightedAverage threeAmounts = 182.
Proof.
  destruct (calculateWeightedAverage_double []) as [Hnil _].
  destruct (calculateWeightedAverage_double [300; 200; 100]) as [_ [_ [Hcons _]]].
  destruct (calculateWeightedAverage_double threeAmounts) as [_ [_ [Hdec _]]].
  split; [|split].
  - apply Hnil. reflexivity.
  - rewrite Hcons; [reflexivity|discriminate|simpl; lia].
  - rewrite Hdec; [reflexivity|discriminate|simpl; lia].
Defined.

(** C7 as the specification words it fails on the values 198.43, 244.05 and
    11.61: the weighted average of these three binary64 numbers is just
    above 182.5 (and that of the three decimal numbers is 182.5), which
    rounds to 183, while the sum the code accumulates is rounded to
    1094.9999999999998 and the code returns 182. *)
Lemma calculateWeightedAverage_exact_counterexample :
  calculateWeightedAverage threeAmounts = 182
  /\ (JS.Math_round (exactWeightedAverage threeAmounts) == 183)%Q
  /\ (JS.Math_round ((3 * (19843 # 100) + 2 * (24405 # 100) + 1 * (1161 # 100)) / (3 + 2 + 1))
      == 183)%Q.
Proof.
  split; [reflexivity|]. split; vm_compute; reflexivity.
Qed.

End WeightedAverageDouble.

(** ** Budgets: the status of a category *)

Module BudgetStatusDouble.
Import JS Floats Double DoubleFacts DoubleSpec DoubleSamples BudgetService.
Local Open Scope float_scope.

Lemma checkAndReset_entries_double (now : Date) (s : LocalStorage.t) :
  LocalStorage.STORAGE_KEY (checkAndResetMonthlyBudgets now s) = LocalStorage.STORAGE_KEY s.
Proof.
  unfold checkAndResetMonthlyBudgets.
  destruct (getLastBudgetMonth s) as [last|]; [|reflexivity].
  destruct (_ || _)%bool; reflexivity.
Qed.

(** A second read under the same clock finds nothing left to carry over. *)
Lemma checkAndReset_idempotent_double (now : Date) (s : LocalStorage.t) :
  checkAndResetMonthlyBudgets now (checkAndResetMonthlyBudgets now s)
  = checkAndResetMonthlyBudgets now s.
Proof.
  unfold checkAndResetMonthlyBudgets at 2 3.
  destruct (getLastBudgetMonth s) as [last|] eqn:L.
  - destruct ((negb (BudgetMonth.month last =? getMonth now)%Z
               || negb (BudgetMonth.year last =? getFullYear now)%Z)%bool) eqn:G.
    + unfold checkAndResetMonthlyBudgets, getLastBudgetMonth, updateLastBudgetMonth.
      cbn [LocalStorage.BUDGET_MONTH_KEY LocalStorage.set_BUDGET_MONTH_KEY
           BudgetMonth.month BudgetMonth.year].
      now rewrite !Z.eqb_refl.
    + unfold checkAndResetMonthlyBudgets. now rewrite L, G.
  - unfold checkAndResetMonthlyBudgets. now rewrite L.
Qed.

Lemma getCategorySpending_entries_double `{Host} (s s' : LocalStorage.t)
      (category : Category) (year month : Z) :
  LocalStorage.STORAGE_KEY s' = LocalStorage.STORAGE_KEY s ->
  getCategorySpending s' category year month = getCategorySpending s category year month.
Proof.
  intros E. unfold getCategorySpending, Storage.getEntriesByMonth, Storage.getEntries.
  now rewrite E.
Qed.

Lemma getBudgetStatus_store_double `{Host} (now : Date) (s : LocalStorage.t)
      (category : Category) :
  snd (getBudgetStatus now s category) = checkAndResetMonthlyBudgets now s.
Proof.
  unfold getBudgetStatus, getBudgetForCategory, getBudgets.
  destruct (strict_eq _ 0); reflexivity.
Qed.

Lemma getBudgetStatus_after_read_double `{Host} (now : Date) (s : LocalStorage.t)
      (category : Category) :
  getBudgetStatus now (checkAndResetMonthlyBudgets now s) category
  = getBudgetStatus now s category.
Proof.
  unfold getBudgetStatus, getBudgetForCategory, getBudgets.
  now rewrite checkAndReset_idempotent_double.
Qed.

Lemma statusesOf_each_double `{Host} (now : Date) (categories : list Category) :
  forall s,
    fst (statusesOf now s categories)
    = map (fun cat => fst (getBudgetStatus now s cat)) categories.
Proof.
  induction categories as [|cat rest IH]; intros s; [reflexivity|].
  cbn [statusesOf map].
  destruct (getBudgetStatus now s cat) as [status s1] eqn:E.
  assert (E1 : s1 = checkAndResetMonthlyBudgets now s)
    by (rewrite <- (getBudgetStatus_store_double now s cat), E; reflexivity).
  specialize (IH s1).
  destruct (statusesOf now s1 rest) as [others s2].
  cbn [fst] in IH |- *. rewrite IH. f_equal.
  apply map_ext. intros c. now rewrite E1, getBudgetStatus_after_read_double.
Qed.

Lemma In_getAllBudgetStatuses_double `{Host} (now : Date) (s : LocalStorage.t)
      (row : CategoryBudgetStatus.t) :
  In row (fst (getAllBudgetStatuses now s))
  <-> exists cat, In cat CATEGORIES /\ fst (getBudgetStatus now s cat) = Some row.
Proof.
  unfold getAllBudgetStatuses.
  pose proof (statusesOf_each_double now CATEGORIES s) as E.
  destruct (statusesOf now s CATEGORIES) as [statuses s1].
  cbn [fst] in E |- *. rewrite E, in_flat_map. split.
  - intros [status [I R]]. apply in_map_iff in I. destruct I as [cat [<- I]].
    exists cat. split; [exact I|].
    destruct (fst (getBudgetStatus now s cat)) as [st|]; [|contradiction].
    destruct R as [->|[]]. reflexivity.
  - intros [cat [I E1]]. exists (Some row). split.
    + apply in_map_iff. exists cat. now split.
    + left. reflexivity.
Qed.

(** The tiers: red from 90 up, yellow from 70 up to 90, green below 70
    and for a percentage that is not a number. *)
Lemma statusOf_tiers_double (percentage : float) :
  (statusOf percentage = red <-> ge percentage 90 = true) /\
  (statusOf percentage = yellow
   <-> ge percentage 70 = true /\ lt percentage 90 = true) /\
  (statusOf percentage = green
   <-> lt percentage 70 = true \/ is_nan percentage = true).
Proof.
  unfold statusOf.
  destruct (ge percentage 90) eqn:R.
  - pose proof (ge_90_70 R) as Y. pose proof (ge_number R) as N.
    split; [tauto|]. split.
    + split; [discriminate|]. intros [_ L]. apply lt_excludes_ge in L. congruence.
    + split; [discriminate|]. intros [L|K]; [|congruence].
      apply lt_excludes_ge in L. congruence.
  - destruct (ge percentage 70) eqn:Y.
    + pose proof (ge_number Y) as N.
      split; [split; [discriminate|intros K; discriminate K]|]. split.
      * split; [|reflexivity]. intros _. split; [reflexivity|].
        apply not_ge_lt; [exact N|reflexivity|exact R].
      * split; [discriminate|]. intros [L|K]; [|congruence].
        apply lt_excludes_ge in L. congruence.
    + split; [split; [discriminate|intros K; discriminate K]|]. split.
      * split; [discriminate|]. intros [K _]. discriminate K.
      * split; [|reflexivity]. intros _.
        destruct (is_nan percentage) eqn:N; [right; reflexivity|left].
        apply not_ge_lt; [exact N|reflexivity|exact Y].
Qed.

Lemma isCurrent_true_double (now : Date) (category : Category) (b : Budget.t) :
  isCurrent now category b = true
  <-> Budget.category b = category
      /\ Budget.month b = getMonth now /\ Budget.year b = getFullYear now.
Proof.
  unfold isCurrent. rewrite !andb_true_iff, !Z.eqb_eq.
  assert (C : Category_eqb (Budget.category b) category = true
              <-> Budget.category b = category).
  { destruct (Budget.category b), category; simpl; split;
      solve [reflexivity | discriminate]. }
  rewrite C. tauto.
Qed.

Lemma getBudgetStatus_category_double `{Host} (now : Date) (s : LocalStorage.t)
      (category : Category) (row : CategoryBudgetStatus.t) :
  fst (getBudgetStatus now s category) = Some row ->
  CategoryBudgetStatus.category row = category.
Proof.
  unfold getBudgetStatus.
  destruct (getBudgetForCategory now s category) as [budgetAmount s1].
  destruct (strict_eq budgetAmount 0); cbn [fst]; [discriminate|].
  intros E. injection E as <-. reflexivity.
Qed.

(** C6, as the code has it.  A category whose budget row for the current
    month has an amount other than zero gets a status row, listed among all
    statuses, that carries the budget and the spend; its percentage is
    [(spent / budget) * 100], the quotient taken first and each operation
    rounded to binary64; its tier is chosen from that percentage: red from
    90 up, yellow from 70 up to 90, green below 70 (and for a percentage
    that is not a number); a category with no budget row for the current
    month gets none.  The rows are those read by [getBudgets].  A
    percentage of 89.9 is yellow, 90 red, 69.9 green and 70 yellow. *)
Theorem getBudgetStatus_quotient_first `{Host} (now : Date) (s : LocalStorage.t)
        (category : Category) :
  let budgets := fst (getBudgets now s) in
  let spent := getCategorySpending s category (getFullYear now) (getMonth now) in
  (forall b, find (isCurrent now category) budgets = Some b ->
             truthy (Budget.amount b) = true ->
             exists row,
               fst (getBudgetStatus now s category) = Some row
               /\ In row (fst (getAllBudgetStatuses now s))
               /\ CategoryBudgetStatus.category row = category
               /\ CategoryBudgetStatus.budgetAmount row = Budget.amount b
               /\ CategoryBudgetStatus.spentAmount row = spent
               /\ CategoryBudgetStatus.percentage row = (spent / Budget.amount b) * 100
               /\ (CategoryBudgetStatus.status row = red
                   <-> ge (CategoryBudgetStatus.percentage row) 90 = true)
               /\ (CategoryBudgetStatus.status row = yellow
                   <-> ge (CategoryBudgetStatus.percentage row) 70 = true
                       /\ lt (CategoryBudgetStatus.percentage row) 90 = true)
               /\ (CategoryBudgetStatus.status row = green
                   <-> lt (CategoryBudgetStatus.percentage row) 70 = true
                       \/ is_nan (CategoryBudgetStatus.percentage row) = true)) /\
  ((forall b, In b budgets ->
              ~ (Budget.category b = category
                 /\ Budget.month b = getMonth now /\ Budget.year b = getFullYear now)) ->
   fst (getBudgetStatus now s category) = None
   /\ forall row, In row (fst (getAllBudgetStatuses now s)) ->
                  CategoryBudgetStatus.category row <> category) /\
  statusOf (899 / 10) = yellow /\ statusOf 90 = red /\
  statusOf (699 / 10) = green /\ statusOf 70 = yellow.
Proof.
  intros budgets spent. split; [|split; [|repeat split]].
  - intros b F T.
    assert (NZ : strict_eq (Budget.amount b) 0 = false).
    { unfold truthy in T. apply andb_true_iff in T. destruct T as [T _].
      unfold strict_eq. now destruct (Budget.amount b =? 0). }
    assert (E : getBudgetStatus now s category
                = (Some (CategoryBudgetStatus.mk
                           category (Budget.amount b) spent (Budget.amount b - spent)
                           ((spent / Budget.amount b) * 100)
                           (statusOf ((spent / Budget.amount b) * 100))),
                   checkAndResetMonthlyBudgets now s)).
    { unfold getBudgetStatus, getBudgetForCategory.
      subst budgets. unfold getBudgets in F |- *. cbn [fst] in F. rewrite F, T, NZ.
      unfold spent.
      now rewrite (getCategorySpending_entries_double
                     _ _ _ _ _ (checkAndReset_entries_double now s)). }
    eexists. rewrite E. cbn [fst]. split; [reflexivity|]. split.
    { apply In_getAllBudgetStatuses_double. exists category.
      split; [apply BudgetStatusFacts.In_CATEGORIES|]. now rewrite E. }
    cbn [CategoryBudgetStatus.category CategoryBudgetStatus.percentage
         CategoryBudgetStatus.status CategoryBudgetStatus.budgetAmount
         CategoryBudgetStatus.spentAmount].
    split; [reflexivity|]. split; [reflexivity|]. split; [reflexivity|].
    split; [reflexivity|].
    apply statusOf_tiers_double.
  - intros NoRow.
    assert (E : fst (getBudgetStatus now s category) = None).
    { unfold getBudgetStatus, getBudgetForCategory.
      subst budgets. unfold getBudgets in NoRow |- *. cbn [fst] in NoRow.
      destruct (find (isCurrent now category) _) as [b|] eqn:F.
      - exfalso. apply find_some in F. destruct F as [I C].
        apply isCurrent_true_double in C. exact (NoRow b I C).
      - reflexivity. }
    split; [exact E|].
    intros row I C. apply In_getAllBudgetStatuses_double in I. destruct I as [cat [_ R]].
    pose proof (getBudgetStatus_category_double _ _ _ R) as K.
    rewrite C in K. subst cat. congruence.
Qed.

Lemma getBudgetStatus_quotient_first_witness :
  (exists row,
      fst (@getBudgetStatus ExampleHost.host Samples.march14 statusStore Shopping) = Some row
      /\ CategoryBudgetStatus.percentage row = (899 / 1000) * 100
      /\ CategoryBudgetStatus.status row = yellow)
  /\ fst (@getBudgetStatus ExampleHost.host Samples.march14 statusStore Meals) = None.
Proof.
  destruct (@getBudgetStatus_quotient_first ExampleHost.host Samples.march14 statusStore Shopping)
    as [Given _].
  destruct (@getBudgetStatus_quotient_first ExampleHost.host Samples.march14 statusStore Meals)
    as [_ [Unset _]].
  split.
  - destruct (Given (Budget.mk Shopping 1000 2 2024) eq_refl eq_refl)
      as [row [E [_ [_ [_ [_ [P [_ [Y _]]]]]]]]].
    exists row. split; [exact E|]. split; [exact P|].
    apply Y. rewrite P. split; reflexivity.
  - apply Unset. intros b [<-|[]] [C _]. discriminate.
Defined.

(** C6 as the specification words it fails for a budget of 9 with 0.9 and
    7.2 spent: [100 * spent / budget] is 90, in binary64 as in exact
    arithmetic, which is red, while the quotient the code takes first is
    rounded below 0.9, so that its percentage is 89.99999999999999 and the
    tier yellow. *)
Lemma getBudgetStatus_product_first_counterexample :
  exists row,
    fst (@getBudgetStatus ExampleHost.host Samples.march14 tenthsStore Shopping) = Some row
    /\ CategoryBudgetStatus.status row = yellow
    /\ lt (CategoryBudgetStatus.percentage row) 90 = true
    /\ 100 * CategoryBudgetStatus.spentAmount row / CategoryBudgetStatus.budgetAmount row = 90
    /\ (90 <= 100 * (exactValue (9 / 10) + exactValue (72 / 10)) / exactValue 9)%Q
    /\ (100 * ((9 # 10) + (72 # 10)) / 9 == 90)%Q.
Proof.
  eexists. split; [reflexivity|]. cbn [CategoryBudgetStatus.status
    CategoryBudgetStatus.percentage CategoryBudgetStatus.spentAmount
    CategoryBudgetStatus.budgetAmount].
  split; [reflexivity|]. split; [reflexivity|]. split; [reflexivity|].
  split; vm_compute; [discriminate|reflexivity].
Qed.

End BudgetStatusDouble.

(** ** The months the services read *)

Module MonthFacts.
Import JS Floats Double DoubleSpec DoubleSamples Analytics.
Local Open Scope Z_scope.




(** On the last days of a month that is longer than the one before it, the
    day of the month kept by [setMonth] runs past the end of the shorter
    month: on 31 March 2024 the clock set back by one month is 2 March, in
    the month of the clock itself. *)
Lemma getMonthDate_month_end :
  getMonthDate march31 1 = (2024, 2) /\ monthsBack march31 1 = (2024, 1).
Proof. split; reflexivity. Qed.
End MonthFacts.

(** ** Category growth *)

Module CategoryGrowthDouble.
Import JS Floats Double DoubleFacts DoubleSpec DoubleSamples Analytics.
Local Open Scope float_scope.




End CategoryGrowthDouble.

(** ** Trends *)

Module TrendDouble.
Import JS Floats Double DoubleFacts DoubleSpec DoubleSamples Analytics.
Local Open Scope float_scope.












End TrendDouble.
